(** * The capture-and-analyze orchestration of the AI screen assistant

    A shallow embedding of the Electron main process
    ([electron-app/main/main.js]), of the vision client
    ([electron-app/main/api.js]) and of the screenshot module, followed by the
    properties of the orchestration cycle: single-flight capture, the guard's
    release on every exit path, permission and credential gates, error
    classification, the auto-capture timer and the settings update handler.

    The main process is single-threaded and event driven.  The module-level
    variables of the JavaScript sources become the fields of [State]; an
    [async] function is cut at its [await]s into segments written in a small
    monad whose completions are "returned", "threw" or "suspended at an
    await"; the host (event loop, interval timers, pending promises, IPC) is a
    function [step] taking one event of the environment at a time.

    A continuation that follows an [await] on an already settled promise
    runs in the same turn of the event loop, before any other event is
    dispatched, so such an [await] does not end a segment.  Calls into the
    host that the sources do not guard ([webContents.send], [store.get],
    [store.set], [Notification], the logger) are taken to return. *)

From Stdlib Require Import ZArith NArith Bool Ascii String List Lia.
From Stdlib Require Import DecimalString SpecFloat.
Import ListNotations.
Local Open Scope string_scope.
Local Open Scope Z_scope.

(** ** Values exchanged with the collaborators *)

(** A JavaScript error object: [message], and for the errors of the HTTP
    client the [response] ([status] and [data?.error?.message]) and the
    transport [code]. *)
Record HttpErrorResponse := {
  status : Z;
  providerMessage : option string
}.

Record JsError := {
  message : string;
  response : option HttpErrorResponse;
  code : option string
}.

(** [new Error(msg)] *)
Definition Error (msg : string) : JsError :=
  {| message := msg; response := None; code := None |}.

(** What [await screenshot({ format: 'png' })] settles to: a buffer (its
    length and its base64 text) or a rejection. *)
Inductive ScreenshotResult :=
| ScreenshotBuffer (length : N) (base64 : string)
| ScreenshotRejected (e : JsError).

(** A JavaScript string that the code measures and cuts: the sequence of its
    UTF-16 code units, which is what [length] counts and where [substring]
    cuts.  The other strings of the program (messages of errors, log lines,
    keys, channel names) are only compared, searched for ASCII words and
    concatenated; they are kept as the bytes of their UTF-8 form. *)
Definition JsString := list N.

(** The code units of an ASCII literal. *)
Definition units (literal : string) : JsString :=
  map N_of_ascii (list_ascii_of_string literal).

(** A value parsed from a JSON body, or [undefined]: numbers are IEEE 754
    doubles; an array or an object is kept as its JSON text. *)
Inductive JsValue :=
| VUndefined
| VNull
| VBoolean (b : bool)
| VNumber (x : spec_float)
| VString (text : JsString)
| VObject (json : string).

(** JavaScript truthiness: [undefined], [null], [false], [0], [-0], [NaN] and
    the empty string are falsy. *)
Definition truthyValue (v : JsValue) : bool :=
  match v with
  | VUndefined | VNull => false
  | VBoolean b => b
  | VNumber (S754_zero _) | VNumber S754_nan => false
  | VNumber _ => true
  | VString [] => false
  | VString (_ :: _) => true
  | VObject _ => true
  end.

(** The body of a 2xx answer, as far as [analyzeImage] looks into it:
    [response.data.choices] missing, or what
    [choices[0]?.message?.content] evaluates to, [undefined] where the
    optional chain stops short.  The content is whatever JSON value the
    provider sent; nothing makes it a string. *)
Inductive ResponseData :=
| DataNoChoices
| DataContent (content : JsValue).

(** What [await axios.post(...)] settles to. *)
Inductive AxiosOutcome :=
| AxiosResponse (data : ResponseData)
| AxiosReject (e : JsError).

(** The payload of a [capture-complete] message. *)
Inductive CaptureComplete :=
| CompleteSuccess (analysis : JsValue) (timestamp : Z)
| CompleteFailure (error : string).

Definition success (p : CaptureComplete) : bool :=
  match p with CompleteSuccess _ _ => true | CompleteFailure _ => false end.

(** Messages sent to the renderer with [mainWindow.webContents.send]. *)
Inductive Msg :=
| MsgCaptureStarted
| MsgAnalyzing
| MsgCaptureComplete (p : CaptureComplete)
| MsgAutoCaptureStatus (enabled : bool).

Definition isCaptureComplete (m : Msg) : bool :=
  match m with MsgCaptureComplete _ => true | _ => false end.

(** ** The settings store *)

Record Settings := {
  captureInterval : Z;
  autoCapture : bool;
  openaiApiKey : string;
  minimizeToTray : bool;
  showNotifications : bool
}.

(** The [defaults] given to [new Store]. *)
Definition defaults : Settings :=
  {| captureInterval := 10000;
     autoCapture := false;
     openaiApiKey := "";
     minimizeToTray := true;
     showNotifications := true |}.

Definition set_captureInterval (v : Z) (st : Settings) : Settings :=
  {| captureInterval := v; autoCapture := autoCapture st;
     openaiApiKey := openaiApiKey st; minimizeToTray := minimizeToTray st;
     showNotifications := showNotifications st |}.

Definition set_autoCapture (v : bool) (st : Settings) : Settings :=
  {| captureInterval := captureInterval st; autoCapture := v;
     openaiApiKey := openaiApiKey st; minimizeToTray := minimizeToTray st;
     showNotifications := showNotifications st |}.

Definition set_openaiApiKey (v : string) (st : Settings) : Settings :=
  {| captureInterval := captureInterval st; autoCapture := autoCapture st;
     openaiApiKey := v; minimizeToTray := minimizeToTray st;
     showNotifications := showNotifications st |}.

Definition set_minimizeToTray (v : bool) (st : Settings) : Settings :=
  {| captureInterval := captureInterval st; autoCapture := autoCapture st;
     openaiApiKey := openaiApiKey st; minimizeToTray := v;
     showNotifications := showNotifications st |}.

Definition set_showNotifications (v : bool) (st : Settings) : Settings :=
  {| captureInterval := captureInterval st; autoCapture := autoCapture st;
     openaiApiKey := openaiApiKey st; minimizeToTray := minimizeToTray st;
     showNotifications := v |}.

(** The object handed to the [update-settings] handler.  [None] is a field
    that is [undefined] in the object.  The object may carry any field of the
    settings, [autoCapture] included. *)
Record SettingsUpdate := {
  u_captureInterval : option Z;
  u_autoCapture : option bool;
  u_openaiApiKey : option string;
  u_minimizeToTray : option bool;
  u_showNotifications : option bool
}.

(** ** The host: interval timers and suspended async functions *)

(** An armed interval timer of the host. *)
Record Timer := {
  tid : nat;
  delay : Z;
  due : Z
}.

(** The [await]s at which the modelled async functions suspend. *)
Inductive Pending :=
| AtDialog          (* await dialog.showMessageBox(...) *)
| AtCaptureScreen   (* await captureScreen() *)
| AtAnalyzeImage.   (* await analyzeImage(screenshot) *)

(** Who awaits [requestScreenCapturePermission()]. *)
Inductive PermissionWaiter :=
| ForCaptureNow (req : nat)
| ForToggle (req : nat) (enabled : bool)
| ForReady.

(** Who awaits [performCapture()]: the interval callback, or the
    [capture-now] handler holding its [hasPermission]. *)
Inductive Caller :=
| ByTimer
| ByCaptureNow (req : nat) (hasPermission : bool).

(** A suspended async call chain. *)
Inductive Task :=
| TaskDialog (w : PermissionWaiter)
| TaskPipeline (c : Caller) (p : Pending).

Definition isPipeline (t : Task) : bool :=
  match t with TaskPipeline _ _ => true | TaskDialog _ => false end.

(** ** The state of the main process *)

(** The module-level variables of [main.js] and [api.js], the host's clock,
    timers and suspended tasks, and what the process has done so far:
    messages sent to the renderer, handler replies, log lines, notifications,
    rejections nobody handled, and how often the screenshot collaborator,
    [analyzeImage] and the HTTP client were invoked. *)
Record State := {
  (* process *)
  platform : string;
  now : Z;
  (* main.js *)
  mainWindow : bool;
  captureIntervalId : option nat;
  isCapturing : bool;
  isQuitting : bool;
  store : Settings;
  (* api.js *)
  apiKey : string;
  (* host *)
  timers : list Timer;
  nextTimerId : nat;
  tasks : list Task;
  (* observable effects *)
  sent : list Msg;
  replies : list (nat * bool);
  logs : list (string * string);
  notifications : list (string * JsString);
  captureCalls : nat;
  analyzeCalls : nat;
  networkCalls : nat;
  uncaught : list JsError
}.

Definition set_now (v : Z) (s : State) : State :=
  {| platform := platform s; now := v; mainWindow := mainWindow s;
     captureIntervalId := captureIntervalId s; isCapturing := isCapturing s;
     isQuitting := isQuitting s; store := store s; apiKey := apiKey s;
     timers := timers s; nextTimerId := nextTimerId s; tasks := tasks s;
     sent := sent s; replies := replies s; logs := logs s;
     notifications := notifications s; captureCalls := captureCalls s;
     analyzeCalls := analyzeCalls s; networkCalls := networkCalls s;
     uncaught := uncaught s |}.

Definition set_mainWindow (v : bool) (s : State) : State :=
  {| platform := platform s; now := now s; mainWindow := v;
     captureIntervalId := captureIntervalId s; isCapturing := isCapturing s;
     isQuitting := isQuitting s; store := store s; apiKey := apiKey s;
     timers := timers s; nextTimerId := nextTimerId s; tasks := tasks s;
     sent := sent s; replies := replies s; logs := logs s;
     notifications := notifications s; captureCalls := captureCalls s;
     analyzeCalls := analyzeCalls s; networkCalls := networkCalls s;
     uncaught := uncaught s |}.

Definition set_captureIntervalId (v : option nat) (s : State) : State :=
  {| platform := platform s; now := now s; mainWindow := mainWindow s;
     captureIntervalId := v; isCapturing := isCapturing s;
     isQuitting := isQuitting s; store := store s; apiKey := apiKey s;
     timers := timers s; nextTimerId := nextTimerId s; tasks := tasks s;
     sent := sent s; replies := replies s; logs := logs s;
     notifications := notifications s; captureCalls := captureCalls s;
     analyzeCalls := analyzeCalls s; networkCalls := networkCalls s;
     uncaught := uncaught s |}.

Definition set_isCapturing (v : bool) (s : State) : State :=
  {| platform := platform s; now := now s; mainWindow := mainWindow s;
     captureIntervalId := captureIntervalId s; isCapturing := v;
     isQuitting := isQuitting s; store := store s; apiKey := apiKey s;
     timers := timers s; nextTimerId := nextTimerId s; tasks := tasks s;
     sent := sent s; replies := replies s; logs := logs s;
     notifications := notifications s; captureCalls := captureCalls s;
     analyzeCalls := analyzeCalls s; networkCalls := networkCalls s;
     uncaught := uncaught s |}.

Definition set_isQuitting (v : bool) (s : State) : State :=
  {| platform := platform s; now := now s; mainWindow := mainWindow s;
     captureIntervalId := captureIntervalId s; isCapturing := isCapturing s;
     isQuitting := v; store := store s; apiKey := apiKey s;
     timers := timers s; nextTimerId := nextTimerId s; tasks := tasks s;
     sent := sent s; replies := replies s; logs := logs s;
     notifications := notifications s; captureCalls := captureCalls s;
     analyzeCalls := analyzeCalls s; networkCalls := networkCalls s;
     uncaught := uncaught s |}.

Definition set_store (v : Settings) (s : State) : State :=
  {| platform := platform s; now := now s; mainWindow := mainWindow s;
     captureIntervalId := captureIntervalId s; isCapturing := isCapturing s;
     isQuitting := isQuitting s; store := v; apiKey := apiKey s;
     timers := timers s; nextTimerId := nextTimerId s; tasks := tasks s;
     sent := sent s; replies := replies s; logs := logs s;
     notifications := notifications s; captureCalls := captureCalls s;
     analyzeCalls := analyzeCalls s; networkCalls := networkCalls s;
     uncaught := uncaught s |}.

Definition set_apiKey (v : string) (s : State) : State :=
  {| platform := platform s; now := now s; mainWindow := mainWindow s;
     captureIntervalId := captureIntervalId s; isCapturing := isCapturing s;
     isQuitting := isQuitting s; store := store s; apiKey := v;
     timers := timers s; nextTimerId := nextTimerId s; tasks := tasks s;
     sent := sent s; replies := replies s; logs := logs s;
     notifications := notifications s; captureCalls := captureCalls s;
     analyzeCalls := analyzeCalls s; networkCalls := networkCalls s;
     uncaught := uncaught s |}.

Definition set_timers (v : list Timer) (s : State) : State :=
  {| platform := platform s; now := now s; mainWindow := mainWindow s;
     captureIntervalId := captureIntervalId s; isCapturing := isCapturing s;
     isQuitting := isQuitting s; store := store s; apiKey := apiKey s;
     timers := v; nextTimerId := nextTimerId s; tasks := tasks s;
     sent := sent s; replies := replies s; logs := logs s;
     notifications := notifications s; captureCalls := captureCalls s;
     analyzeCalls := analyzeCalls s; networkCalls := networkCalls s;
     uncaught := uncaught s |}.

Definition set_nextTimerId (v : nat) (s : State) : State :=
  {| platform := platform s; now := now s; mainWindow := mainWindow s;
     captureIntervalId := captureIntervalId s; isCapturing := isCapturing s;
     isQuitting := isQuitting s; store := store s; apiKey := apiKey s;
     timers := timers s; nextTimerId := v; tasks := tasks s; sent := sent s;
     replies := replies s; logs := logs s; notifications := notifications s;
     captureCalls := captureCalls s; analyzeCalls := analyzeCalls s;
     networkCalls := networkCalls s; uncaught := uncaught s |}.

Definition set_tasks (v : list Task) (s : State) : State :=
  {| platform := platform s; now := now s; mainWindow := mainWindow s;
     captureIntervalId := captureIntervalId s; isCapturing := isCapturing s;
     isQuitting := isQuitting s; store := store s; apiKey := apiKey s;
     timers := timers s; nextTimerId := nextTimerId s; tasks := v;
     sent := sent s; replies := replies s; logs := logs s;
     notifications := notifications s; captureCalls := captureCalls s;
     analyzeCalls := analyzeCalls s; networkCalls := networkCalls s;
     uncaught := uncaught s |}.

Definition set_sent (v : list Msg) (s : State) : State :=
  {| platform := platform s; now := now s; mainWindow := mainWindow s;
     captureIntervalId := captureIntervalId s; isCapturing := isCapturing s;
     isQuitting := isQuitting s; store := store s; apiKey := apiKey s;
     timers := timers s; nextTimerId := nextTimerId s; tasks := tasks s;
     sent := v; replies := replies s; logs := logs s;
     notifications := notifications s; captureCalls := captureCalls s;
     analyzeCalls := analyzeCalls s; networkCalls := networkCalls s;
     uncaught := uncaught s |}.

Definition set_replies (v : list (nat * bool)) (s : State) : State :=
  {| platform := platform s; now := now s; mainWindow := mainWindow s;
     captureIntervalId := captureIntervalId s; isCapturing := isCapturing s;
     isQuitting := isQuitting s; store := store s; apiKey := apiKey s;
     timers := timers s; nextTimerId := nextTimerId s; tasks := tasks s;
     sent := sent s; replies := v; logs := logs s;
     notifications := notifications s; captureCalls := captureCalls s;
     analyzeCalls := analyzeCalls s; networkCalls := networkCalls s;
     uncaught := uncaught s |}.

Definition set_logs (v : list (string * string)) (s : State) : State :=
  {| platform := platform s; now := now s; mainWindow := mainWindow s;
     captureIntervalId := captureIntervalId s; isCapturing := isCapturing s;
     isQuitting := isQuitting s; store := store s; apiKey := apiKey s;
     timers := timers s; nextTimerId := nextTimerId s; tasks := tasks s;
     sent := sent s; replies := replies s; logs := v;
     notifications := notifications s; captureCalls := captureCalls s;
     analyzeCalls := analyzeCalls s; networkCalls := networkCalls s;
     uncaught := uncaught s |}.

Definition set_notifications (v : list (string * JsString)) (s : State)
    : State :=
  {| platform := platform s; now := now s; mainWindow := mainWindow s;
     captureIntervalId := captureIntervalId s; isCapturing := isCapturing s;
     isQuitting := isQuitting s; store := store s; apiKey := apiKey s;
     timers := timers s; nextTimerId := nextTimerId s; tasks := tasks s;
     sent := sent s; replies := replies s; logs := logs s;
     notifications := v; captureCalls := captureCalls s;
     analyzeCalls := analyzeCalls s; networkCalls := networkCalls s;
     uncaught := uncaught s |}.

Definition set_captureCalls (v : nat) (s : State) : State :=
  {| platform := platform s; now := now s; mainWindow := mainWindow s;
     captureIntervalId := captureIntervalId s; isCapturing := isCapturing s;
     isQuitting := isQuitting s; store := store s; apiKey := apiKey s;
     timers := timers s; nextTimerId := nextTimerId s; tasks := tasks s;
     sent := sent s; replies := replies s; logs := logs s;
     notifications := notifications s; captureCalls := v;
     analyzeCalls := analyzeCalls s; networkCalls := networkCalls s;
     uncaught := uncaught s |}.

Definition set_analyzeCalls (v : nat) (s : State) : State :=
  {| platform := platform s; now := now s; mainWindow := mainWindow s;
     captureIntervalId := captureIntervalId s; isCapturing := isCapturing s;
     isQuitting := isQuitting s; store := store s; apiKey := apiKey s;
     timers := timers s; nextTimerId := nextTimerId s; tasks := tasks s;
     sent := sent s; replies := replies s; logs := logs s;
     notifications := notifications s; captureCalls := captureCalls s;
     analyzeCalls := v; networkCalls := networkCalls s;
     uncaught := uncaught s |}.

Definition set_networkCalls (v : nat) (s : State) : State :=
  {| platform := platform s; now := now s; mainWindow := mainWindow s;
     captureIntervalId := captureIntervalId s; isCapturing := isCapturing s;
     isQuitting := isQuitting s; store := store s; apiKey := apiKey s;
     timers := timers s; nextTimerId := nextTimerId s; tasks := tasks s;
     sent := sent s; replies := replies s; logs := logs s;
     notifications := notifications s; captureCalls := captureCalls s;
     analyzeCalls := analyzeCalls s; networkCalls := v;
     uncaught := uncaught s |}.

Definition set_uncaught (v : list JsError) (s : State) : State :=
  {| platform := platform s; now := now s; mainWindow := mainWindow s;
     captureIntervalId := captureIntervalId s; isCapturing := isCapturing s;
     isQuitting := isQuitting s; store := store s; apiKey := apiKey s;
     timers := timers s; nextTimerId := nextTimerId s; tasks := tasks s;
     sent := sent s; replies := replies s; logs := logs s;
     notifications := notifications s; captureCalls := captureCalls s;
     analyzeCalls := analyzeCalls s; networkCalls := networkCalls s;
     uncaught := v |}.

(** The process right after the modules are loaded: no window yet, no timer,
    nothing in flight.  The store holds what the settings file held. *)
Definition initial (pf : string) (persisted : Settings) : State :=
  {| platform := pf; now := 0; mainWindow := false;
     captureIntervalId := None; isCapturing := false; isQuitting := false;
     store := persisted; apiKey := "";
     timers := []; nextTimerId := 0%nat; tasks := [];
     sent := []; replies := []; logs := []; notifications := [];
     captureCalls := 0%nat; analyzeCalls := 0%nat; networkCalls := 0%nat;
     uncaught := [] |}.

(** ** A monad for the synchronous segments of the code *)

(** How a segment ends: it returns, it throws, or it reaches an [await] whose
    promise is still pending. *)
Inductive Completion (A : Type) :=
| Normal (a : A)
| Thrown (e : JsError)
| Awaiting (p : Pending).

Arguments Normal {A} a.
Arguments Thrown {A} e.
Arguments Awaiting {A} p.

Definition M (A : Type) : Type := State -> Completion A * State.

Definition ret {A} (a : A) : M A := fun s => (Normal a, s).

Definition bind {A B} (m : M A) (k : A -> M B) : M B :=
  fun s =>
    match m s with
    | (Normal a, s1) => k a s1
    | (Thrown e, s1) => (Thrown e, s1)
    | (Awaiting p, s1) => (Awaiting p, s1)
    end.

Definition throw {A} (e : JsError) : M A := fun s => (Thrown e, s).

(** [await] on a promise the environment has yet to settle. *)
Definition await {A} (p : Pending) : M A := fun s => (Awaiting p, s).

Definition gets {A} (f : State -> A) : M A := fun s => (Normal (f s), s).

Definition modify (f : State -> State) : M unit := fun s => (Normal tt, f s).

Declare Scope js_scope.
Delimit Scope js_scope with js.
Notation "x <- c1 ;; c2" := (bind c1 (fun x => c2))
  (at level 61, c1 at next level, right associativity) : js_scope.
Notation "c1 ;; c2" := (bind c1 (fun _ => c2))
  (at level 61, right associativity) : js_scope.
Local Open Scope js_scope.

(** [if (c) { m }] *)
Definition when (c : bool) (m : M unit) : M unit :=
  if c then m else ret tt.

(** [try { body } catch (error) { handler }]: a body that suspends keeps its
    handler for the resumed segment. *)
Definition tryCatch {A} (body : M A) (handler : JsError -> M A) : M A :=
  fun s =>
    match body s with
    | (Thrown e, s1) => handler e s1
    | r => r
    end.

(** [try { body } catch (error) { handler } finally { fin }]: the finaliser
    runs when the body returns or throws, not while it is suspended. *)
Definition tryCatchFinally (body : M unit) (handler : JsError -> M unit)
    (fin : M unit) : M unit :=
  fun s =>
    match body s with
    | (Normal a, s1) => (fin ;; ret a) s1
    | (Thrown e, s1) =>
        match handler e s1 with
        | (Normal a, s2) => (fin ;; ret a) s2
        | (Thrown e', s2) => (fin ;; throw e') s2
        | (Awaiting p, s2) => (Awaiting p, s2)
        end
    | (Awaiting p, s1) => (Awaiting p, s1)
    end.

(** ** Primitives of the host and of the collaborators *)

(** JavaScript truthiness of a string: only the empty string is falsy. *)
Definition truthy (x : string) : bool := negb (x =? "")%string.

(** [x || fallback] on a possibly undefined string. *)
Definition orElse (x : option string) (fallback : string) : string :=
  match x with
  | Some v => if truthy v then v else fallback
  | None => fallback
  end.

(** [haystack.includes(needle)] *)
Definition includes (needle haystack : string) : bool :=
  match index 0 needle haystack with Some _ => true | None => false end.

(** Template-literal rendering of an integer. *)
Definition string_of_Z (z : Z) : string := NilZero.string_of_int (Z.to_int z).

(** [log(level, message)] of the logger module. *)
Definition log (level msg : string) : M unit :=
  modify (fun s => set_logs (logs s ++ [(level, msg)]) s).

(** [mainWindow.webContents.send(channel, payload)] *)
Definition send (m : Msg) : M unit :=
  modify (fun s => set_sent (sent s ++ [m]) s).

(** [if (mainWindow) { m }] *)
Definition ifMainWindow (m : M unit) : M unit :=
  w <- gets mainWindow ;; when w m.

(** [store.get(key)] and [store.set(key, value)] *)
Definition store_get {A} (key : Settings -> A) : M A :=
  gets (fun s => key (store s)).

Definition store_set (upd : Settings -> Settings) : M unit :=
  modify (fun s => set_store (upd (store s)) s).

(** The tray menu is rebuilt outside the modelled state. *)
Definition updateTrayMenu (enabled : bool) : M unit := ret tt.

(** [new Notification({ title, body }).show()] *)
Definition showNotification (title : string) (body : JsString) : M unit :=
  modify (fun s => set_notifications (notifications s ++ [(title, body)]) s).

(** The host's interval timers.  A delay outside [1 .. 2^31-1] is taken to be
    one millisecond; an interval timer does not fire before its delay has
    passed since it was armed, or since it last fired. *)
Definition TIMEOUT_MAX : Z := 2147483647.

Definition timerDelay (after : Z) : Z :=
  if (1 <=? after) && (after <=? TIMEOUT_MAX) then after else 1.

Definition setInterval (interval : Z) : M nat :=
  fun s =>
    let id := nextTimerId s in
    let t := {| tid := id; delay := timerDelay interval;
                due := now s + timerDelay interval |} in
    (Normal id, set_nextTimerId (S id) (set_timers (timers s ++ [t]) s)).

Definition clearInterval (id : nat) : M unit :=
  modify (fun s =>
    set_timers (filter (fun t => negb (tid t =? id)%nat) (timers s)) s).

(** ** screenshot module: [captureScreen] *)

Definition MSG_CAPTURE_PERMISSION : string :=
  "Screen capture permission denied. Please grant permission in system settings.".

(** The [catch] block of [captureScreen]. *)
Definition captureScreen_catch (error : JsError) : M string :=
  log "error" ("Screenshot capture failed: " ++ message error) ;;
  if includes "permission" (message error)
  then throw (Error MSG_CAPTURE_PERMISSION)
  else throw error.

(** [captureScreen()] up to its [await screenshot({ format: 'png' })]. *)
Definition captureScreen : M string :=
  tryCatch
    (log "info" "Initiating screen capture..." ;;
     modify (fun s => set_captureCalls (S (captureCalls s)) s) ;;
     await AtCaptureScreen)
    captureScreen_catch.

(** [captureScreen()] from the point where the screenshot promise settles.
    [Math.round(imgBuffer.length / 1024)] rounds halves up. *)
Definition captureScreen_resume (r : ScreenshotResult) : M string :=
  tryCatch
    (match r with
     | ScreenshotBuffer len base64Image =>
         log "info" ("Screenshot captured: "
                     ++ string_of_Z ((Z.of_N len + 512) / 1024) ++ "KB") ;;
         ret base64Image
     | ScreenshotRejected e => throw e
     end)
    captureScreen_catch.

(** ** api.js: [setApiKey] and [analyzeImage] *)

Definition setApiKey (key : string) : M unit := modify (set_apiKey key).

Definition MSG_INVALID_API_KEY : string :=
  "Invalid API key. Please check your OpenAI API key in Settings.".
Definition MSG_RATE_LIMIT : string :=
  "Rate limit exceeded. Please wait a moment before trying again.".
Definition MSG_SERVICE_UNAVAILABLE : string :=
  "OpenAI service is temporarily unavailable. Please try again later.".
Definition MSG_NETWORK : string :=
  "Network error. Please check your internet connection.".
Definition MSG_TIMEOUT : string :=
  "Request timed out. Please try again.".

Definition codeIs (error : JsError) (c : string) : bool :=
  match code error with Some c' => (c' =? c)%string | None => false end.

(** The [catch] block of [analyzeImage]. *)
Definition analyzeImage_catch (error : JsError) : M JsValue :=
  match response error with
  | Some resp =>
      let message := orElse (providerMessage resp) "Unknown API error" in
      log "error" ("API error " ++ string_of_Z (status resp) ++ ": " ++ message) ;;
      if status resp =? 401 then throw (Error MSG_INVALID_API_KEY)
      else if status resp =? 429 then throw (Error MSG_RATE_LIMIT)
      else if (status resp =? 500) || (status resp =? 502) || (status resp =? 503)
      then throw (Error MSG_SERVICE_UNAVAILABLE)
      else throw (Error ("API error: " ++ message))
  | None =>
      if codeIs error "ENOTFOUND" || codeIs error "ECONNREFUSED"
      then throw (Error MSG_NETWORK)
      else if codeIs error "ETIMEDOUT" || codeIs error "ECONNABORTED"
      then throw (Error MSG_TIMEOUT)
      else throw error
  end.

(** [analyzeImage(base64Image)] up to its [await axios.post(...)]. *)
Definition analyzeImage (base64Image : string) : M JsValue :=
  modify (fun s => set_analyzeCalls (S (analyzeCalls s)) s) ;;
  key <- gets apiKey ;;
  if negb (truthy key) then throw (Error "API key not configured")
  else
    tryCatch
      (log "info" "Sending image to OpenAI Vision API..." ;;
       modify (fun s => set_networkCalls (S (networkCalls s)) s) ;;
       await AtAnalyzeImage)
      analyzeImage_catch.

(** [analyzeImage] from the point where the request settles.  The content
    is tested for truthiness only and returned as it is. *)
Definition analyzeImage_resume (r : AxiosOutcome) : M JsValue :=
  tryCatch
    (match r with
     | AxiosResponse DataNoChoices =>
         throw (Error "Cannot read properties of undefined (reading '0')")
     | AxiosResponse (DataContent result) =>
         if negb (truthyValue result)
         then throw (Error "No response content from API")
         else log "info" "Analysis received successfully" ;; ret result
     | AxiosReject e => throw e
     end)
    analyzeImage_catch.

(** ** main.js *)

(** [requestScreenCapturePermission()], given what
    [systemPreferences.getMediaAccessStatus('screen')] answers.  Off macOS the
    status is not consulted. *)
Definition requestScreenCapturePermission (mediaAccessStatus : string) : M bool :=
  pf <- gets platform ;;
  if (pf =? "darwin")%string then
    if negb (mediaAccessStatus =? "granted")%string
    then await AtDialog
    else ret true
  else ret true.

(** Opening the system preferences pane leaves the modelled state alone. *)
Definition openSystemPreferences : M unit := ret tt.

(** [requestScreenCapturePermission()] from the point where the message box
    is answered with button [response]. *)
Definition requestScreenCapturePermission_resume (response : nat) : M bool :=
  when (response =? 0)%nat openSystemPreferences ;;
  ret false.

Definition MSG_NO_API_KEY : string :=
  "OpenAI API key not configured. Please add your API key in Settings.".

(** The [catch] and [finally] blocks of [performCapture]. *)
Definition performCapture_catch (error : JsError) : M unit :=
  log "error" ("Capture/analysis error: " ++ message error) ;;
  ifMainWindow
    (send (MsgCaptureComplete (CompleteFailure (message error)))).

Definition performCapture_finally : M unit :=
  modify (set_isCapturing false).

(** [analysis.substring(0, 100) + (analysis.length > 100 ? '...' : '')], the
    body of the notification.  On a string: its first 100 code units, with
    three dots when it has more.  On any other value [analysis.substring] is
    not callable, no value parsed from JSON holding a function, and the
    expression throws a [TypeError] before [analysis.length] is looked at. *)
Definition Notification_body (analysis : JsValue) : M JsString :=
  match analysis with
  | VString text =>
      ret (firstn 100 text
           ++ (if (100 <? List.length text)%nat then units "..." else []))%list
  | VUndefined =>
      throw (Error "Cannot read properties of undefined (reading 'substring')")
  | VNull =>
      throw (Error "Cannot read properties of null (reading 'substring')")
  | VBoolean _ | VNumber _ | VObject _ =>
      throw (Error "analysis.substring is not a function")
  end.

(** The [try] block of [performCapture] after [await analyzeImage(...)].
    The analysis is sent to the renderer before the body of the notification
    is computed from it. *)
Definition performCapture_withAnalysis (analysis : JsValue) : M unit :=
  log "info" "Analysis complete" ;;
  timestamp <- gets now ;;
  ifMainWindow
    (send (MsgCaptureComplete (CompleteSuccess analysis timestamp))) ;;
  notify <- store_get showNotifications ;;
  when notify
    (body <- Notification_body analysis ;;
     showNotification "AI Analysis Complete" body).

(** The [try] block of [performCapture] after [await captureScreen()]. *)
Definition performCapture_withScreenshot (screenshot : string) : M unit :=
  if negb (truthy screenshot)
  then throw (Error "Failed to capture screenshot")
  else
    log "info" "Screenshot captured successfully" ;;
    key <- store_get openaiApiKey ;;
    if negb (truthy key) then throw (Error MSG_NO_API_KEY)
    else
      setApiKey key ;;
      ifMainWindow (send MsgAnalyzing) ;;
      analysis <- analyzeImage screenshot ;;
      performCapture_withAnalysis analysis.

(** The [try] block of [performCapture] from its start. *)
Definition performCapture_try : M unit :=
  ifMainWindow (send MsgCaptureStarted) ;;
  screenshot <- captureScreen ;;
  performCapture_withScreenshot screenshot.

(** [performCapture()] up to its first [await]. *)
Definition performCapture : M unit :=
  busy <- gets isCapturing ;;
  if busy then ret tt
  else
    modify (set_isCapturing true) ;;
    log "info" "Performing screen capture..." ;;
    tryCatchFinally performCapture_try performCapture_catch
      performCapture_finally.

(** The resolutions the environment feeds to suspended tasks. *)
Inductive Resolution :=
| RDialog (response : nat)
| RCapture (r : ScreenshotResult)
| RAnalysis (r : AxiosOutcome).

(** The [try] block of a suspended [performCapture] from the [await] it is
    parked at, or nothing when the resolution is not for that [await]. *)
Definition performCapture_tryResume (p : Pending) (r : Resolution)
    : option (M unit) :=
  match p, r with
  | AtCaptureScreen, RCapture cr =>
      Some (screenshot <- captureScreen_resume cr ;;
            performCapture_withScreenshot screenshot)
  | AtAnalyzeImage, RAnalysis ar =>
      Some (analysis <- analyzeImage_resume ar ;;
            performCapture_withAnalysis analysis)
  | _, _ => None
  end.

(** A suspended [performCapture()] resumed inside its [try]. *)
Definition performCapture_resume (p : Pending) (r : Resolution)
    : option (M unit) :=
  match performCapture_tryResume p r with
  | Some body =>
      Some (tryCatchFinally body performCapture_catch performCapture_finally)
  | None => None
  end.

(** [startAutoCapture()] *)
Definition startAutoCapture : M unit :=
  old <- gets captureIntervalId ;;
  match old with
  | Some id => clearInterval id
  | None => ret tt
  end ;;
  interval <- store_get captureInterval ;;
  log "info" ("Starting auto-capture with interval: "
              ++ string_of_Z interval ++ "ms") ;;
  id <- setInterval interval ;;
  modify (set_captureIntervalId (Some id)) ;;
  store_set (set_autoCapture true) ;;
  updateTrayMenu true ;;
  ifMainWindow (send (MsgAutoCaptureStatus true)).

(** [stopAutoCapture()] *)
Definition stopAutoCapture : M unit :=
  old <- gets captureIntervalId ;;
  match old with
  | Some id =>
      clearInterval id ;;
      modify (set_captureIntervalId None)
  | None => ret tt
  end ;;
  log "info" "Stopped auto-capture" ;;
  store_set (set_autoCapture false) ;;
  updateTrayMenu false ;;
  ifMainWindow (send (MsgAutoCaptureStatus false)).

(** The body of the [update-settings] handler; it returns [true]. *)
Definition updateSettings (settings : SettingsUpdate) : M bool :=
  match u_captureInterval settings with
  | Some v =>
      store_set (set_captureInterval v) ;;
      active <- store_get autoCapture ;;
      when active startAutoCapture
  | None => ret tt
  end ;;
  match u_openaiApiKey settings with
  | Some v => store_set (set_openaiApiKey v)
  | None => ret tt
  end ;;
  match u_minimizeToTray settings with
  | Some v => store_set (set_minimizeToTray v)
  | None => ret tt
  end ;;
  match u_showNotifications settings with
  | Some v => store_set (set_showNotifications v)
  | None => ret tt
  end ;;
  log "info" "Settings updated" ;;
  ret true.

(** ** The event loop *)

(** The answer of an [ipcMain.handle] handler to request [req]. *)
Definition reply (req : nat) (v : bool) (s : State) : State :=
  set_replies (replies s ++ [(req, v)]) s.

(** A rejection nobody handles. *)
Definition unhandled (e : JsError) (s : State) : State :=
  set_uncaught (uncaught s ++ [e]) s.

Definition spawn (t : Task) (s : State) : State :=
  set_tasks (tasks s ++ [t]) s.

Fixpoint removeAt {A} (i : nat) (l : list A) : list A :=
  match l, i with
  | [], _ => []
  | _ :: l', O => l'
  | x :: l', S i' => x :: removeAt i' l'
  end.

(** Run a synchronous function to its end. *)
Definition runSync {A} (m : M A) (s : State) : State :=
  match m s with
  | (Normal _, s1) => s1
  | (Thrown e, s1) => unhandled e s1
  | (Awaiting _, s1) => s1
  end.

(** What follows [await performCapture()] in its caller. *)
Definition callerReturns (c : Caller) (s : State) : State :=
  match c with
  | ByTimer => s
  | ByCaptureNow req hasPermission => reply req hasPermission s
  end.

(** Account for a [performCapture()] segment run on behalf of [c]. *)
Definition settlePipeline (c : Caller) (r : Completion unit * State) : State :=
  match r with
  | (Normal _, s) => callerReturns c s
  | (Thrown e, s) => unhandled e s
  | (Awaiting p, s) => spawn (TaskPipeline c p) s
  end.

(** The callback armed by [startAutoCapture]:
    [async () => { if (!isCapturing) { await performCapture(); } }] *)
Definition timerCallback (s : State) : State :=
  if isCapturing s then s else settlePipeline ByTimer (performCapture s).

(** The [capture-now] handler once [hasPermission] is known. *)
Definition captureNow_continue (req : nat) (hasPermission : bool) (s : State)
    : State :=
  if hasPermission
  then settlePipeline (ByCaptureNow req hasPermission) (performCapture s)
  else reply req hasPermission s.

(** The [toggle-auto-capture] handler once [hasPermission] is known. *)
Definition toggleAutoCapture_continue (req : nat) (enabled hasPermission : bool)
    (s : State) : State :=
  if negb hasPermission then reply req false s
  else
    reply req enabled
      (runSync (if enabled then startAutoCapture else stopAutoCapture) s).

(** [app.whenReady()] once [hasPermission] is known. *)
Definition ready_continue (hasPermission : bool) (s : State) : State :=
  if hasPermission then runSync startAutoCapture s else s.

Definition permissionThen (w : PermissionWaiter) (hasPermission : bool)
    : State -> State :=
  match w with
  | ForCaptureNow req => captureNow_continue req hasPermission
  | ForToggle req enabled => toggleAutoCapture_continue req enabled hasPermission
  | ForReady => ready_continue hasPermission
  end.

(** Account for a [requestScreenCapturePermission()] segment run on behalf
    of [w]. *)
Definition settlePermission (w : PermissionWaiter) (r : Completion bool * State)
    : State :=
  match r with
  | (Normal hasPermission, s) => permissionThen w hasPermission s
  | (Thrown e, s) => unhandled e s
  | (Awaiting _, s) => spawn (TaskDialog w) s
  end.

(** [const hasPermission = await requestScreenCapturePermission(); ...] *)
Definition askPermission (w : PermissionWaiter) (mediaAccessStatus : string)
    (s : State) : State :=
  settlePermission w (requestScreenCapturePermission mediaAccessStatus s).

(** What the environment can do to the main process. *)
Inductive Event :=
| EvReady (mediaAccessStatus : string)
| EvAdvance (dt : N)
| EvTick (id : nat)
| EvCaptureNow (req : nat) (mediaAccessStatus : string)
| EvToggleAutoCapture (req : nat) (enabled : bool) (mediaAccessStatus : string)
| EvUpdateSettings (req : nat) (settings : SettingsUpdate)
| EvResolve (i : nat) (r : Resolution)
| EvWindowClose
| EvActivate
| EvBeforeQuit.

Definition findTimer (id : nat) (ts : list Timer) : option Timer :=
  find (fun t => (tid t =? id)%nat) ts.

(** The host fires timer [id]: the timer is re-armed one delay from now. *)
Definition rearm (id : nat) (s : State) : State :=
  set_timers
    (map (fun t => if (tid t =? id)%nat
                   then {| tid := tid t; delay := delay t;
                           due := now s + delay t |}
                   else t) (timers s)) s.

Definition resolve (i : nat) (r : Resolution) (s : State) : State :=
  match nth_error (tasks s) i with
  | Some (TaskDialog w) =>
      match r with
      | RDialog response =>
          settlePermission w
            (requestScreenCapturePermission_resume response
               (set_tasks (removeAt i (tasks s)) s))
      | _ => s
      end
  | Some (TaskPipeline c p) =>
      match performCapture_resume p r with
      | Some m => settlePipeline c (m (set_tasks (removeAt i (tasks s)) s))
      | None => s
      end
  | None => s
  end.

(** One event of the environment.  The environment is given more freedom
    than the host has: [EvActivate] is accepted at any time, although its
    handler is registered at the end of start-up only, and the process lives
    on after its window is destroyed, although off macOS the code then
    quits (which is [EvBeforeQuit] as the next and last event).  Every run of
    the code is a run of [step]; a property of all runs of [step] is a
    property of all runs of the code. *)
Definition step (e : Event) (s : State) : State :=
  match e with
  | EvReady mediaAccessStatus =>
      let s1 := runSync (log "info" "System tray created")
                  (set_mainWindow true
                     (runSync (log "info" "Logger initialized" ;;
                               log "info" "Application starting...") s)) in
      if autoCapture (store s1)
      then askPermission ForReady mediaAccessStatus s1
      else s1
  | EvAdvance dt => set_now (now s + Z.of_N dt) s
  | EvTick id =>
      match findTimer id (timers s) with
      | Some t => if due t <=? now s then timerCallback (rearm id s) else s
      | None => s
      end
  | EvCaptureNow req mediaAccessStatus =>
      askPermission (ForCaptureNow req) mediaAccessStatus s
  | EvToggleAutoCapture req enabled mediaAccessStatus =>
      askPermission (ForToggle req enabled) mediaAccessStatus s
  | EvUpdateSettings req settings =>
      match updateSettings settings s with
      | (Normal v, s1) => reply req v s1
      | (Thrown e, s1) => unhandled e s1
      | (Awaiting _, s1) => s1
      end
  | EvResolve i r => resolve i r s
  | EvWindowClose =>
      if minimizeToTray (store s) && negb (isQuitting s)
      then s
      else set_mainWindow false s
  | EvActivate =>
      if mainWindow s then s else set_mainWindow true s
  | EvBeforeQuit =>
      runSync (stopAutoCapture ;; log "info" "Application shutting down")
        (set_isQuitting true s)
  end.

(** Events are fed oldest first. *)
Definition run (evs : list Event) (s : State) : State :=
  fold_left (fun s e => step e s) evs s.

(** The capture-analyze attempts in flight. *)
Definition inFlight (s : State) : nat :=
  List.length (filter isPipeline (tasks s)).

(** * The rest of the modules *)

(** The functions below are not on the path of the event loop.  Where one
    of them awaits a single promise, the outcome of that promise is handed to
    it as an argument. *)

(** ** api.js: [testConnection] *)

(** What [await axios.get('https://api.openai.com/v1/models', ...)] settles
    to. *)
Inductive GetOutcome :=
| GetFulfilled
| GetRejected (e : JsError).

(** The [catch] block of [testConnection]. *)
Definition testConnection_catch (error : JsError) : M bool :=
  match response error with
  | Some resp =>
      if status resp =? 401 then throw (Error "Invalid API key")
      else throw error
  | None => throw error
  end.

(** [testConnection()] *)
Definition testConnection (net : GetOutcome) : M bool :=
  key <- gets apiKey ;;
  if negb (truthy key) then throw (Error "API key not configured")
  else
    tryCatch
      (modify (fun s => set_networkCalls (S (networkCalls s)) s) ;;
       match net with
       | GetFulfilled => ret true
       | GetRejected e => throw e
       end)
      testConnection_catch.

(** ** screenshot module: [getDisplays] and [captureDisplay] *)

(** What [await screenshot.listDisplays()] settles to: the displays (their
    ids) or a rejection. *)
Inductive DisplaysResult :=
| DisplaysListed (displays : list string)
| DisplaysRejected (e : JsError).

(** [getDisplays()] *)
Definition getDisplays (r : DisplaysResult) : M (list string) :=
  tryCatch
    (match r with
     | DisplaysListed displays =>
         log "info" ("Found "
                     ++ string_of_Z (Z.of_nat (List.length displays))
                     ++ " display(s)") ;;
         ret displays
     | DisplaysRejected e => throw e
     end)
    (fun error =>
       log "error" ("Failed to list displays: " ++ message error) ;;
       ret []).

(** [captureDisplay(displayId)] *)
Definition captureDisplay (displayId : string) (r : ScreenshotResult)
    : M string :=
  tryCatch
    (modify (fun s => set_captureCalls (S (captureCalls s)) s) ;;
     match r with
     | ScreenshotBuffer _ base64Image => ret base64Image
     | ScreenshotRejected e => throw e
     end)
    (fun error =>
       log "error" ("Failed to capture display " ++ displayId ++ ": "
                    ++ message error) ;;
       throw error).

(** ** preload script: listeners on the channels of the main process *)

(** A listener registered with [ipcRenderer.on]: the renderer's callback
    itself, or the arrow function [(event, data) => callback(data)] the
    preload script wraps around it.  The wrapper is a function of its own:
    it is not the callback. *)
Inductive Listener :=
| Direct (callback : nat)
| Wrapped (callback : nat).

Definition Listener_eqb (a b : Listener) : bool :=
  match a, b with
  | Direct x, Direct y => (x =? y)%nat
  | Wrapped x, Wrapped y => (x =? y)%nat
  | _, _ => false
  end.

(** The listeners of the renderer's [ipcRenderer], oldest first. *)
Definition Listeners := list (string * Listener).

(** [ipcRenderer.on(channel, listener)] *)
Definition ipcRenderer_on (channel : string) (l : Listener) (ls : Listeners)
    : Listeners :=
  (ls ++ [(channel, l)])%list.

(** Drop the first entry of [ls] that is [l] on [channel]. *)
Fixpoint dropFirst (channel : string) (l : Listener) (ls : Listeners)
    : Listeners :=
  match ls with
  | [] => []
  | (c, l') :: rest =>
      if (c =? channel)%string && Listener_eqb l' l then rest
      else (c, l') :: dropFirst channel l rest
  end.

(** [ipcRenderer.removeListener(channel, listener)]: the most recently added
    instance of that very function on the channel is removed, if there is
    one. *)
Definition ipcRenderer_removeListener (channel : string) (l : Listener)
    (ls : Listeners) : Listeners :=
  rev (dropFirst channel l (rev ls)).

(** The four subscription functions the preload script exposes.  Each
    registers a listener and returns the function that is meant to remove
    it. *)
Inductive Subscription :=
| OnCaptureStarted
| OnAnalyzing
| OnCaptureComplete
| OnAutoCaptureStatus.

Definition channelOf (sub : Subscription) : string :=
  match sub with
  | OnCaptureStarted => "capture-started"
  | OnAnalyzing => "analyzing"
  | OnCaptureComplete => "capture-complete"
  | OnAutoCaptureStatus => "auto-capture-status"
  end.

(** What [ipcRenderer.on] is given. *)
Definition registered (sub : Subscription) (callback : nat) : Listener :=
  match sub with
  | OnCaptureStarted | OnAnalyzing => Direct callback
  | OnCaptureComplete | OnAutoCaptureStatus => Wrapped callback
  end.

Definition subscribe (sub : Subscription) (callback : nat) (ls : Listeners)
    : Listeners :=
  ipcRenderer_on (channelOf sub) (registered sub callback) ls.

(** The function each subscription returns:
    [() => ipcRenderer.removeListener(channel, callback)]. *)
Definition unsubscribe (sub : Subscription) (callback : nat) (ls : Listeners)
    : Listeners :=
  ipcRenderer_removeListener (channelOf sub) (Direct callback) ls.

(** The channels of the main process the renderer can listen on. *)
Definition relayedChannels : list string :=
  map channelOf
      [OnCaptureStarted; OnAnalyzing; OnCaptureComplete; OnAutoCaptureStatus].

(** ** tray module *)

(** What a click on a tray menu entry does. *)
Inductive MenuAction :=
| ActShow                                   (* mainWindow.show(); focus() *)
| ActSend (channel : string) (arg : option bool)
| ActShowAndSend (channel : string)
| ActQuit.

Inductive MenuEntry :=
| Separator
| MenuItem (label : string) (click : MenuAction).

(** [buildContextMenu(mainWindow, store, isAutoCaptureEnabled)] *)
Definition buildContextMenu (isAutoCaptureEnabled : bool) : list MenuEntry :=
  [ MenuItem "Show AI Screen Assistant" ActShow;
    Separator;
    MenuItem "Capture Now" (ActSend "trigger-capture" None);
    MenuItem (if isAutoCaptureEnabled
              then "✓ Auto-Capture Enabled"
              else "Auto-Capture Disabled")
             (ActSend "toggle-auto-from-tray"
                      (Some (negb isAutoCaptureEnabled)));
    Separator;
    MenuItem "Settings" (ActShowAndSend "open-settings");
    Separator;
    MenuItem "Quit" ActQuit ].

(** The channel a click sends on, if the main window exists. *)
Definition sendsOn (e : MenuEntry) : option string :=
  match e with
  | MenuItem _ (ActSend channel _) => Some channel
  | MenuItem _ (ActShowAndSend channel) => Some channel
  | _ => None
  end.

(** [Buffer.alloc(n)] *)
Definition Buffer_alloc (n : nat) : list Z := repeat 0 n.

(** [canvas[idx] = v] on a buffer: the byte kept is [v] modulo 256, and a
    write past the end is ignored. *)
Definition Buffer_set (idx : nat) (v : Z) (canvas : list Z) : list Z :=
  if (idx <? List.length canvas)%nat
  then (firstn idx canvas ++ [v mod 256] ++ skipn (S idx) canvas)%list
  else canvas.

(** The body of the inner loop of [createDefaultIcon].  With [size] even,
    the centre and the distances are whole numbers, and
    [Math.sqrt(dx*dx + dy*dy) <= r] is [dx*dx + dy*dy <= r*r]. *)
Definition paintPixel (size x y : nat) (canvas : list Z) : list Z :=
  let idx := ((y * size + x) * 4)%nat in
  let centerX := Z.of_nat size / 2 in
  let centerY := Z.of_nat size / 2 in
  let distance2 :=
    (Z.of_nat x - centerX) ^ 2 + (Z.of_nat y - centerY) ^ 2 in
  if distance2 <=? (Z.of_nat size / 2 - 1) ^ 2
  then
    Buffer_set (idx + 3) 255
      (Buffer_set (idx + 2) 255
         (Buffer_set (idx + 1) 79 (Buffer_set idx 138 canvas)))
  else
    Buffer_set (idx + 3) 0
      (Buffer_set (idx + 2) 0
         (Buffer_set (idx + 1) 0 (Buffer_set idx 0 canvas))).

(** [createDefaultIcon()]: the bytes handed to
    [nativeImage.createFromBuffer]. *)
Definition createDefaultIcon : list Z :=
  let size := 16%nat in
  fold_left
    (fun canvas y =>
       fold_left (fun canvas x => paintPixel size x y canvas)
                 (seq 0 size) canvas)
    (seq 0 size) (Buffer_alloc (size * size * 4)).

(** ** renderer: the analysis history and the settings form *)

Record HistoryItem := {
  h_analysis : JsValue;
  h_timestamp : Z
}.

(** [addToHistory(analysis, timestamp)] on [state.analysisHistory]:
    [unshift], then [pop] if more than ten items are held.  The history is
    stored and rendered after that; rendering an item whose analysis is not
    a string throws, with the history already updated. *)
Definition addToHistory (analysis : JsValue) (timestamp : Z)
    (analysisHistory : list HistoryItem) : list HistoryItem :=
  let h := {| h_analysis := analysis; h_timestamp := timestamp |}
           :: analysisHistory in
  if (10 <? List.length h)%nat then removelast h else h.

(** What the [capture-complete] listener of the renderer does to the
    history. *)
Definition onCaptureComplete (data : CaptureComplete)
    (analysisHistory : list HistoryItem) : list HistoryItem :=
  match data with
  | CompleteSuccess analysis timestamp =>
      addToHistory analysis timestamp analysisHistory
  | CompleteFailure _ => analysisHistory
  end.

(** The inputs of the settings modal; the interval slider holds whole
    seconds. *)
Record SettingsForm := {
  f_apiKey : string;
  f_intervalSeconds : Z;
  f_notifications : bool;
  f_minimizeTray : bool
}.

(** The object [saveSettings()] hands to [updateSettings]. *)
Definition saveSettings (form : SettingsForm) : SettingsUpdate :=
  {| u_captureInterval := Some (f_intervalSeconds form * 1000);
     u_autoCapture := None;
     u_openaiApiKey := Some (f_apiKey form);
     u_minimizeToTray := Some (f_minimizeTray form);
     u_showNotifications := Some (f_notifications form) |}.

(** * Vocabulary of the properties *)

(** ** Frames and invariants *)

(** What a segment of the [try] block leaves alone. *)
Record sameControl (s s' : State) : Prop := {
  sc_platform : platform s' = platform s;
  sc_now : now s' = now s;
  sc_mainWindow : mainWindow s' = mainWindow s;
  sc_captureIntervalId : captureIntervalId s' = captureIntervalId s;
  sc_isCapturing : isCapturing s' = isCapturing s;
  sc_isQuitting : isQuitting s' = isQuitting s;
  sc_store : store s' = store s;
  sc_timers : timers s' = timers s;
  sc_nextTimerId : nextTimerId s' = nextTimerId s;
  sc_tasks : tasks s' = tasks s;
  sc_replies : replies s' = replies s;
  sc_uncaught : uncaught s' = uncaught s
}.

(** [frames m]: the segment [m] leaves the control state alone. *)
Definition frames {A} (m : M A) : Prop :=
  forall s, sameControl s (snd (m s)).

(** What every reachable state satisfies: the guard [isCapturing] is set
    exactly when one attempt is in flight and there is never more than one;
    the host holds the timer named by [captureIntervalId] and no other; an
    armed timer goes with [autoCapture] stored as [true]; nothing was thrown
    past the handlers; a [capture-now] handler waiting for its attempt holds
    [hasPermission = true]. *)
Record Inv (s : State) : Prop := {
  inv_flight : inFlight s = if isCapturing s then 1%nat else 0%nat;
  inv_timers :
    match captureIntervalId s with
    | Some id => exists t, timers s = [t] /\ tid t = id
    | None => timers s = []
    end;
  inv_auto : captureIntervalId s <> None -> autoCapture (store s) = true;
  inv_uncaught : uncaught s = [];
  inv_callers :
    forall req hp p,
      In (TaskPipeline (ByCaptureNow req hp) p) (tasks s) -> hp = true
}.

(** Taking a suspended attempt off the task list for resumption: until it
    is settled, the guard is set and nothing else is in flight. *)
Record Resuming (s : State) : Prop := {
  rs_flight : inFlight s = 0%nat;
  rs_guard : isCapturing s = true;
  rs_timers :
    match captureIntervalId s with
    | Some id => exists t, timers s = [t] /\ tid t = id
    | None => timers s = []
    end;
  rs_auto : captureIntervalId s <> None -> autoCapture (store s) = true;
  rs_uncaught : uncaught s = [];
  rs_callers :
    forall req hp p,
      In (TaskPipeline (ByCaptureNow req hp) p) (tasks s) -> hp = true
}.

(** ** States after the handlers *)

(** The timers left after [if (captureIntervalId) clearInterval(...)]. *)
Definition clearedTimers (s : State) : list Timer :=
  match captureIntervalId s with
  | Some id => filter (fun t => negb (tid t =? id)%nat) (timers s)
  | None => timers s
  end.

(** The timer [startAutoCapture] arms in state [s]. *)
Definition freshTimer (s : State) : Timer :=
  {| tid := nextTimerId s;
     delay := timerDelay (captureInterval (store s));
     due := now s + timerDelay (captureInterval (store s)) |}.

Definition started (s : State) : State :=
  (if mainWindow s
   then fun s' => set_sent (sent s ++ [MsgAutoCaptureStatus true]) s'
   else fun s' => s')
    (set_store (set_autoCapture true (store s))
       (set_captureIntervalId (Some (nextTimerId s))
          (set_nextTimerId (S (nextTimerId s))
             (set_timers (clearedTimers s ++ [freshTimer s])
                (set_logs
                   (logs s ++
                    [("info", "Starting auto-capture with interval: "
                              ++ string_of_Z (captureInterval (store s))
                              ++ "ms")]) s))))).

Definition stopped (s : State) : State :=
  (if mainWindow s
   then fun s' => set_sent (sent s ++ [MsgAutoCaptureStatus false]) s'
   else fun s' => s')
    (set_store (set_autoCapture false (store s))
       (set_logs (logs s ++ [("info", "Stopped auto-capture")])
          (set_captureIntervalId None (set_timers (clearedTimers s) s)))).

(** The store after the four guarded [store.set] calls of the handler. *)
Definition updatedStore (u : SettingsUpdate) (st : Settings) : Settings :=
  {| captureInterval :=
       match u_captureInterval u with Some v => v | None => captureInterval st end;
     autoCapture := autoCapture st;
     openaiApiKey :=
       match u_openaiApiKey u with Some v => v | None => openaiApiKey st end;
     minimizeToTray :=
       match u_minimizeToTray u with Some v => v | None => minimizeToTray st end;
     showNotifications :=
       match u_showNotifications u with
       | Some v => v | None => showNotifications st
       end |}.

(** Whether the handler restarts the timer. *)
Definition restarts (u : SettingsUpdate) (s : State) : bool :=
  match u_captureInterval u with
  | Some _ => autoCapture (store s)
  | None => false
  end.

(** The state in which the handler calls [startAutoCapture], if it does. *)
Definition withInterval (u : SettingsUpdate) (s : State) : State :=
  match u_captureInterval u with
  | Some v => set_store (set_captureInterval v (store s)) s
  | None => s
  end.

(** What [requestScreenCapturePermission()] finds: off macOS always granted,
    on macOS granted when the media access status says so. *)
Definition granted (pf mediaAccessStatus : string) : bool :=
  negb (pf =? "darwin")%string || (mediaAccessStatus =? "granted")%string.

(** The states the process can be in. *)
Definition reachable (s : State) : Prop :=
  exists pf persisted evs, s = run evs (initial pf persisted).

(** State [s] with its [i]-th suspended task taken off the list. *)
Definition taken (i : nat) (s : State) : State :=
  set_tasks (removeAt i (tasks s)) s.

(** The triggers of an attempt: a tick of the auto-capture timer and a
    [capture-now] request. *)
Definition isTrigger (e : Event) : bool :=
  match e with
  | EvTick _ | EvCaptureNow _ _ => true
  | _ => false
  end.

(** The process is idle and the next trigger starts an attempt: a
    [capture-now] request with permission, or a tick of a due timer. *)
Definition idleAgain (s : State) : Prop :=
  isCapturing s = false /\ inFlight s = 0%nat /\ uncaught s = []
  /\ (forall req st,
        granted (platform s) st = true ->
        let s' := step (EvCaptureNow req st) s in
        inFlight s' = 1%nat /\ isCapturing s' = true
        /\ captureCalls s' = S (captureCalls s))
  /\ (forall id t,
        findTimer id (timers s) = Some t -> due t <= now s ->
        let s' := step (EvTick id) s in
        inFlight s' = 1%nat /\ isCapturing s' = true
        /\ captureCalls s' = S (captureCalls s)).

(** ** Outcomes in the spec's vocabulary *)

(** The error classes of the specification.  The code has no such type: it
    tells the classes apart by the message of the error it throws, and a
    denied permission by the [false] the [capture-now] handler returns. *)
Inductive ErrorClass :=
| PermissionDenied
| NoApiKey
| InvalidApiKey
| RateLimited
| ServiceUnavailable
| NetworkUnreachable
| Timeout
| CaptureFailed
| Unknown.

(** What the value returned by the [capture-now] handler reports: the
    handler returns [hasPermission], so [false] stands for a denied
    permission and [true] carries no error. *)
Definition replyClass (hasPermission : bool) : option ErrorClass :=
  if hasPermission then None else Some PermissionDenied.

(** The fixed messages of the specification's table; the remaining classes
    have no fixed message there. *)
Definition humanMessage (c : ErrorClass) : option string :=
  match c with
  | InvalidApiKey => Some MSG_INVALID_API_KEY
  | RateLimited => Some MSG_RATE_LIMIT
  | ServiceUnavailable => Some MSG_SERVICE_UNAVAILABLE
  | NetworkUnreachable => Some MSG_NETWORK
  | Timeout => Some MSG_TIMEOUT
  | _ => None
  end.

(** The mapping in the specification's words: 401, 429, every 5xx status,
    DNS or connection failure, client-side timeout, anything else. *)
Definition spec_classify (e : JsError) : ErrorClass :=
  match response e with
  | Some resp =>
      if status resp =? 401 then InvalidApiKey
      else if status resp =? 429 then RateLimited
      else if (500 <=? status resp) && (status resp <=? 599)
      then ServiceUnavailable
      else Unknown
  | None =>
      if codeIs e "ENOTFOUND" || codeIs e "ECONNREFUSED"
      then NetworkUnreachable
      else if codeIs e "ETIMEDOUT" || codeIs e "ECONNABORTED" then Timeout
      else Unknown
  end.

(** The mapping the [catch] block of [analyzeImage] implements: of the 5xx
    statuses only 500, 502 and 503 are "service unavailable". *)
Definition code_classify (e : JsError) : ErrorClass :=
  match response e with
  | Some resp =>
      if status resp =? 401 then InvalidApiKey
      else if status resp =? 429 then RateLimited
      else if (status resp =? 500) || (status resp =? 502)
              || (status resp =? 503)
      then ServiceUnavailable
      else Unknown
  | None =>
      if codeIs e "ENOTFOUND" || codeIs e "ECONNREFUSED"
      then NetworkUnreachable
      else if codeIs e "ETIMEDOUT" || codeIs e "ECONNABORTED" then Timeout
      else Unknown
  end.

(** What [analyzeImage] throws for an error it files under Unknown: for an
    HTTP answer a new error quoting the provider's message, otherwise the
    error itself. *)
Definition unknownError (e : JsError) : JsError :=
  match response e with
  | Some resp =>
      Error ("API error: " ++ orElse (providerMessage resp) "Unknown API error")
  | None => e
  end.

(** Whether a 2xx body carries a usable content: any truthy value, a string
    or not. *)
Definition contentOf (d : ResponseData) : option JsValue :=
  match d with
  | DataContent result => if truthyValue result then Some result else None
  | DataNoChoices => None
  end.

Definition isString (v : JsValue) : bool :=
  match v with VString _ => true | _ => false end.

(** The message a resumed [try] block has sent by the time it throws: none,
    unless the analysis came back as a truthy value that is not a string.
    Such a value is sent on as a success; computing the body of the
    notification from it is what throws. *)
Definition sentBeforeThrow (r : Resolution) (s : State) : list Msg :=
  match r with
  | RAnalysis (AxiosResponse d) =>
      match contentOf d with
      | Some analysis =>
          if isString analysis then []
          else if mainWindow s
               then [MsgCaptureComplete (CompleteSuccess analysis (now s))]
               else []
      | None => []
      end
  | _ => []
  end.

Definition isFixedMessage (m : string) : bool :=
  (m =? MSG_INVALID_API_KEY)%string || (m =? MSG_RATE_LIMIT)%string
  || (m =? MSG_SERVICE_UNAVAILABLE)%string || (m =? MSG_NETWORK)%string
  || (m =? MSG_TIMEOUT)%string.

(** ** Timer events *)

(** Whether the host may fire timer [id] now: the timer is armed and due. *)
Definition fires (id : nat) (s : State) : bool :=
  match findTimer id (timers s) with
  | Some t => due t <=? now s
  | None => false
  end.

(** The events that neither are ticks nor reach [startAutoCapture] or
    [stopAutoCapture]: time passing, [capture-now] requests, promises
    settling (a message box that is answered yields [hasPermission = false],
    so a parked toggle or start-up does not start the timer), the window
    closing or coming back. *)
Definition quiet (e : Event) : bool :=
  match e with
  | EvAdvance _ | EvCaptureNow _ _ | EvResolve _ _
  | EvWindowClose | EvActivate => true
  | _ => false
  end.

(** No timer is armed and auto-capture is stored as off. *)
Definition timerOff (s : State) : Prop :=
  timers s = [] /\ captureIntervalId s = None
  /\ autoCapture (store s) = false.

(** The events other than a request to switch auto-capture on.  With
    auto-capture stored as off, these never reach [startAutoCapture]. *)
Definition noStart (e : Event) : bool :=
  match e with
  | EvToggleAutoCapture _ true _ => false
  | _ => true
  end.

(** ** Accounting of attempts *)

Definition isStarted (m : Msg) : bool :=
  match m with MsgCaptureStarted => true | _ => false end.

Definition isAnalyzing (m : Msg) : bool :=
  match m with MsgAnalyzing => true | _ => false end.

(** How many messages of a kind were sent so far. *)
Definition countMsg (kind : Msg -> bool) (s : State) : nat :=
  List.length (filter kind (sent s)).

Definition isAtCapture (t : Task) : bool :=
  match t with TaskPipeline _ AtCaptureScreen => true | _ => false end.

(** The attempts still waiting for their screenshot. *)
Definition atCapture (s : State) : nat :=
  List.length (filter isAtCapture (tasks s)).

Definition isSuccess (m : Msg) : bool :=
  match m with
  | MsgCaptureComplete (CompleteSuccess _ _) => true
  | _ => false
  end.

(** A success message whose analysis is not a string. *)
Definition isOddSuccess (m : Msg) : bool :=
  match m with
  | MsgCaptureComplete (CompleteSuccess analysis _) => negb (isString analysis)
  | _ => false
  end.

(** The books of the process: completions reported and attempts in flight
    exceed the screenshots requested by no more than the successes that
    carried something else than a string; successes and attempts in flight
    never exceed the screenshots requested; requests to the vision API never
    exceed the screenshots that came back; [analyzeImage] sent a request
    every time it was called; an "analyzing" message goes with a request and
    a "capture-started" message with a screenshot. *)
Record Accounting (s : State) : Prop := {
  acc_complete :
    (countMsg isCaptureComplete s + inFlight s
     <= captureCalls s + countMsg isOddSuccess s)%nat;
  acc_success : (countMsg isSuccess s + inFlight s <= captureCalls s)%nat;
  acc_network : (networkCalls s + atCapture s <= captureCalls s)%nat;
  acc_analyze : analyzeCalls s = networkCalls s;
  acc_analyzing : (countMsg isAnalyzing s <= networkCalls s)%nat;
  acc_started : (countMsg isStarted s <= captureCalls s)%nat
}.

(** The numbers the books are kept in agree between two states. *)
Record sameBooks (s s' : State) : Prop := {
  sb_success : countMsg isSuccess s' = countMsg isSuccess s;
  sb_odd : countMsg isOddSuccess s' = countMsg isOddSuccess s;
  sb_capture : captureCalls s' = captureCalls s;
  sb_analyze : analyzeCalls s' = analyzeCalls s;
  sb_network : networkCalls s' = networkCalls s;
  sb_flight : inFlight s' = inFlight s;
  sb_atCapture : atCapture s' = atCapture s;
  sb_complete : countMsg isCaptureComplete s' = countMsg isCaptureComplete s;
  sb_analyzing : countMsg isAnalyzing s' = countMsg isAnalyzing s;
  sb_started : countMsg isStarted s' = countMsg isStarted s
}.

(** What the caller of a finished attempt adds to the replies. *)
Definition callerReply (c : Caller) : list (nat * bool) :=
  match c with
  | ByTimer => []
  | ByCaptureNow req hasPermission => [(req, hasPermission)]
  end.

(** ** The order of the messages of an attempt *)

(** Where the renderer stands after the messages it has received.
    [Reported]: the last message was a success whose analysis is not a
    string; the attempt may be over, or the failure of its notification is
    the next message. *)
Inductive Phase :=
| Idle
| Capturing
| Analyzing
| Reported.

(** The order the renderer may see: "capture-started", then possibly
    "analyzing", then "capture-complete", a success only after "analyzing".
    A success whose analysis is a string ends the attempt; after one whose
    analysis is not a string a failure may follow, and only as the very next
    message.  Status messages come at any time.  [None] is a message out of
    order. *)
Definition protocolStep (ph : option Phase) (m : Msg) : option Phase :=
  match ph, m with
  | Some Reported, MsgAutoCaptureStatus _ => Some Idle
  | Some ph, MsgAutoCaptureStatus _ => Some ph
  | Some Idle, MsgCaptureStarted => Some Capturing
  | Some Reported, MsgCaptureStarted => Some Capturing
  | Some Capturing, MsgAnalyzing => Some Analyzing
  | Some Capturing, MsgCaptureComplete (CompleteFailure _) => Some Idle
  | Some Analyzing, MsgCaptureComplete (CompleteFailure _) => Some Idle
  | Some Analyzing, MsgCaptureComplete (CompleteSuccess analysis _) =>
      Some (if isString analysis then Idle else Reported)
  | Some Reported, MsgCaptureComplete (CompleteFailure _) => Some Idle
  | _, _ => None
  end.

Definition protocol (msgs : list Msg) : option Phase :=
  fold_left protocolStep msgs (Some Idle).

(** No attempt is under way in the phases [Idle] and [Reported]. *)
Definition atRest (ph : Phase) : Phase :=
  match ph with Reported => Idle | _ => ph end.

(** Where the messages say the main process stands, if they are in
    order. *)
Definition standing (msgs : list Msg) : option Phase :=
  option_map atRest (protocol msgs).

(** The [await]s the suspended attempts are parked at. *)
Definition pipelinePoints (ts : list Task) : list Pending :=
  flat_map (fun t => match t with
                     | TaskPipeline _ p => [p]
                     | TaskDialog _ => []
                     end) ts.

(** Where the main process stands. *)
Definition phaseOf (ts : list Task) : Phase :=
  match pipelinePoints ts with
  | AtCaptureScreen :: _ => Capturing
  | AtAnalyzeImage :: _ => Analyzing
  | _ => Idle
  end.

Definition isStatus (m : Msg) : bool :=
  match m with MsgAutoCaptureStatus _ => true | _ => false end.

(** The main window exists after each of the events: it is never
    destroyed. *)
Fixpoint windowKept (evs : list Event) (s : State) : bool :=
  match evs with
  | [] => true
  | e :: evs' => mainWindow (step e s) && windowKept evs' (step e s)
  end.

(** The messages and the attempts of [s'] are those of [s], but for status
    messages. *)
Record sameTalk (s s' : State) : Prop := {
  st_sent : exists l, sent s' = (sent s ++ l)%list /\ forallb isStatus l = true;
  st_points : pipelinePoints (tasks s') = pipelinePoints (tasks s)
}.

(** The invariant behind the order of the messages. *)
Record Ordered (s : State) : Prop := {
  ord_inv : Inv s;
  ord_window : mainWindow s = true;
  ord_protocol : standing (sent s) = Some (phaseOf (tasks s))
}.

(** The events after which a window kept by "minimize to tray" is still
    kept: all but [before-quit] and a settings update that switches
    "minimize to tray" off. *)
Definition keepsWindow (e : Event) : bool :=
  match e with
  | EvBeforeQuit => false
  | EvUpdateSettings _ u =>
      match u_minimizeToTray u with
      | Some false => false
      | _ => true
      end
  | _ => true
  end.

(** The window exists and closing it only hides it. *)
Definition windowSafe (s : State) : Prop :=
  mainWindow s = true /\ minimizeToTray (store s) = true
  /\ isQuitting s = false.

(** The window, the quitting flag and "minimize to tray" agree between two
    states. *)
Definition sameShell (s s' : State) : Prop :=
  mainWindow s' = mainWindow s /\ isQuitting s' = isQuitting s
  /\ minimizeToTray (store s') = minimizeToTray (store s).

(** The body of the notification shown for an analysis that is a string,
    in code units. *)
Definition notificationBody (analysis : JsString) : JsString :=
  (firstn 100 analysis
   ++ (if (100 <? List.length analysis)%nat then units "..." else []))%list.

(** The successful analyses among the payloads of [capture-complete]
    messages, as history items, oldest first. *)
Definition successes (payloads : list CaptureComplete) : list HistoryItem :=
  flat_map
    (fun p => match p with
              | CompleteSuccess analysis timestamp =>
                  [{| h_analysis := analysis; h_timestamp := timestamp |}]
              | CompleteFailure _ => []
              end) payloads.

(** Calls of the subscription functions and of the functions they
    returned. *)
Inductive ListenerOp :=
| Subscribe (sub : Subscription) (callback : nat)
| Unsubscribe (sub : Subscription) (callback : nat).

Definition applyOp (ls : Listeners) (op : ListenerOp) : Listeners :=
  match op with
  | Subscribe sub callback => subscribe sub callback ls
  | Unsubscribe sub callback => unsubscribe sub callback ls
  end.

(** The listeners on a channel. *)
Definition listenersOn (channel : string) (ls : Listeners) : list Listener :=
  map snd (filter (fun e => (fst e =? channel)%string) ls).

(** Whether the subscription hands the callback itself to
    [ipcRenderer.on]. *)
Definition registersCallback (sub : Subscription) : bool :=
  match sub with
  | OnCaptureStarted | OnAnalyzing => true
  | OnCaptureComplete | OnAutoCaptureStatus => false
  end.

(** Every listener was registered by one of the four subscriptions, in the
    form that subscription registers. *)
Definition wellFormed (ls : Listeners) : Prop :=
  forall channel l,
    In (channel, l) ls ->
    exists sub k, channel = channelOf sub /\ l = registered sub k.

(** Whether a rejection is an HTTP answer with status 401. *)
Definition is401 (e : JsError) : bool :=
  match response e with
  | Some resp => status resp =? 401
  | None => false
  end.

(** The four bytes of pixel [(x, y)] of a 16 by 16 RGBA buffer. *)
Definition pixelAt (canvas : list Z) (x y : nat) : list Z :=
  firstn 4 (skipn ((y * 16 + x) * 4) canvas).

(** * Properties *)

(** ** How segments end *)

Ltac run_m :=
  cbv [bind ret throw await gets modify when tryCatch tryCatchFinally
       ifMainWindow send log store_get store_set updateTrayMenu
       showNotification setApiKey openSystemPreferences
       performCapture_finally].

(** The [catch] block of [performCapture] returns: it neither throws nor
    suspends. *)
Lemma performCapture_catch_returns (e : JsError) (s : State) :
  performCapture_catch e s =
    (Normal tt,
     let s1 := set_logs (logs s ++ [("error", "Capture/analysis error: " ++ message e)]) s in
     if mainWindow s
     then set_sent (sent s ++ [MsgCaptureComplete (CompleteFailure (message e))]) s1
     else s1).
Proof.
  unfold performCapture_catch. run_m. cbn. destruct (mainWindow s); reflexivity.
Qed.

(** The three ways a [try { body } catch { ... } finally { ... }] of
    [performCapture] can go. *)
Lemma performCapture_guard (body : M unit) (s : State) :
  tryCatchFinally body performCapture_catch performCapture_finally s =
    match body s with
    | (Normal a, s1) => (Normal a, set_isCapturing false s1)
    | (Thrown e, s1) =>
        (Normal tt, set_isCapturing false (snd (performCapture_catch e s1)))
    | (Awaiting p, s1) => (Awaiting p, s1)
    end.
Proof.
  unfold tryCatchFinally. destruct (body s) as [[a|e|p] s1]; try reflexivity.
  rewrite performCapture_catch_returns. reflexivity.
Qed.

Lemma sameControl_refl s : sameControl s s.
Proof. constructor; reflexivity. Qed.

Lemma sameControl_trans s1 s2 s3 :
  sameControl s1 s2 -> sameControl s2 s3 -> sameControl s1 s3.
Proof.
  intros [] []; constructor; congruence.
Qed.

Lemma frames_ret {A} (a : A) : frames (ret a).
Proof. intro s. apply sameControl_refl. Qed.

Lemma frames_throw {A} (e : JsError) : frames (@throw A e).
Proof. intro s. apply sameControl_refl. Qed.

Lemma frames_await {A} (p : Pending) : frames (@await A p).
Proof. intro s. apply sameControl_refl. Qed.

Lemma frames_gets {A} (f : State -> A) : frames (gets f).
Proof. intro s. apply sameControl_refl. Qed.

Lemma frames_bind {A B} (m : M A) (k : A -> M B) :
  frames m -> (forall a, frames (k a)) -> frames (bind m k).
Proof.
  intros Hm Hk s. unfold bind. specialize (Hm s).
  destruct (m s) as [[a|e|p] s1]; cbn in *; auto.
  eapply sameControl_trans; [exact Hm | apply Hk].
Qed.

Lemma frames_tryCatch {A} (body : M A) (handler : JsError -> M A) :
  frames body -> (forall e, frames (handler e)) -> frames (tryCatch body handler).
Proof.
  intros Hm Hk s. unfold tryCatch. specialize (Hm s).
  destruct (body s) as [[a|e|p] s1]; cbn in *; auto.
  eapply sameControl_trans; [exact Hm | apply Hk].
Qed.

Lemma frames_when (c : bool) (m : M unit) : frames m -> frames (when c m).
Proof. intro H. destruct c; cbn; [exact H | apply frames_ret]. Qed.

Lemma frames_ifMainWindow (m : M unit) : frames m -> frames (ifMainWindow m).
Proof.
  intro H. unfold ifMainWindow. apply frames_bind.
  - apply frames_gets.
  - intro w. now apply frames_when.
Qed.

Lemma frames_log level msg : frames (log level msg).
Proof. intro s. constructor; reflexivity. Qed.

Lemma frames_send m : frames (send m).
Proof. intro s. constructor; reflexivity. Qed.

Lemma frames_store_get {A} (key : Settings -> A) : frames (store_get key).
Proof. intro s. apply sameControl_refl. Qed.

Lemma frames_setApiKey key : frames (setApiKey key).
Proof. intro s. constructor; reflexivity. Qed.

Lemma frames_showNotification title body : frames (showNotification title body).
Proof. intro s. constructor; reflexivity. Qed.

Lemma frames_count_capture :
  frames (modify (fun s => set_captureCalls (S (captureCalls s)) s)).
Proof. intro s. constructor; reflexivity. Qed.

Lemma frames_count_analyze :
  frames (modify (fun s => set_analyzeCalls (S (analyzeCalls s)) s)).
Proof. intro s. constructor; reflexivity. Qed.

Lemma frames_count_network :
  frames (modify (fun s => set_networkCalls (S (networkCalls s)) s)).
Proof. intro s. constructor; reflexivity. Qed.

Create HintDb frames.
#[local] Hint Resolve frames_ret frames_throw frames_await frames_gets
  frames_log frames_send frames_store_get frames_setApiKey
  frames_showNotification frames_count_capture frames_count_analyze
  frames_count_network : frames.

Ltac frames_step :=
  match goal with
  | |- frames (bind _ _) => apply frames_bind; [ | intro ]
  | |- frames (tryCatch _ _) => apply frames_tryCatch; [ | intro ]
  | |- frames (when _ _) => apply frames_when
  | |- frames (ifMainWindow _) => apply frames_ifMainWindow
  | |- frames (if ?b then _ else _) => destruct b
  | |- frames (match ?x with _ => _ end) => destruct x
  | |- frames _ => solve [ auto with frames ]
  end.

Lemma frames_captureScreen_catch e : frames (captureScreen_catch e).
Proof. unfold captureScreen_catch. repeat frames_step. Qed.

Lemma frames_analyzeImage_catch e : frames (analyzeImage_catch e).
Proof. unfold analyzeImage_catch. repeat frames_step. Qed.

Lemma frames_captureScreen : frames captureScreen.
Proof.
  unfold captureScreen. repeat frames_step. apply frames_captureScreen_catch.
Qed.

Lemma frames_captureScreen_resume r : frames (captureScreen_resume r).
Proof.
  unfold captureScreen_resume. repeat frames_step.
  all: apply frames_captureScreen_catch.
Qed.

Lemma frames_analyzeImage img : frames (analyzeImage img).
Proof.
  unfold analyzeImage. repeat frames_step. apply frames_analyzeImage_catch.
Qed.

Lemma frames_analyzeImage_resume r : frames (analyzeImage_resume r).
Proof.
  unfold analyzeImage_resume. repeat frames_step.
  all: apply frames_analyzeImage_catch.
Qed.

Lemma frames_Notification_body a : frames (Notification_body a).
Proof. unfold Notification_body. repeat frames_step. Qed.

#[local] Hint Resolve frames_Notification_body : frames.

Lemma frames_withAnalysis a : frames (performCapture_withAnalysis a).
Proof. unfold performCapture_withAnalysis. repeat frames_step. Qed.

#[local] Hint Resolve frames_captureScreen frames_captureScreen_resume
  frames_analyzeImage frames_analyzeImage_resume frames_withAnalysis : frames.

Lemma frames_withScreenshot img : frames (performCapture_withScreenshot img).
Proof. unfold performCapture_withScreenshot. repeat frames_step. Qed.

#[local] Hint Resolve frames_withScreenshot : frames.

Lemma frames_performCapture_try : frames performCapture_try.
Proof. unfold performCapture_try. repeat frames_step. Qed.

Lemma frames_performCapture_catch e : frames (performCapture_catch e).
Proof. unfold performCapture_catch. repeat frames_step. Qed.

(** A resumed [try] block touches the logs, the messages, the notifications,
    the module's API key and the invocation counts, and nothing else. *)
Lemma tryResume_frame p r body :
  performCapture_tryResume p r = Some body -> frames body.
Proof.
  destruct p, r; cbn; intros H; inversion H; subst; clear H;
    repeat frames_step.
Qed.

(** ** Running segments by hand *)

Ltac fields :=
  cbn [platform now mainWindow captureIntervalId isCapturing isQuitting store
       apiKey timers nextTimerId tasks sent replies logs notifications
       captureCalls analyzeCalls networkCalls uncaught
       set_now set_mainWindow set_captureIntervalId set_isCapturing
       set_isQuitting set_store set_apiKey set_timers set_nextTimerId
       set_tasks set_sent set_replies set_logs set_notifications
       set_captureCalls set_analyzeCalls set_networkCalls set_uncaught
       captureInterval autoCapture openaiApiKey minimizeToTray
       showNotifications set_captureInterval set_autoCapture
       set_openaiApiKey set_minimizeToTray set_showNotifications
       Error message response code status providerMessage codeIs orb
       truthyValue isString negb fst snd] in *.

Ltac split_if :=
  match goal with
  | |- context [if ?b then _ else _] =>
      lazymatch b with
      | context [if _ then _ else _] => fail
      | _ => let E := fresh "E" in destruct b eqn:E
      end
  end.

Ltac crunch := repeat (fields; cbv beta iota; try split_if).

(** The shapes of a JSON value that the code tells apart. *)
Ltac content_cases c :=
  destruct c as [| |[|]|[?|?| |? ? ?]|[|? ?]|?].

Ltac unfold_pipeline :=
  cbv [performCapture_try performCapture_withScreenshot
       performCapture_withAnalysis Notification_body
       captureScreen captureScreen_resume
       captureScreen_catch analyzeImage analyzeImage_resume
       analyzeImage_catch performCapture_catch];
  run_m.

(** A [try] block resumed after the screenshot either fails or suspends at
    the analysis; resumed after the analysis it ends. *)
Lemma tryResume_completion p r body s :
  performCapture_tryResume p r = Some body ->
  match fst (body s) with
  | Normal _ => p = AtAnalyzeImage
  | Thrown _ => True
  | Awaiting q => p = AtCaptureScreen /\ q = AtAnalyzeImage
  end.
Proof.
  destruct p, r; cbn; intros H; inversion H; subst; clear H.
  - destruct r as [len b64|e]; unfold_pipeline; destruct s; crunch; auto.
  - destruct r as [[|c]|[m [resp|] cd]]; [|content_cases c| |];
      unfold_pipeline; destruct s; crunch; auto.
Qed.

(** The [try] block from its start: the screenshot collaborator is invoked
    once and the function suspends on it. *)
Lemma performCapture_try_spec s :
  performCapture_try s =
    (Awaiting AtCaptureScreen,
     set_captureCalls (S (captureCalls s))
       (set_logs (logs s ++ [("info", "Initiating screen capture...")])
          (if mainWindow s then set_sent (sent s ++ [MsgCaptureStarted]) s
           else s))).
Proof.
  unfold_pipeline. destruct s; crunch; reflexivity.
Qed.

(** [performCapture()] called while an attempt is in flight returns at once
    and changes nothing. *)
Lemma performCapture_busy s :
  isCapturing s = true -> performCapture s = (Normal tt, s).
Proof.
  intro H. unfold performCapture. run_m. rewrite H. reflexivity.
Qed.

(** [performCapture()] called when idle takes the guard, invokes the
    screenshot collaborator and suspends on it. *)
Lemma performCapture_idle s :
  isCapturing s = false ->
  performCapture s =
    (Awaiting AtCaptureScreen,
     set_captureCalls (S (captureCalls s))
       (set_logs (logs s ++ [("info", "Performing screen capture...");
                             ("info", "Initiating screen capture...")])
          (set_isCapturing true
             (if mainWindow s then set_sent (sent s ++ [MsgCaptureStarted]) s
              else s)))).
Proof.
  intro H. unfold performCapture. cbv [bind gets modify]. rewrite H.
  unfold log at 1. cbv [modify]. rewrite performCapture_guard.
  rewrite performCapture_try_spec. destruct s; cbn in *.
  rewrite <- app_assoc. destruct mainWindow0; reflexivity.
Qed.

(** ** The invariant of the event loop *)

Lemma Inv_initial pf st : Inv (initial pf st).
Proof.
  constructor; cbn; try reflexivity; try congruence. intros ? ? ? [].
Qed.

(** The invariant reads only these fields. *)
Lemma Inv_ext s s' :
  tasks s' = tasks s -> isCapturing s' = isCapturing s ->
  timers s' = timers s -> captureIntervalId s' = captureIntervalId s ->
  autoCapture (store s') = autoCapture (store s) -> uncaught s' = uncaught s ->
  Inv s -> Inv s'.
Proof.
  intros Ht Hc Hti Hid Hst Hu [I1 I2 I3 I4 I5].
  constructor; unfold inFlight in *;
    rewrite ?Ht, ?Hc, ?Hti, ?Hid, ?Hst, ?Hu; assumption.
Qed.

Lemma Inv_sameControl s s' : sameControl s s' -> Inv s -> Inv s'.
Proof. intros []; apply Inv_ext; congruence. Qed.

Lemma Inv_reply req v s : Inv s -> Inv (reply req v s).
Proof. apply Inv_ext; reflexivity. Qed.

Lemma filter_isPipeline_app l t :
  List.length (filter isPipeline (l ++ [t])) =
  (List.length (filter isPipeline l) + if isPipeline t then 1 else 0)%nat.
Proof.
  rewrite filter_app, length_app. cbn. destruct (isPipeline t); reflexivity.
Qed.

Lemma Inv_spawn_dialog w s : Inv s -> Inv (spawn (TaskDialog w) s).
Proof.
  intros [I1 I2 I3 I4 I5]. constructor; cbn; auto.
  - unfold inFlight in *. cbn. rewrite filter_isPipeline_app. cbn. lia.
  - intros req hp p Hin. apply in_app_or in Hin. destruct Hin as [Hin|[Hin|[]]].
    + eauto.
    + discriminate.
Qed.

Lemma removeAt_In {A} (x : A) i l : In x (removeAt i l) -> In x l.
Proof.
  revert i. induction l as [|y l IH]; intros [|i]; cbn; auto.
  intros [->|H]; eauto.
Qed.

Lemma removeAt_flight i l t :
  nth_error l i = Some t ->
  List.length (filter isPipeline l) =
  ((if isPipeline t then 1 else 0)
   + List.length (filter isPipeline (removeAt i l)))%nat.
Proof.
  revert i. induction l as [|y l IH]; intros [|i] H; cbn in *; try discriminate.
  - inversion H; subst. destruct (isPipeline t); reflexivity.
  - specialize (IH _ H). destruct (isPipeline y), (isPipeline t); cbn in *; lia.
Qed.

Lemma Resuming_sameControl s s' : sameControl s s' -> Resuming s -> Resuming s'.
Proof.
  intros [H1 H2 H3 H4 H5 H6 H7 H8 H9 H10 H11 H12] [R1 R2 R3 R4 R5 R6].
  constructor; unfold inFlight in *;
    rewrite ?H4, ?H5, ?H7, ?H8, ?H10, ?H12; assumption.
Qed.

Lemma Inv_take i c p s :
  Inv s -> nth_error (tasks s) i = Some (TaskPipeline c p) ->
  Resuming (set_tasks (removeAt i (tasks s)) s)
  /\ (forall req hp, c = ByCaptureNow req hp -> hp = true).
Proof.
  intros [I1 I2 I3 I4 I5] Hn.
  pose proof (removeAt_flight _ _ _ Hn) as Hf. cbn in Hf.
  unfold inFlight in I1. split.
  - constructor; cbn; auto.
    + unfold inFlight; cbn. destruct (isCapturing s); lia.
    + destruct (isCapturing s); [reflexivity | lia].
    + intros req hp q Hin. apply removeAt_In in Hin. eauto.
  - intros req hp ->. eapply I5. eapply nth_error_In. exact Hn.
Qed.

(** Settling a resumed attempt re-establishes the invariant. *)
Lemma Inv_settle_resumed c body s :
  (forall req hp, c = ByCaptureNow req hp -> hp = true) ->
  frames body -> Resuming s ->
  Inv (settlePipeline c
         (tryCatchFinally body performCapture_catch performCapture_finally s)).
Proof.
  intros Hc Hb R. rewrite performCapture_guard.
  pose proof (Hb s) as Hs.
  destruct (body s) as [[a|e|p] s1]; cbn [snd] in Hs; cbn [settlePipeline].
  - apply (Resuming_sameControl _ _ Hs) in R. destruct R as [R1 R2 R3 R4 R5 R6].
    assert (Inv (set_isCapturing false s1)).
    { constructor; cbn; auto. }
    destruct c; cbn; auto using Inv_reply.
  - pose proof (frames_performCapture_catch e s1) as Hk.
    apply (Resuming_sameControl _ _ Hs) in R.
    apply (Resuming_sameControl _ _ Hk) in R.
    destruct R as [R1 R2 R3 R4 R5 R6].
    assert (Inv (set_isCapturing false (snd (performCapture_catch e s1)))).
    { constructor; cbn; auto. }
    destruct c; cbn; auto using Inv_reply.
  - apply (Resuming_sameControl _ _ Hs) in R. destruct R as [R1 R2 R3 R4 R5 R6].
    constructor; cbn; auto.
    + unfold inFlight in *. cbn. rewrite filter_isPipeline_app, R1, R2.
      reflexivity.
    + intros req hp q Hin. apply in_app_or in Hin.
      destruct Hin as [Hin|[Hin|[]]]; eauto.
      inversion Hin; subst. eauto.
Qed.

(** Calling [performCapture()] on behalf of [c] keeps the invariant. *)
Lemma Inv_performCapture c s :
  (forall req hp, c = ByCaptureNow req hp -> hp = true) ->
  Inv s -> Inv (settlePipeline c (performCapture s)).
Proof.
  intros Hc I. destruct (isCapturing s) eqn:Hb.
  - rewrite performCapture_busy by assumption. destruct c; cbn; auto using Inv_reply.
  - rewrite performCapture_idle by assumption. cbn [settlePipeline].
    destruct I as [I1 I2 I3 I4 I5]. rewrite Hb in I1.
    constructor; unfold inFlight in *.
    + destruct (mainWindow s); cbn; rewrite filter_isPipeline_app, I1; reflexivity.
    + destruct (mainWindow s); cbn; assumption.
    + destruct (mainWindow s); cbn; assumption.
    + destruct (mainWindow s); cbn; assumption.
    + intros req hp q Hin.
      assert (In (TaskPipeline (ByCaptureNow req hp) q)
                 (tasks s ++ [TaskPipeline c AtCaptureScreen])) as Hin'
        by (destruct (mainWindow s); exact Hin).
      apply in_app_or in Hin'. destruct Hin' as [Hin'|[Hin'|[]]]; eauto.
      inversion Hin'; subst. eauto.
Qed.

(** ** The auto-capture timer *)

Lemma startAutoCapture_spec s : startAutoCapture s = (Normal tt, started s).
Proof.
  unfold startAutoCapture, started, clearedTimers, freshTimer,
    setInterval, clearInterval.
  run_m. destruct s as [? ? w id ? ? ? ? ? ? ? ? ? ? ? ? ? ? ?].
  destruct id, w; reflexivity.
Qed.

Lemma stopAutoCapture_spec s : stopAutoCapture s = (Normal tt, stopped s).
Proof.
  unfold stopAutoCapture, stopped, clearedTimers, clearInterval.
  run_m. destruct s as [? ? w id ? ? ? ? ? ? ? ? ? ? ? ? ? ? ?].
  destruct id, w; reflexivity.
Qed.

Lemma clearedTimers_nil s : Inv s -> clearedTimers s = [].
Proof.
  intros [_ I2 _ _ _]. unfold clearedTimers.
  destruct (captureIntervalId s) as [id|]; [|assumption].
  destruct I2 as (t & -> & <-). cbn. now rewrite Nat.eqb_refl.
Qed.

Lemma started_fields s :
  tasks (started s) = tasks s /\ isCapturing (started s) = isCapturing s
  /\ uncaught (started s) = uncaught s
  /\ timers (started s) = (clearedTimers s ++ [freshTimer s])%list
  /\ captureIntervalId (started s) = Some (nextTimerId s)
  /\ store (started s) = set_autoCapture true (store s)
  /\ now (started s) = now s /\ replies (started s) = replies s.
Proof. unfold started. destruct (mainWindow s); cbn; repeat split. Qed.

Lemma stopped_fields s :
  tasks (stopped s) = tasks s /\ isCapturing (stopped s) = isCapturing s
  /\ uncaught (stopped s) = uncaught s
  /\ timers (stopped s) = clearedTimers s
  /\ captureIntervalId (stopped s) = None
  /\ store (stopped s) = set_autoCapture false (store s)
  /\ now (stopped s) = now s /\ replies (stopped s) = replies s.
Proof. unfold stopped. destruct (mainWindow s); cbn; repeat split. Qed.

Lemma Inv_started s : Inv s -> Inv (started s).
Proof.
  intro I. pose proof (clearedTimers_nil s I) as Hc.
  destruct (started_fields s) as (H1 & H2 & H3 & H4 & H5 & H6 & _).
  destruct I as [I1 I2 I3 I4 I5].
  constructor; unfold inFlight; rewrite ?H1, ?H2, ?H3, ?H4, ?H5, ?H6; auto.
  rewrite Hc. eexists; split; reflexivity.
Qed.

Lemma Inv_stopped s : Inv s -> Inv (stopped s).
Proof.
  intro I. pose proof (clearedTimers_nil s I) as Hc.
  destruct (stopped_fields s) as (H1 & H2 & H3 & H4 & H5 & H6 & _).
  destruct I as [I1 I2 I3 I4 I5].
  constructor; unfold inFlight; rewrite ?H1, ?H2, ?H3, ?H4, ?H5, ?H6; auto.
Qed.

(** ** The settings update handler *)

Lemma updateSettings_spec u s :
  exists s',
    updateSettings u s = (Normal true, s')
    /\ store s' = updatedStore u (store s)
    /\ tasks s' = tasks s /\ isCapturing s' = isCapturing s
    /\ uncaught s' = uncaught s /\ now s' = now s
    /\ (if restarts u s
        then timers s' = timers (started (withInterval u s))
             /\ captureIntervalId s' = captureIntervalId (started (withInterval u s))
        else timers s' = timers s
             /\ captureIntervalId s' = captureIntervalId s).
Proof.
  unfold updateSettings, restarts, withInterval, updatedStore.
  destruct u as [ci ac key tray notif]. cbn [u_captureInterval u_autoCapture
    u_openaiApiKey u_minimizeToTray u_showNotifications].
  destruct ci as [v|].
  - cbv [bind store_set store_get modify gets when].
    fields. destruct (autoCapture (store s)) eqn:Ha.
    + rewrite startAutoCapture_spec.
      set (s1 := started _).
      destruct (started_fields (set_store (set_captureInterval v (store s)) s))
        as (A6 & A7 & A8 & _ & _ & A1 & A9 & _).
      fold s1 in A1, A6, A7, A8, A9. fields.
      destruct key, tray, notif; cbv [ret log modify]; eexists;
        (split; [reflexivity|]); fields; rewrite ?A1, ?A6, ?A7, ?A8, ?A9;
        repeat split; destruct (store s); cbn in *; subst; reflexivity.
    + destruct key, tray, notif; cbv [ret log modify]; eexists;
        (split; [reflexivity|]); fields; repeat split;
        destruct (store s); cbn in *; subst; reflexivity.
  - destruct key, tray, notif; run_m; eexists;
      (split; [reflexivity|]); fields; repeat split;
      destruct (store s); reflexivity.
Qed.

(** ** The permission probe *)

Lemma requestScreenCapturePermission_spec st s :
  requestScreenCapturePermission st s =
    if granted (platform s) st then (Normal true, s) else (Awaiting AtDialog, s).
Proof.
  unfold requestScreenCapturePermission, granted. run_m.
  destruct (platform s =? "darwin")%string, (st =? "granted")%string;
    reflexivity.
Qed.

Lemma requestScreenCapturePermission_resume_spec response s :
  requestScreenCapturePermission_resume response s = (Normal false, s).
Proof.
  unfold requestScreenCapturePermission_resume. run_m.
  destruct (response =? 0)%nat; reflexivity.
Qed.

(** ** Every step keeps the invariant *)

Lemma Inv_permissionThen w hp s : Inv s -> Inv (permissionThen w hp s).
Proof.
  intro I. destruct w as [req|req enabled|]; cbn.
  - unfold captureNow_continue. destruct hp.
    + apply Inv_performCapture; [|assumption]. intros ? ? H. now inversion H.
    + now apply Inv_reply.
  - unfold toggleAutoCapture_continue. destruct hp; cbn.
    + apply Inv_reply. unfold runSync. destruct enabled.
      * rewrite startAutoCapture_spec. now apply Inv_started.
      * rewrite stopAutoCapture_spec. now apply Inv_stopped.
    + now apply Inv_reply.
  - unfold ready_continue, runSync. destruct hp; [|assumption].
    rewrite startAutoCapture_spec. now apply Inv_started.
Qed.

Lemma Inv_askPermission w st s : Inv s -> Inv (askPermission w st s).
Proof.
  intro I. unfold askPermission. rewrite requestScreenCapturePermission_spec.
  destruct (granted (platform s) st); cbn [settlePermission].
  - now apply Inv_permissionThen.
  - now apply Inv_spawn_dialog.
Qed.

Lemma Inv_rearm id s : Inv s -> Inv (rearm id s).
Proof.
  intros [I1 I2 I3 I4 I5]. constructor; cbn; auto.
  destruct (captureIntervalId s) as [i|].
  - destruct I2 as (t & -> & <-). cbn.
    destruct (tid t =? id)%nat; eexists; split; reflexivity.
  - now rewrite I2.
Qed.

Lemma Inv_updateSettings u s : Inv s -> Inv (snd (updateSettings u s)).
Proof.
  intro I. destruct (updateSettings_spec u s)
    as (s' & -> & Hst & Ht & Hc & Hu & _ & Hr). cbn [snd].
  assert (Ha : autoCapture (store s') = autoCapture (store s))
    by (rewrite Hst; reflexivity).
  destruct (restarts u s) eqn:Er.
  - destruct Hr as [Hti Hid].
    assert (Iw : Inv (withInterval u s)).
    { unfold withInterval. destruct (u_captureInterval u); [|assumption].
      revert I. apply Inv_ext; reflexivity. }
    apply Inv_started in Iw. destruct Iw as [J1 J2 J3 J4 J5].
    destruct I as [I1 I2 I3 I4 I5].
    constructor; unfold inFlight; rewrite ?Ht, ?Hc, ?Hu, ?Hti, ?Hid, ?Ha; auto.
    intros _. unfold restarts in Er. destruct (u_captureInterval u); congruence.
  - destruct Hr as [Hti Hid]. revert I. apply Inv_ext; assumption.
Qed.

Lemma Inv_resolve i r s : Inv s -> Inv (resolve i r s).
Proof.
  intro I. unfold resolve.
  destruct (nth_error (tasks s) i) as [[w|c p]|] eqn:Hn; [| |assumption].
  - destruct r; try assumption.
    rewrite requestScreenCapturePermission_resume_spec. cbn [settlePermission].
    apply Inv_permissionThen.
    pose proof (removeAt_flight _ _ _ Hn) as Hf. cbn in Hf.
    destruct I as [I1 I2 I3 I4 I5]. constructor; cbn; auto.
    + unfold inFlight in *. cbn. congruence.
    + intros req hp q Hin. apply removeAt_In in Hin. eauto.
  - unfold performCapture_resume.
    destruct (performCapture_tryResume p r) as [body|] eqn:Hb; [|assumption].
    destruct (Inv_take _ _ _ _ I Hn) as [R Hc].
    apply Inv_settle_resumed; auto. eapply tryResume_frame; eassumption.
Qed.

Theorem Inv_step e s : Inv s -> Inv (step e s).
Proof.
  intro I. destruct e; cbn [step].
  - set (s1 := runSync (log "info" "System tray created") _).
    assert (I1 : Inv s1) by (revert I; apply Inv_ext; reflexivity).
    destruct (autoCapture (store s1)); [|assumption].
    now apply Inv_askPermission.
  - revert I. apply Inv_ext; reflexivity.
  - destruct (findTimer id (timers s)) as [t|]; [|assumption].
    destruct (due t <=? now s); [|assumption].
    unfold timerCallback. apply (Inv_rearm id) in I.
    destruct (isCapturing (rearm id s)); [assumption|].
    apply Inv_performCapture; [|assumption]. discriminate.
  - now apply Inv_askPermission.
  - now apply Inv_askPermission.
  - pose proof (Inv_updateSettings settings s I) as I'.
    destruct (updateSettings_spec settings s) as (s' & E & _).
    rewrite E in *. cbn [snd] in I'. now apply Inv_reply.
  - now apply Inv_resolve.
  - destruct (minimizeToTray (store s) && negb (isQuitting s)); [assumption|].
    revert I. apply Inv_ext; reflexivity.
  - destruct (mainWindow s); [assumption|].
    revert I. apply Inv_ext; reflexivity.
  - unfold runSync, bind. rewrite stopAutoCapture_spec. cbn.
    assert (I0 : Inv (set_isQuitting true s)) by (revert I; apply Inv_ext; reflexivity).
    apply Inv_stopped in I0. revert I0. apply Inv_ext; reflexivity.
Qed.

Theorem Inv_run evs s : Inv s -> Inv (run evs s).
Proof.
  revert s. induction evs as [|e evs IH]; intros s I; cbn; [assumption|].
  apply IH. now apply Inv_step.
Qed.

Lemma reachable_Inv s : reachable s -> Inv s.
Proof. intros (pf & st & evs & ->). apply Inv_run, Inv_initial. Qed.

Lemma reachable_step e s : reachable s -> reachable (step e s).
Proof.
  intros (pf & st & evs & ->). exists pf, st, (evs ++ [e])%list.
  unfold run. now rewrite fold_left_app.
Qed.

(** ** Resuming an attempt *)

(** How a resumed attempt is settled, by the way its [try] block ends. *)
Lemma resolve_pipeline i c p r body s :
  nth_error (tasks s) i = Some (TaskPipeline c p) ->
  performCapture_tryResume p r = Some body ->
  step (EvResolve i r) s =
    match body (taken i s) with
    | (Normal _, s1) => callerReturns c (set_isCapturing false s1)
    | (Thrown e, s1) =>
        callerReturns c
          (set_isCapturing false (snd (performCapture_catch e s1)))
    | (Awaiting q, s1) => spawn (TaskPipeline c q) s1
    end.
Proof.
  intros Hn Hb. cbn [step]. unfold resolve, performCapture_resume.
  rewrite Hn, Hb, performCapture_guard. fold (taken i s).
  destruct (body (taken i s)) as [[a|e|q] s1]; reflexivity.
Qed.

(** A [try] block that fails has shown nothing and invoked neither the
    screenshot collaborator nor the HTTP client; it has sent nothing, but for
    the success message of an analysis that is not a string. *)
Lemma tryResume_thrown p r body s e s1 :
  performCapture_tryResume p r = Some body ->
  body s = (Thrown e, s1) ->
  sent s1 = (sent s ++ sentBeforeThrow r s)%list
  /\ notifications s1 = notifications s
  /\ captureCalls s1 = captureCalls s /\ networkCalls s1 = networkCalls s.
Proof.
  destruct p, r; cbn [performCapture_tryResume]; intros H; inversion H; subst;
    clear H.
  - destruct r as [len b64|e0]; unfold sentBeforeThrow; unfold_pipeline;
      destruct s; crunch; intros H; inversion H; subst; fields;
      rewrite ?app_nil_r; repeat split; congruence.
  - destruct r as [[|c]|[m [resp|] cd]]; [|content_cases c| |];
      unfold sentBeforeThrow, contentOf; unfold_pipeline; destruct s;
      crunch; intros H; inversion H; subst; fields;
      rewrite ?app_nil_r; repeat split; congruence.
Qed.

(** A trigger that reaches [performCapture()] while idle starts an attempt. *)
Lemma idle_trigger c s :
  Inv s -> isCapturing s = false ->
  let s' := settlePipeline c (performCapture s) in
  inFlight s' = 1%nat /\ isCapturing s' = true
  /\ captureCalls s' = S (captureCalls s)
  /\ tasks s' = (tasks s ++ [TaskPipeline c AtCaptureScreen])%list
  /\ replies s' = replies s /\ uncaught s' = uncaught s
  /\ analyzeCalls s' = analyzeCalls s /\ networkCalls s' = networkCalls s.
Proof.
  intros I Hb. rewrite performCapture_idle by assumption.
  cbn [settlePipeline]. destruct I as [I1 _ _ _ _]. rewrite Hb in I1.
  unfold inFlight in *.
  destruct (mainWindow s); cbn; rewrite filter_isPipeline_app, I1; cbn;
    repeat split.
Qed.

(** * The claims *)

(** ** Single flight *)

(** C1 (single-flight invariant).  After any sequence of events, in any
    interleaving of manual requests, timer ticks and completions, at most one
    capture-analyze attempt is in flight.  While one is in flight,
    [performCapture()] returns at once without changing anything and without
    throwing; a timer tick leaves the state as it is (at most the timer is
    re-armed); a [capture-now] request with permission only answers [true];
    so a trigger starts no attempt, leaves no trace from which one could be
    started later, sends nothing, invokes no collaborator and raises no
    error. *)
Theorem single_flight (s : State) :
  reachable s ->
  (inFlight s <= 1)%nat
  /\ (inFlight s = 1%nat ->
      performCapture s = (Normal tt, s)
      /\ (forall id, step (EvTick id) s = s \/ step (EvTick id) s = rearm id s)
      /\ (forall req st,
            step (EvCaptureNow req st) s =
              if granted (platform s) st then reply req true s
              else spawn (TaskDialog (ForCaptureNow req)) s)
      /\ (forall e, isTrigger e = true ->
            let s' := step e s in
            inFlight s' = 1%nat
            /\ filter isPipeline (tasks s') = filter isPipeline (tasks s)
            /\ sent s' = sent s
            /\ captureCalls s' = captureCalls s
            /\ analyzeCalls s' = analyzeCalls s
            /\ networkCalls s' = networkCalls s
            /\ uncaught s' = [])).
Proof.
  intro R. pose proof (reachable_Inv s R) as I.
  pose proof (inv_flight s I) as Hf. split.
  { rewrite Hf. destruct (isCapturing s); lia. }
  intro H1. assert (Hb : isCapturing s = true).
  { rewrite H1 in Hf. destruct (isCapturing s); [reflexivity|discriminate]. }
  assert (Htick : forall id,
             step (EvTick id) s = s \/ step (EvTick id) s = rearm id s).
  { intro id. cbn [step]. destruct (findTimer id (timers s)); [|now left].
    destruct (due t <=? now s); [|now left].
    right. unfold timerCallback.
    replace (isCapturing (rearm id s)) with (isCapturing s) by reflexivity.
    now rewrite Hb. }
  assert (Hnow : forall req st,
             step (EvCaptureNow req st) s =
               if granted (platform s) st then reply req true s
               else spawn (TaskDialog (ForCaptureNow req)) s).
  { intros req st. cbn [step]. unfold askPermission.
    rewrite requestScreenCapturePermission_spec.
    destruct (granted (platform s) st);
      cbn [settlePermission permissionThen]; [|reflexivity].
    unfold captureNow_continue. now rewrite performCapture_busy. }
  split; [now apply performCapture_busy|].
  split; [exact Htick|]. split; [exact Hnow|].
  intros e He s'. subst s'. pose proof (inv_uncaught s I) as Hu.
  destruct e; try discriminate.
  - destruct (Htick id) as [-> | ->]; cbn; repeat split; auto.
  - rewrite Hnow. destruct (granted (platform s) mediaAccessStatus).
    + cbn; repeat split; auto.
    + unfold inFlight, spawn; cbn. rewrite filter_app. cbn.
      rewrite app_nil_r. repeat split; auto.
Qed.

Lemma single_flight_witness :
  let s := run [EvReady "granted"; EvCaptureNow 1 "granted"]
               (initial "win32" defaults) in
  inFlight s = 1%nat /\ performCapture s = (Normal tt, s).
Proof.
  cbv zeta. split; [reflexivity|].
  apply (single_flight
           (run [EvReady "granted"; EvCaptureNow 1 "granted"]
                (initial "win32" defaults))).
  - exists "win32", defaults, [EvReady "granted"; EvCaptureNow 1 "granted"].
    reflexivity.
  - reflexivity.
Defined.

(** ** Release of the guard *)

Lemma idleAgain_intro s : Inv s -> isCapturing s = false -> idleAgain s.
Proof.
  intros I Hb. pose proof (inv_flight s I) as Hf. rewrite Hb in Hf.
  split; [assumption|]. split; [assumption|].
  split; [now apply inv_uncaught|]. split.
  - intros req st Hg. cbn [step]. unfold askPermission.
    rewrite requestScreenCapturePermission_spec, Hg.
    cbn [settlePermission permissionThen]. unfold captureNow_continue.
    destruct (idle_trigger (ByCaptureNow req true) s I Hb) as (A & B & C & _).
    auto.
  - intros id t Ht Hd. cbn [step]. apply Z.leb_le in Hd. rewrite Ht, Hd.
    unfold timerCallback.
    replace (isCapturing (rearm id s)) with (isCapturing s) by reflexivity.
    rewrite Hb.
    destruct (idle_trigger ByTimer (rearm id s) (Inv_rearm id s I) Hb)
      as (A & B & C & _).
    auto.
Qed.

Lemma callerReturns_isCapturing c s :
  isCapturing (callerReturns c s) = isCapturing s.
Proof. destruct c; reflexivity. Qed.

(** C2 (the guard is released on every exit path).  Whenever a suspended
    attempt is resumed, whatever the environment answers: if its [try] block
    suspends again (only possible after the screenshot, on the analysis) the
    attempt is still the one in flight; if the block returns (success) or
    throws (a classified failure or any other exception), the guard was held
    up to there and resetting it is the last thing the attempt does before
    its caller goes on, nothing is thrown further, nothing is in flight, and
    the next trigger starts a new attempt.  An attempt resumed after the
    analysis always ends. *)
Theorem guard_released (s : State) i c p r body :
  reachable s ->
  nth_error (tasks s) i = Some (TaskPipeline c p) ->
  performCapture_tryResume p r = Some body ->
  let s' := step (EvResolve i r) s in
  match fst (body (taken i s)) with
  | Awaiting q =>
      p = AtCaptureScreen /\ q = AtAnalyzeImage
      /\ inFlight s' = 1%nat /\ isCapturing s' = true
  | Normal _ | Thrown _ =>
      (exists s1, isCapturing s1 = true
                  /\ s' = callerReturns c (set_isCapturing false s1))
      /\ idleAgain s'
  end
  /\ (p = AtAnalyzeImage -> isCapturing s' = false).
Proof.
  intros R Hn Hb s'. pose proof (reachable_Inv s R) as I.
  assert (I' : Inv s') by (apply Inv_step; assumption).
  destruct (Inv_take _ _ _ _ I Hn) as [Rs _]. fold (taken i s) in Rs.
  pose proof (tryResume_frame _ _ _ Hb (taken i s)) as Hfr.
  pose proof (tryResume_completion _ _ _ (taken i s) Hb) as Hcp.
  pose proof (resolve_pipeline _ _ _ _ _ _ Hn Hb) as Hs. fold s' in Hs.
  destruct (body (taken i s)) as [[a|e|q] s1]; cbn [fst snd] in *.
  - assert (Hg : isCapturing s1 = true)
      by (rewrite (sc_isCapturing _ _ Hfr); apply Rs).
    assert (Hc : isCapturing s' = false)
      by (rewrite Hs, callerReturns_isCapturing; reflexivity).
    split; [|auto]. split; [eauto|]. now apply idleAgain_intro.
  - pose proof (frames_performCapture_catch e s1) as Hk.
    assert (Hg : isCapturing (snd (performCapture_catch e s1)) = true).
    { rewrite (sc_isCapturing _ _ Hk), (sc_isCapturing _ _ Hfr). apply Rs. }
    assert (Hc : isCapturing s' = false)
      by (rewrite Hs, callerReturns_isCapturing; reflexivity).
    split; [|auto]. split; [eauto|]. now apply idleAgain_intro.
  - destruct Hcp as [-> ->].
    assert (Hc : isCapturing s' = true).
    { rewrite Hs. cbn. rewrite (sc_isCapturing _ _ Hfr). apply Rs. }
    split; [|discriminate]. repeat split; auto.
    rewrite (inv_flight _ I'), Hc. reflexivity.
Qed.

Lemma guard_released_witness :
  let s := run [EvReady "granted"; EvCaptureNow 1 "granted"]
               (initial "win32" defaults) in
  let r := RCapture (ScreenshotRejected (Error "display went away")) in
  isCapturing s = true
  /\ isCapturing (step (EvResolve 0 r) s) = false
  /\ inFlight (step (EvResolve 0 r) s) = 0%nat.
Proof.
  cbv zeta.
  pose proof
    (guard_released
       (run [EvReady "granted"; EvCaptureNow 1 "granted"]
            (initial "win32" defaults))
       0 (ByCaptureNow 1 true) AtCaptureScreen
       (RCapture (ScreenshotRejected (Error "display went away")))
       (screenshot <- captureScreen_resume
                        (ScreenshotRejected (Error "display went away")) ;;
        performCapture_withScreenshot screenshot)
       (ex_intro _ "win32"
          (ex_intro _ defaults
             (ex_intro _ [EvReady "granted"; EvCaptureNow 1 "granted"]
                eq_refl)))
       eq_refl eq_refl) as H.
  cbv zeta in H. destruct H as [H _].
  change (fst _) with (@Thrown unit (Error "display went away")) in H.
  cbv beta iota in H. destruct H as [_ (H1 & H2 & _)].
  split; [reflexivity|]. split; assumption.
Defined.

(** ** The permission gate *)

Lemma nth_error_last {A} (l : list A) (x : A) :
  nth_error (l ++ [x]) (List.length l) = Some x.
Proof. induction l; cbn; auto. Qed.

Lemma removeAt_last {A} (l : list A) (x : A) :
  removeAt (List.length l) (l ++ [x]) = l.
Proof. induction l; cbn; congruence. Qed.

(** The [capture-now] handler when the permission probe says no: it parks on
    the message box; once the box is answered it returns [false]. *)
Lemma captureNow_denied req st s :
  granted (platform s) st = false ->
  step (EvCaptureNow req st) s = spawn (TaskDialog (ForCaptureNow req)) s.
Proof.
  intro H. cbn [step]. unfold askPermission.
  now rewrite requestScreenCapturePermission_spec, H.
Qed.

Lemma dialog_answered i w response s :
  nth_error (tasks s) i = Some (TaskDialog w) ->
  step (EvResolve i (RDialog response)) s = permissionThen w false (taken i s).
Proof.
  intro H. cbn [step]. unfold resolve. rewrite H.
  now rewrite requestScreenCapturePermission_resume_spec.
Qed.

(** C3 (permission gate).  When the permission probe reports "not granted",
    a [capture-now] request parks on the message box without touching
    anything else, and once the box is answered, whatever happened in
    between, the handler returns [false], which is how the code reports
    PermissionDenied.  Neither step invokes the screenshot collaborator,
    [analyzeImage] or the HTTP client, starts an attempt, takes the guard or
    sends a message. *)
Theorem permission_denied (s : State) req st :
  granted (platform s) st = false ->
  let s1 := step (EvCaptureNow req st) s in
  (s1 = spawn (TaskDialog (ForCaptureNow req)) s
   /\ captureCalls s1 = captureCalls s /\ analyzeCalls s1 = analyzeCalls s
   /\ networkCalls s1 = networkCalls s /\ inFlight s1 = inFlight s
   /\ isCapturing s1 = isCapturing s /\ sent s1 = sent s
   /\ replies s1 = replies s)
  /\ (forall s2 i response,
        nth_error (tasks s2) i = Some (TaskDialog (ForCaptureNow req)) ->
        let s3 := step (EvResolve i (RDialog response)) s2 in
        s3 = reply req false (taken i s2)
        /\ replyClass false = Some PermissionDenied
        /\ captureCalls s3 = captureCalls s2
        /\ analyzeCalls s3 = analyzeCalls s2
        /\ networkCalls s3 = networkCalls s2 /\ inFlight s3 = inFlight s2
        /\ isCapturing s3 = isCapturing s2 /\ sent s3 = sent s2
        /\ replies s3 = (replies s2 ++ [(req, false)])%list)
  /\ (forall response,
        step (EvResolve (List.length (tasks s)) (RDialog response)) s1 =
          reply req false s).
Proof.
  intros H s1. subst s1. rewrite captureNow_denied by assumption.
  split; [|split].
  - unfold inFlight, spawn; cbn. rewrite filter_app; cbn.
    rewrite app_nil_r. repeat split.
  - intros s2 i response Hn s3. subst s3.
    rewrite (dialog_answered _ _ _ _ Hn). cbn [permissionThen].
    unfold captureNow_continue. repeat split.
    pose proof (removeAt_flight _ _ _ Hn) as Hf. cbn in Hf.
    unfold inFlight; cbn. congruence.
  - intro response. rewrite (dialog_answered _ (ForCaptureNow req)).
    + cbn [permissionThen]. unfold captureNow_continue, taken, spawn. cbn.
      rewrite removeAt_last. destruct s; reflexivity.
    + cbn. apply nth_error_last.
Qed.

Lemma permission_denied_witness :
  let s := run [EvReady "denied"] (initial "darwin" defaults) in
  let s1 := step (EvCaptureNow 7 "denied") s in
  granted (platform s) "denied" = false
  /\ captureCalls s1 = captureCalls s
  /\ step (EvResolve 0 (RDialog 1)) s1 = reply 7 false s.
Proof.
  cbv zeta. split; [reflexivity|].
  pose proof (permission_denied
                (run [EvReady "denied"] (initial "darwin" defaults))
                7 "denied" eq_refl) as H.
  cbv zeta in H. destruct H as [(_ & H1 & _) [_ H2]].
  split; [exact H1 | exact (H2 1%nat)].
Defined.

(** ** The credential gate *)

(** The [try] block resumed after the screenshot, with no API key stored:
    it throws, and [analyzeImage] and the HTTP client are not reached. *)
Lemma afterCapture_noKey cr s :
  truthy (openaiApiKey (store s)) = false ->
  exists e s1,
    (screenshot <- captureScreen_resume cr ;;
     performCapture_withScreenshot screenshot) s = (Thrown e, s1)
    /\ analyzeCalls s1 = analyzeCalls s /\ networkCalls s1 = networkCalls s
    /\ (forall len b64,
          cr = ScreenshotBuffer len b64 -> truthy b64 = true ->
          e = Error MSG_NO_API_KEY
          /\ logs s1 =
             (logs s ++
              [("info", ("Screenshot captured: "
                         ++ string_of_Z ((Z.of_N len + 512) / 1024)
                         ++ "KB")%string);
               ("info", "Screenshot captured successfully")])%list).
Proof.
  intro Hk. destruct cr as [len b64|e0]; unfold_pipeline; destruct s;
    repeat (fields; cbv beta iota).
  - destruct (truthy b64) eqn:Hb; cbn [negb]; repeat (fields; cbv beta iota).
    + rewrite Hk. cbn [negb]. do 2 eexists. split; [reflexivity|].
      fields. split; [reflexivity|]. split; [reflexivity|].
      intros len0 b0 H _. inversion H; subst. split; [reflexivity|].
      rewrite <- app_assoc. reflexivity.
    + do 2 eexists. split; [reflexivity|]. fields.
      split; [reflexivity|]. split; [reflexivity|].
      intros len0 b0 H Hb0. inversion H; subst. congruence.
  - destruct (includes "permission" (message e0)); cbv beta iota;
      do 2 eexists; (split; [reflexivity|]); fields;
      (split; [reflexivity|]); (split; [reflexivity|]);
      intros len0 b0 H; inversion H.
Qed.

(** C4, as the code has it (credential gate).  An attempt always begins by
    invoking the screenshot collaborator, whatever is stored as API key.
    When the attempt is resumed after the screenshot and the stored key is
    empty, [analyzeImage] is not invoked and no request is sent, whatever the
    screenshot collaborator answered, and the attempt ends there.  If the
    screenshot succeeded, the attempt fails with the "API key not
    configured" error: the error is logged, and a [capture-complete] message
    with [success: false] and that message is sent provided the main window
    exists. *)
Theorem no_api_key (s : State) i c cr :
  reachable s ->
  (isCapturing s = false ->
   let s' := settlePipeline c (performCapture s) in
   captureCalls s' = S (captureCalls s)
   /\ analyzeCalls s' = analyzeCalls s /\ networkCalls s' = networkCalls s)
  /\ (nth_error (tasks s) i = Some (TaskPipeline c AtCaptureScreen) ->
      truthy (openaiApiKey (store s)) = false ->
      let s' := step (EvResolve i (RCapture cr)) s in
      analyzeCalls s' = analyzeCalls s /\ networkCalls s' = networkCalls s
      /\ inFlight s' = 0%nat /\ isCapturing s' = false
      /\ (forall len b64,
            cr = ScreenshotBuffer len b64 -> truthy b64 = true ->
            logs s' =
              (logs s ++
               [("info", ("Screenshot captured: "
                          ++ string_of_Z ((Z.of_N len + 512) / 1024)
                          ++ "KB")%string);
                ("info", "Screenshot captured successfully");
                ("error", ("Capture/analysis error: " ++ MSG_NO_API_KEY)%string)])%list
            /\ sent s' =
               (sent s ++
                if mainWindow s
                then [MsgCaptureComplete (CompleteFailure MSG_NO_API_KEY)]
                else [])%list)).
Proof.
  intro R. pose proof (reachable_Inv s R) as I. split.
  - intros Hb s'. destruct (idle_trigger c s I Hb) as (_ & _ & A & _ & _ & _ & B & C).
    auto.
  - intros Hn Hk s'.
    assert (I' : Inv s') by (apply Inv_step; assumption).
    pose proof (resolve_pipeline i c AtCaptureScreen (RCapture cr) _ s Hn eq_refl)
      as Hs. fold s' in Hs.
    destruct (afterCapture_noKey cr (taken i s) Hk)
      as (e & s1 & Hbody & Ha & Hnw & Hbuf).
    pose proof (tryResume_thrown AtCaptureScreen (RCapture cr) _ _ _ _
                  eq_refl Hbody) as (Hsent & _ & _ & _).
    pose proof (tryResume_frame AtCaptureScreen (RCapture cr) _ eq_refl
                  (taken i s)) as Hfr.
    rewrite Hbody in Hs, Hfr. cbn [snd] in Hfr.
    rewrite performCapture_catch_returns in Hs. cbn [snd] in Hs.
    assert (Hc : isCapturing s' = false)
      by (rewrite Hs, callerReturns_isCapturing; reflexivity).
    assert (Hw : mainWindow s1 = mainWindow s)
      by (rewrite (sc_mainWindow _ _ Hfr); reflexivity).
    split; [|split; [|split; [|split]]].
    + rewrite Hs. destruct c, (mainWindow s1); cbn; exact Ha.
    + rewrite Hs. destruct c, (mainWindow s1); cbn; exact Hnw.
    + rewrite (inv_flight _ I'), Hc. reflexivity.
    + exact Hc.
    + intros len b64 Hcr Hb. destruct (Hbuf len b64 Hcr Hb) as [-> Hl].
      rewrite Hs, <- Hw. split.
      * destruct c, (mainWindow s1); cbn; rewrite Hl, <- app_assoc;
          reflexivity.
      * destruct c, (mainWindow s1); cbn; rewrite Hsent, ?app_nil_r;
          reflexivity.
Qed.

Lemma no_api_key_witness :
  let s := run [EvReady "granted"; EvCaptureNow 1 "granted"]
               (initial "win32" defaults) in
  let s' := step (EvResolve 0 (RCapture (ScreenshotBuffer 2048 "QUJD"))) s in
  truthy (openaiApiKey (store s)) = false
  /\ networkCalls s' = networkCalls s /\ inFlight s' = 0%nat.
Proof.
  cbv zeta. split; [reflexivity|].
  pose proof (no_api_key
                (run [EvReady "granted"; EvCaptureNow 1 "granted"]
                     (initial "win32" defaults))
                0 (ByCaptureNow 1 true) (ScreenshotBuffer 2048 "QUJD")
                (ex_intro _ "win32"
                   (ex_intro _ defaults
                      (ex_intro _ [EvReady "granted"; EvCaptureNow 1 "granted"]
                         eq_refl)))) as [_ H].
  specialize (H eq_refl eq_refl). cbv zeta in H.
  destruct H as (_ & H1 & H2 & _). split; assumption.
Defined.

(** C4 as stated fails when the main window is gone: on macOS, with
    "minimize to tray" off, the window is closed while the screenshot is being
    taken; the attempt then fails with the "API key not configured" error,
    which is logged, and no [capture-complete] message is sent. *)
Lemma no_api_key_unreported :
  let s := run [EvReady "granted"; EvCaptureNow 1 "granted"; EvWindowClose;
                EvResolve 0 (RCapture (ScreenshotBuffer 2048 "QUJD"))]
               (initial "darwin" (set_minimizeToTray false defaults)) in
  openaiApiKey (store s) = ""
  /\ captureCalls s = 1%nat /\ networkCalls s = 0%nat /\ inFlight s = 0%nat
  /\ In ("error", "Capture/analysis error: " ++ MSG_NO_API_KEY) (logs s)
  /\ sent s = [MsgCaptureStarted]
  /\ ~ (exists p, In (MsgCaptureComplete p) (sent s)).
Proof.
  cbv zeta. repeat split.
  - vm_compute. tauto.
  - intros (p & H). vm_compute in H. destruct H as [H|[]]. discriminate.
Qed.

(** ** Classification of the vision client's failures *)

(** C5, as the code has it (error classification).  [analyzeImage], resumed
    on any outcome of the request, returns or throws and never suspends
    again.  On a rejected request it throws: for HTTP 401 the InvalidApiKey
    message, for 429 the RateLimited message, for 500, 502 and 503 the
    ServiceUnavailable message, for the codes ENOTFOUND and ECONNREFUSED the
    NetworkUnreachable message, for ETIMEDOUT and ECONNABORTED the Timeout
    message; for every other status (other 5xx included) a new error
    "API error: ..." quoting the provider, which is none of the fixed
    messages; for every other failure the error it caught, unchanged.  On a
    2xx answer without usable content it throws "No response content from
    API" (or the type error of the missing [choices]); otherwise it returns
    the content.  For HTTP 429 the message is the RateLimited message
    verbatim, and it is the message of the [capture-complete] event the
    attempt then sends (if the main window exists). *)
Theorem classification (s : State) :
  (forall r, exists s1,
      (exists text, analyzeImage_resume r s = (Normal text, s1))
      \/ (exists e', analyzeImage_resume r s = (Thrown e', s1)))
  /\ (forall e,
        fst (analyzeImage_resume (AxiosReject e) s) =
          Thrown (match humanMessage (code_classify e) with
                  | Some m => Error m
                  | None => unknownError e
                  end))
  /\ (forall d,
        fst (analyzeImage_resume (AxiosResponse d) s) =
          match contentOf d with
          | Some text => Normal text
          | None =>
              Thrown (Error (match d with
                             | DataNoChoices =>
                                 "Cannot read properties of undefined (reading '0')"
                             | DataContent _ => "No response content from API"
                             end))
          end)
  /\ (forall e resp,
        response e = Some resp -> status resp = 429 ->
        fst (analyzeImage_resume (AxiosReject e) s) =
          Thrown (Error
            "Rate limit exceeded. Please wait a moment before trying again."))
  /\ (forall x, isFixedMessage ("API error: " ++ x) = false)
  /\ (forall i c e resp,
        nth_error (tasks s) i = Some (TaskPipeline c AtAnalyzeImage) ->
        response e = Some resp -> status resp = 429 ->
        sent (step (EvResolve i (RAnalysis (AxiosReject e))) s) =
          (sent s ++
           if mainWindow s
           then [MsgCaptureComplete
                   (CompleteFailure
                      "Rate limit exceeded. Please wait a moment before trying again.")]
           else [])%list).
Proof.
  assert (Hrej : forall e,
            fst (analyzeImage_resume (AxiosReject e) s) =
              Thrown (match humanMessage (code_classify e) with
                      | Some m => Error m
                      | None => unknownError e
                      end)).
  { intros [m [resp|] cd]; unfold analyzeImage_resume, analyzeImage_catch,
      code_classify, unknownError; run_m; fields.
    - destruct (status resp =? 401); [reflexivity|].
      destruct (status resp =? 429); [reflexivity|].
      destruct ((status resp =? 500) || (status resp =? 502)
                || (status resp =? 503)); reflexivity.
    - destruct (_ || _); [reflexivity|].
      destruct (_ || _); reflexivity. }
  assert (Hres : forall d,
            fst (analyzeImage_resume (AxiosResponse d) s) =
              match contentOf d with
              | Some text => Normal text
              | None =>
                  Thrown (Error (match d with
                                 | DataNoChoices =>
                                     "Cannot read properties of undefined (reading '0')"
                                 | DataContent _ => "No response content from API"
                                 end))
              end).
  { intros [|result]; unfold analyzeImage_resume, analyzeImage_catch,
      contentOf; run_m; try reflexivity.
    destruct (truthyValue result); reflexivity. }
  assert (H429 : forall e resp,
            response e = Some resp -> status resp = 429 ->
            fst (analyzeImage_resume (AxiosReject e) s) =
              Thrown (Error MSG_RATE_LIMIT)).
  { intros e resp He Hst. rewrite Hrej. unfold code_classify.
    rewrite He, Hst. reflexivity. }
  split; [|split; [exact Hrej|split; [exact Hres|split; [exact H429|split]]]].
  - intros r. exists (snd (analyzeImage_resume r s)).
    destruct r as [d|e].
    + specialize (Hres d). destruct (analyzeImage_resume (AxiosResponse d) s)
        as [c s1]. cbn [fst snd] in *. subst c.
      destruct (contentOf d); eauto.
    + specialize (Hrej e). destruct (analyzeImage_resume (AxiosReject e) s)
        as [c s1]. cbn [fst snd] in *. subst c. eauto.
  - intro x. reflexivity.
  - intros i c e resp Hn He Hst.
    pose proof (resolve_pipeline i c AtAnalyzeImage
                  (RAnalysis (AxiosReject e)) _ s Hn eq_refl) as Hs.
    pose proof (tryResume_frame AtAnalyzeImage (RAnalysis (AxiosReject e)) _
                  eq_refl (taken i s)) as Hfr.
    assert (Hbody : exists s1,
              (analysis <- analyzeImage_resume (AxiosReject e) ;;
               performCapture_withAnalysis analysis) (taken i s) =
                (Thrown (Error MSG_RATE_LIMIT), s1)).
    { unfold bind.
      assert (Hf : fst (analyzeImage_resume (AxiosReject e) (taken i s)) =
                   Thrown (Error MSG_RATE_LIMIT)).
      { destruct e as [m [r0|] cd]; [|discriminate].
        cbn in He. inversion He; subst r0.
        unfold analyzeImage_resume, analyzeImage_catch. run_m. fields.
        rewrite Hst. reflexivity. }
      destruct (analyzeImage_resume (AxiosReject e) (taken i s)) as [o s1].
      cbn [fst] in Hf. subst o. now exists s1. }
    destruct Hbody as (s1 & Hbody).
    pose proof (tryResume_thrown AtAnalyzeImage (RAnalysis (AxiosReject e)) _
                  _ _ _ eq_refl Hbody) as (Hsent & _).
    rewrite Hbody in Hs, Hfr. cbn [snd] in Hfr.
    rewrite performCapture_catch_returns in Hs. cbn [snd] in Hs.
    assert (Hw : mainWindow s1 = mainWindow s)
      by (rewrite (sc_mainWindow _ _ Hfr); reflexivity).
    rewrite Hs, <- Hw.
    destruct c, (mainWindow s1); cbn; rewrite Hsent, ?app_nil_r; reflexivity.
Qed.

Lemma classification_witness :
  fst (analyzeImage_resume
         (AxiosReject {| message := "Request failed with status code 429";
                         response := Some {| status := 429;
                                             providerMessage := Some "slow down" |};
                         code := Some "ERR_BAD_REQUEST" |})
         (initial "win32" defaults)) =
  Thrown (Error "Rate limit exceeded. Please wait a moment before trying again.").
Proof.
  apply (classification (initial "win32" defaults))
    with (resp := {| status := 429; providerMessage := Some "slow down" |});
    reflexivity.
Defined.

(** C5 as stated fails on the 5xx statuses other than 500, 502 and 503: for
    HTTP 504 the specification's mapping says ServiceUnavailable, and the
    code throws "API error: ..." instead of the ServiceUnavailable
    message. *)
Lemma classification_504 :
  let e := {| message := "Request failed with status code 504";
              response := Some {| status := 504; providerMessage := None |};
              code := Some "ERR_BAD_RESPONSE" |} in
  spec_classify e = ServiceUnavailable
  /\ fst (analyzeImage_resume (AxiosReject e) (initial "win32" defaults)) =
       Thrown (Error "API error: Unknown API error")
  /\ fst (analyzeImage_resume (AxiosReject e) (initial "win32" defaults)) <>
       Thrown (Error MSG_SERVICE_UNAVAILABLE).
Proof.
  cbv zeta. split; [reflexivity|]. split; [reflexivity|].
  vm_compute. discriminate.
Qed.

(** ** Failures at the orchestrator boundary *)

(** [performCapture()] never throws: it returns (busy) or suspends on the
    screenshot. *)
Lemma performCapture_completion s :
  fst (performCapture s) = Normal tt
  \/ fst (performCapture s) = Awaiting AtCaptureScreen.
Proof.
  destruct (isCapturing s) eqn:Hb.
  - left. now rewrite performCapture_busy.
  - right. now rewrite performCapture_idle.
Qed.

(** C6, as the code has it (failures at the orchestrator boundary).  In
    every reachable state nothing has been thrown past the handlers, and
    [performCapture()] itself never throws.  A failure in the capture, the
    credential or the analysis step of an attempt (its [try] block throws
    [e]) is caught: the error is logged, exactly one [capture-complete]
    message with [success: false] and the error's message is sent if the
    main window exists and none otherwise, the attempt is over, and nothing is
    retried: no collaborator is invoked again and no task is left behind.
    Before that message the [try] block has sent nothing, except when what
    fails is the notification of an analysis that is not a string: the
    success message carrying that analysis went out first.  A
    denied permission is not such a failure: the [capture-now] handler
    starts no attempt and sends no message, it only returns [false]. *)
Theorem failures_reported (s : State) :
  reachable s ->
  uncaught s = []
  /\ (fst (performCapture s) = Normal tt
      \/ fst (performCapture s) = Awaiting AtCaptureScreen)
  /\ (forall i c p r body e s1,
        nth_error (tasks s) i = Some (TaskPipeline c p) ->
        performCapture_tryResume p r = Some body ->
        body (taken i s) = (Thrown e, s1) ->
        let s' := step (EvResolve i r) s in
        sent s' =
          (sent s ++ sentBeforeThrow r s ++
           if mainWindow s
           then [MsgCaptureComplete (CompleteFailure (message e))]
           else [])%list
        /\ logs s' =
           (logs s1 ++
            [("error", ("Capture/analysis error: " ++ message e)%string)])%list
        /\ uncaught s' = []
        /\ inFlight s' = 0%nat /\ isCapturing s' = false
        /\ tasks s' = removeAt i (tasks s)
        /\ captureCalls s' = captureCalls s
        /\ networkCalls s' = networkCalls s)
  /\ (forall req st,
        granted (platform s) st = false ->
        let s' := step (EvCaptureNow req st) s in
        sent s' = sent s /\ inFlight s' = inFlight s
        /\ replies s' = replies s)
  /\ (forall i req response,
        nth_error (tasks s) i = Some (TaskDialog (ForCaptureNow req)) ->
        let s' := step (EvResolve i (RDialog response)) s in
        sent s' = sent s /\ inFlight s' = inFlight s
        /\ replies s' = (replies s ++ [(req, false)])%list).
Proof.
  intro R. pose proof (reachable_Inv s R) as I.
  split; [now apply inv_uncaught|].
  split; [apply performCapture_completion|].
  split; [|split].
  - intros i c p r body e s1 Hn Hb Hbody s'.
    assert (I' : Inv s') by (apply Inv_step; assumption).
    pose proof (resolve_pipeline _ _ _ _ _ _ Hn Hb) as Hs. fold s' in Hs.
    pose proof (tryResume_thrown _ _ _ _ _ _ Hb Hbody) as (Hsent & _ & Hcc & Hnc).
    pose proof (tryResume_frame _ _ _ Hb (taken i s)) as Hfr.
    rewrite Hbody in Hs, Hfr. cbn [snd] in Hfr.
    rewrite performCapture_catch_returns in Hs. cbn [snd] in Hs.
    assert (Hc : isCapturing s' = false)
      by (rewrite Hs, callerReturns_isCapturing; reflexivity).
    assert (Hw : mainWindow s1 = mainWindow s)
      by (rewrite (sc_mainWindow _ _ Hfr); reflexivity).
    assert (Ht : tasks s1 = removeAt i (tasks s))
      by (rewrite (sc_tasks _ _ Hfr); reflexivity).
    change (sentBeforeThrow r (taken i s)) with (sentBeforeThrow r s) in Hsent.
    rewrite <- Hw.
    repeat split.
    + rewrite Hs. destruct c, (mainWindow s1); unfold callerReturns, reply;
        fields; rewrite Hsent, ?app_nil_r, <- ?app_assoc; reflexivity.
    + rewrite Hs. destruct c, (mainWindow s1); reflexivity.
    + now apply inv_uncaught.
    + rewrite (inv_flight _ I'), Hc. reflexivity.
    + exact Hc.
    + rewrite Hs. destruct c, (mainWindow s1); cbn; exact Ht.
    + rewrite Hs. destruct c, (mainWindow s1); cbn; exact Hcc.
    + rewrite Hs. destruct c, (mainWindow s1); cbn; exact Hnc.
  - intros req st Hg s'. subst s'. rewrite captureNow_denied by assumption.
    unfold inFlight, spawn; cbn. rewrite filter_app; cbn.
    rewrite app_nil_r. repeat split.
  - intros i req response Hn s'. subst s'.
    rewrite (dialog_answered _ _ _ _ Hn). cbn [permissionThen].
    unfold captureNow_continue. repeat split.
    pose proof (removeAt_flight _ _ _ Hn) as Hf. cbn in Hf.
    unfold inFlight; cbn. congruence.
Qed.

Lemma failures_reported_witness :
  let s := run [EvReady "granted"; EvCaptureNow 1 "granted";
                EvResolve 0 (RCapture (ScreenshotBuffer 2048 "QUJD"))]
               (initial "win32" (set_openaiApiKey "sk-test" defaults)) in
  let r := RAnalysis (AxiosReject
             {| message := "getaddrinfo ENOTFOUND api.openai.com";
                response := None; code := Some "ENOTFOUND" |}) in
  sent (step (EvResolve 0 r) s) =
    (sent s ++ [MsgCaptureComplete (CompleteFailure MSG_NETWORK)])%list
  /\ inFlight (step (EvResolve 0 r) s) = 0%nat.
Proof.
  cbv zeta.
  pose proof
    (failures_reported
       (run [EvReady "granted"; EvCaptureNow 1 "granted";
             EvResolve 0 (RCapture (ScreenshotBuffer 2048 "QUJD"))]
            (initial "win32" (set_openaiApiKey "sk-test" defaults)))
       (ex_intro _ "win32"
          (ex_intro _ (set_openaiApiKey "sk-test" defaults)
             (ex_intro _ [EvReady "granted"; EvCaptureNow 1 "granted";
                          EvResolve 0 (RCapture (ScreenshotBuffer 2048 "QUJD"))]
                eq_refl)))) as (_ & _ & H & _).
  specialize (H 0%nat (ByCaptureNow 1 true) AtAnalyzeImage
                (RAnalysis (AxiosReject
                   {| message := "getaddrinfo ENOTFOUND api.openai.com";
                      response := None; code := Some "ENOTFOUND" |}))
                _ (Error MSG_NETWORK) _ eq_refl eq_refl eq_refl).
  cbv zeta in H. destruct H as (H1 & _ & _ & H2 & _).
  split; [exact H1 | exact H2].
Defined.

(** C6 as stated fails for the permission step: on macOS without the screen
    recording permission, a [capture-now] request ends with the handler
    returning [false] and no [capture-complete] message at all. *)
Lemma permission_failure_unreported :
  let s := run [EvReady "denied"; EvCaptureNow 1 "denied";
                EvResolve 0 (RDialog 1)]
               (initial "darwin" defaults) in
  replies s = [(1%nat, false)] /\ tasks s = [] /\ sent s = []
  /\ ~ (exists p, In (MsgCaptureComplete p) (sent s)).
Proof.
  cbv zeta. repeat split. intros (p & []).
Qed.

(** ** Ticks of the auto-capture timer *)

Lemma tick_fires id s :
  step (EvTick id) s = if fires id s then timerCallback (rearm id s) else s.
Proof.
  cbn [step]. unfold fires. destruct (findTimer id (timers s)); reflexivity.
Qed.

Lemma settlePipeline_timers c s :
  timers (settlePipeline c (performCapture s)) = timers s
  /\ now (settlePipeline c (performCapture s)) = now s
  /\ store (settlePipeline c (performCapture s)) = store s
  /\ captureIntervalId (settlePipeline c (performCapture s))
     = captureIntervalId s.
Proof.
  destruct (isCapturing s) eqn:Hb.
  - rewrite performCapture_busy by assumption. destruct c; cbn; auto.
  - rewrite performCapture_idle by assumption.
    destruct (mainWindow s); cbn; auto.
Qed.

Lemma resolve_timers i r s :
  timers (resolve i r s) = timers s /\ now (resolve i r s) = now s
  /\ store (resolve i r s) = store s
  /\ captureIntervalId (resolve i r s) = captureIntervalId s.
Proof.
  unfold resolve.
  destruct (nth_error (tasks s) i) as [[w|c p]|] eqn:Hn; auto.
  - destruct r; auto.
    rewrite requestScreenCapturePermission_resume_spec. cbn [settlePermission].
    destruct w; cbn; auto.
  - unfold performCapture_resume.
    destruct (performCapture_tryResume p r) as [body|] eqn:Hb; auto.
    rewrite performCapture_guard. fold (taken i s).
    pose proof (tryResume_frame _ _ _ Hb (taken i s)) as Hfr.
    destruct (body (taken i s)) as [[a|e|q] s1]; cbn [snd] in Hfr;
      cbn [settlePipeline].
    + destruct Hfr. destruct c; cbn; auto.
    + pose proof (frames_performCapture_catch e s1) as Hk.
      pose proof (sameControl_trans _ _ _ Hfr Hk) as [].
      destruct c; cbn; auto.
    + destruct Hfr. cbn; auto.
Qed.

Lemma quiet_step e s :
  quiet e = true ->
  timers (step e s) = timers s /\ now s <= now (step e s)
  /\ store (step e s) = store s
  /\ captureIntervalId (step e s) = captureIntervalId s.
Proof.
  destruct e; try discriminate; intros _; cbn [step].
  - cbn. repeat split. lia.
  - unfold askPermission. rewrite requestScreenCapturePermission_spec.
    destruct (granted (platform s) mediaAccessStatus);
      cbn [settlePermission permissionThen].
    + unfold captureNow_continue.
      destruct (settlePipeline_timers (ByCaptureNow req true) s)
        as (-> & -> & -> & ->).
      repeat split. lia.
    + cbn. repeat split. lia.
  - destruct (resolve_timers i r s) as (-> & -> & -> & ->). repeat split. lia.
  - destruct (_ && _); cbn; repeat split; lia.
  - destruct (mainWindow s); cbn; repeat split; lia.
Qed.

Lemma quiet_run evs s :
  forallb quiet evs = true ->
  timers (run evs s) = timers s /\ now s <= now (run evs s)
  /\ store (run evs s) = store s
  /\ captureIntervalId (run evs s) = captureIntervalId s.
Proof.
  revert s. induction evs as [|e evs IH]; intros s H; cbn in *.
  - repeat split. lia.
  - apply andb_prop in H. destruct H as [He Hevs].
    destruct (quiet_step e s He) as (A & B & C & D).
    destruct (IH (step e s) Hevs) as (A' & B' & C' & D').
    fold (run evs (step e s)). rewrite A', C', D'. repeat split; auto. lia.
Qed.

(** C7 (interval change while auto-capture is active).  When the timer is
    armed and the settings update carries a capture interval [v], the handler
    stores [v] and restarts the timer at once with [setInterval(..., v)]: the
    old timer is cleared and the only timer armed is a new one, first due one
    delay after the change, where the delay is [v] itself for every [v] the
    host takes as it is ([1 <= v <= 2^31-1], so for 30000).  Until the timer
    is started or stopped again, no tick fires before that: an attempted tick
    earlier than one delay after the change does nothing, and whenever a
    timer may fire, at least one delay has passed since the change. *)
Theorem interval_change (s : State) req u v old :
  reachable s ->
  captureIntervalId s = Some old ->
  u_captureInterval u = Some v ->
  let s' := step (EvUpdateSettings req u) s in
  captureInterval (store s') = v
  /\ captureIntervalId s' = Some (nextTimerId s)
  /\ timers s' = [{| tid := nextTimerId s; delay := timerDelay v;
                     due := now s + timerDelay v |}]
  /\ now s' = now s
  /\ (1 <= v <= TIMEOUT_MAX -> timerDelay v = v)
  /\ (forall evs id,
        forallb quiet evs = true ->
        (fires id (run evs s') = true ->
         now s + timerDelay v <= now (run evs s'))
        /\ (now (run evs s') < now s + timerDelay v ->
            step (EvTick id) (run evs s') = run evs s')).
Proof.
  intros R Hid Hu s'. pose proof (reachable_Inv s R) as I.
  assert (Ha : autoCapture (store s) = true)
    by (apply (inv_auto s I); congruence).
  destruct (updateSettings_spec u s) as (s1 & E & Hst & _ & _ & _ & Hnow & Hr).
  assert (Hs' : s' = reply req true s1) by (subst s'; cbn [step]; now rewrite E).
  unfold restarts in Hr. rewrite Hu, Ha in Hr. destruct Hr as [Hti Hci].
  assert (Iw : Inv (withInterval u s)).
  { unfold withInterval. rewrite Hu. revert I. apply Inv_ext; reflexivity. }
  destruct (started_fields (withInterval u s))
    as (_ & _ & _ & Ht & Hc & _ & _ & _).
  rewrite (clearedTimers_nil _ Iw) in Ht. rewrite Ht in Hti. rewrite Hc in Hci.
  assert (Hfresh : freshTimer (withInterval u s) =
                   {| tid := nextTimerId s; delay := timerDelay v;
                      due := now s + timerDelay v |}).
  { unfold freshTimer, withInterval. rewrite Hu. reflexivity. }
  unfold withInterval in Hci. rewrite Hu in Hci. cbn in Hci.
  rewrite Hfresh in Hti. cbn [app] in Hti.
  assert (Htimers : timers s' =
            [{| tid := nextTimerId s; delay := timerDelay v;
                due := now s + timerDelay v |}])
    by (rewrite Hs'; exact Hti).
  assert (Hnow' : now s' = now s) by (rewrite Hs'; exact Hnow).
  split; [rewrite Hs'; cbn; rewrite Hst; unfold updatedStore; now rewrite Hu|].
  split; [rewrite Hs'; exact Hci|]. split; [exact Htimers|].
  split; [exact Hnow'|]. split.
  { intros [Hv1 Hv2]. unfold timerDelay.
    apply Z.leb_le in Hv1, Hv2. now rewrite Hv1, Hv2. }
  intros evs id Hq. destruct (quiet_run evs s' Hq) as (A & B & _ & _).
  assert (Hfire : fires id (run evs s') = true ->
                  now s + timerDelay v <= now (run evs s')).
  { unfold fires. rewrite A, Htimers. cbn.
    destruct (nextTimerId s =? id)%nat; [|discriminate].
    cbn. intro H. now apply Z.leb_le in H. }
  split; [exact Hfire|].
  intro Hlt. rewrite tick_fires.
  destruct (fires id (run evs s')); [|reflexivity].
  specialize (Hfire eq_refl). lia.
Qed.

Lemma interval_change_witness :
  let s := run [EvReady "granted"; EvToggleAutoCapture 1 true "granted";
                EvAdvance 4000]
               (initial "win32" defaults) in
  let u := {| u_captureInterval := Some 30000; u_autoCapture := None;
              u_openaiApiKey := None; u_minimizeToTray := None;
              u_showNotifications := None |} in
  let s' := step (EvUpdateSettings 2 u) s in
  (captureInterval (store s) = 10000
   /\ timers s = [{| tid := 0; delay := 10000; due := 10000 |}])
  /\ timers s' = [{| tid := 1; delay := 30000; due := 34000 |}]
  /\ step (EvTick 1) (run [EvAdvance 10000; EvAdvance 19999] s') =
       run [EvAdvance 10000; EvAdvance 19999] s'.
Proof.
  cbv zeta. split; [split; reflexivity|].
  pose proof
    (interval_change
       (run [EvReady "granted"; EvToggleAutoCapture 1 true "granted";
             EvAdvance 4000] (initial "win32" defaults))
       2 {| u_captureInterval := Some 30000; u_autoCapture := None;
            u_openaiApiKey := None; u_minimizeToTray := None;
            u_showNotifications := None |}
       30000 0%nat
       (ex_intro _ "win32"
          (ex_intro _ defaults
             (ex_intro _ [EvReady "granted";
                          EvToggleAutoCapture 1 true "granted"; EvAdvance 4000]
                eq_refl)))
       eq_refl eq_refl) as H.
  cbv zeta in H. destruct H as (_ & _ & H1 & _ & _ & H2).
  split; [exact H1|].
  apply (H2 [EvAdvance 10000; EvAdvance 19999] 1%nat eq_refl).
  reflexivity.
Defined.

(** ** Stopping the timer *)

Lemma timerOff_stopped s : timerOff s -> timerOff (stopped s).
Proof.
  intros (A & B & C).
  destruct (stopped_fields s) as (_ & _ & _ & Ht & Hc & Hs & _).
  unfold timerOff. rewrite Ht, Hc, Hs. unfold clearedTimers. rewrite B.
  auto.
Qed.

Lemma stopped_timerOff s : Inv s -> timerOff (stopped s).
Proof.
  intro I. destruct (stopped_fields s) as (_ & _ & _ & Ht & Hc & Hs & _).
  unfold timerOff. rewrite Ht, Hc, Hs, (clearedTimers_nil s I). auto.
Qed.

Lemma timerOff_step e s : noStart e = true -> timerOff s -> timerOff (step e s).
Proof.
  intros He (A & B & C). unfold timerOff.
  destruct e; try discriminate.
  - cbn [step]. cbn. now rewrite C.
  - destruct (quiet_step (EvAdvance dt) s eq_refl) as (-> & _ & -> & ->). auto.
  - rewrite tick_fires. unfold fires. rewrite A. cbn. auto.
  - destruct (quiet_step (EvCaptureNow req mediaAccessStatus) s eq_refl)
      as (-> & _ & -> & ->). auto.
  - destruct enabled; [discriminate|]. cbn [step]. unfold askPermission.
    rewrite requestScreenCapturePermission_spec.
    destruct (granted (platform s) mediaAccessStatus);
      cbn [settlePermission permissionThen]; [|cbn; auto].
    unfold toggleAutoCapture_continue, runSync. cbn [negb].
    rewrite stopAutoCapture_spec.
    apply (timerOff_stopped s). unfold timerOff; auto.
  - cbn [step].
    destruct (updateSettings_spec settings s)
      as (s1 & E & Hst & _ & _ & _ & _ & Hr).
    rewrite E. assert (Hn : restarts settings s = false).
    { unfold restarts. rewrite C. now destruct (u_captureInterval settings). }
    rewrite Hn in Hr. destruct Hr as [Ht Hc]. cbn.
    rewrite Ht, Hc, Hst. auto.
  - destruct (quiet_step (EvResolve i r) s eq_refl) as (-> & _ & -> & ->). auto.
  - destruct (quiet_step EvWindowClose s eq_refl) as (-> & _ & -> & ->). auto.
  - destruct (quiet_step EvActivate s eq_refl) as (-> & _ & -> & ->). auto.
  - cbn [step]. unfold runSync, bind. rewrite stopAutoCapture_spec. cbn.
    apply (timerOff_stopped (set_isQuitting true s)). unfold timerOff; auto.
Qed.

Lemma timerOff_run evs s :
  forallb noStart evs = true -> timerOff s -> timerOff (run evs s).
Proof.
  revert s. induction evs as [|e evs IH]; intros s H Hs; cbn in *; auto.
  apply andb_prop in H. destruct H as [He Hevs].
  apply IH; auto using timerOff_step.
Qed.

Lemma timerOff_silent id s :
  timerOff s -> fires id s = false /\ step (EvTick id) s = s.
Proof.
  intros (A & _). rewrite tick_fires. unfold fires. rewrite A. cbn. auto.
Qed.

(** C8 ([stopAutoCapture] is idempotent and final).  [stopAutoCapture()]
    always returns; called any number of times in a row, every call returns
    without throwing, and after each of them no timer is armed,
    [captureIntervalId] is cleared and auto-capture is stored as off.  From
    then on, until auto-capture is switched on again, no timer fires: a tick
    does nothing.  The [before-quit] handler calls [stopAutoCapture()] before
    it logs the shutdown, so the same holds from teardown on. *)
Theorem stop_idempotent (s : State) :
  reachable s ->
  (forall n,
     stopAutoCapture (Nat.iter n stopped s) =
       (Normal tt, Nat.iter (S n) stopped s))
  /\ (forall n,
        let s' := Nat.iter (S n) stopped s in
        timerOff s'
        /\ (forall evs id,
              forallb noStart evs = true ->
              fires id (run evs s') = false
              /\ step (EvTick id) (run evs s') = run evs s'))
  /\ (let s' := step EvBeforeQuit s in
      s' = set_logs
             (logs (stopped (set_isQuitting true s))
              ++ [("info", "Application shutting down")])
             (stopped (set_isQuitting true s))
      /\ timerOff s'
      /\ (forall evs id,
            forallb noStart evs = true ->
            fires id (run evs s') = false
            /\ step (EvTick id) (run evs s') = run evs s')).
Proof.
  intro R. pose proof (reachable_Inv s R) as I.
  assert (Hoff : forall n, timerOff (Nat.iter (S n) stopped s)).
  { induction n as [|n IH].
    - cbn. now apply stopped_timerOff.
    - change (timerOff (stopped (Nat.iter (S n) stopped s))).
      now apply timerOff_stopped. }
  split; [|split].
  - intro n. cbn [Nat.iter]. apply stopAutoCapture_spec.
  - intros n s'. split; [apply Hoff|].
    intros evs id Hq. apply timerOff_silent, timerOff_run; auto. apply Hoff.
  - intros s'.
    assert (E : s' = set_logs
                       (logs (stopped (set_isQuitting true s))
                        ++ [("info", "Application shutting down")])
                       (stopped (set_isQuitting true s))).
    { subst s'. cbn [step]. unfold runSync, bind.
      rewrite stopAutoCapture_spec. reflexivity. }
    assert (Hq : timerOff s').
    { rewrite E. apply (stopped_timerOff (set_isQuitting true s)).
      revert I. apply Inv_ext; reflexivity. }
    split; [exact E|]. split; [exact Hq|].
    intros evs id Hevs. apply timerOff_silent, timerOff_run; auto.
Qed.

Lemma stop_idempotent_witness :
  let s := run [EvReady "granted"; EvToggleAutoCapture 1 true "granted";
                EvAdvance 10000]
               (initial "win32" defaults) in
  let u := {| u_captureInterval := Some 5000; u_autoCapture := Some true;
              u_openaiApiKey := None; u_minimizeToTray := None;
              u_showNotifications := None |} in
  fires 0 s = true
  /\ fires 0 (run [EvAdvance 60000; EvUpdateSettings 2 u; EvAdvance 60000]
                  (Nat.iter 3 stopped s)) = false.
Proof.
  cbv zeta. split; [reflexivity|].
  pose proof
    (stop_idempotent
       (run [EvReady "granted"; EvToggleAutoCapture 1 true "granted";
             EvAdvance 10000] (initial "win32" defaults))
       (ex_intro _ "win32"
          (ex_intro _ defaults
             (ex_intro _ [EvReady "granted";
                          EvToggleAutoCapture 1 true "granted"; EvAdvance 10000]
                eq_refl)))) as (_ & H & _).
  specialize (H 2%nat). cbv zeta in H. destruct H as [_ H].
  apply (H [EvAdvance 60000;
            EvUpdateSettings 2
              {| u_captureInterval := Some 5000; u_autoCapture := Some true;
                 u_openaiApiKey := None; u_minimizeToTray := None;
                 u_showNotifications := None |};
            EvAdvance 60000] 0%nat eq_refl).
Defined.

(** ** The settings update entry point *)

(** C9, as the code has it (settings update).  The [update-settings]
    handler overwrites the stored capture interval, API key, minimize-to-tray
    flag and notification flag exactly when the update object carries them,
    and keeps each of them otherwise; the stored [autoCapture] flag keeps its
    value whether or not the update object carries an [autoCapture] field.
    The handler answers [true]. *)
Theorem settings_update (s : State) req u :
  let s' := step (EvUpdateSettings req u) s in
  captureInterval (store s') =
    match u_captureInterval u with
    | Some v => v | None => captureInterval (store s)
    end
  /\ openaiApiKey (store s') =
     match u_openaiApiKey u with
     | Some v => v | None => openaiApiKey (store s)
     end
  /\ minimizeToTray (store s') =
     match u_minimizeToTray u with
     | Some v => v | None => minimizeToTray (store s)
     end
  /\ showNotifications (store s') =
     match u_showNotifications u with
     | Some v => v | None => showNotifications (store s)
     end
  /\ autoCapture (store s') = autoCapture (store s)
  /\ exists s1, s' = reply req true s1.
Proof.
  intro s'. destruct (updateSettings_spec u s) as (s1 & E & Hst & _).
  assert (Hs' : s' = reply req true s1) by (subst s'; cbn [step]; now rewrite E).
  rewrite Hs'. cbn. rewrite Hst. cbn. repeat split. now exists s1.
Qed.

(** C9 as stated fails for the [autoCapture] field: an update object that
    carries [autoCapture: true] leaves the stored value [false]. *)
Lemma settings_update_autoCapture :
  let s := run [EvReady "granted"] (initial "win32" defaults) in
  let u := {| u_captureInterval := None; u_autoCapture := Some true;
              u_openaiApiKey := None; u_minimizeToTray := None;
              u_showNotifications := None |} in
  u_autoCapture u = Some true
  /\ autoCapture (store s) = false
  /\ autoCapture (store (step (EvUpdateSettings 1 u) s)) = false
  /\ autoCapture (store (step (EvUpdateSettings 1 u) s)) <> true.
Proof.
  cbv zeta. repeat split. vm_compute. discriminate.
Qed.

(** ** What the capture-now handler returns *)

(** C10 (the return value of [capture-now]).  With permission granted the
    handler returns [true]: at once and without any other effect when an
    attempt is already in flight; otherwise it starts an attempt and returns
    [true] when that attempt ends, whether the attempt succeeded or failed,
    and not before.  Without permission the handler returns [false] once the
    message box is answered, and sends no message.  Attempts started by the
    timer answer nobody. *)
Theorem captureNow_reply (s : State) :
  reachable s ->
  (forall req st,
     let s1 := step (EvCaptureNow req st) s in
     if granted (platform s) st
     then if isCapturing s
          then s1 = reply req true s
          else replies s1 = replies s
               /\ tasks s1 =
                  (tasks s ++ [TaskPipeline (ByCaptureNow req true)
                                 AtCaptureScreen])%list
     else s1 = spawn (TaskDialog (ForCaptureNow req)) s)
  /\ (forall i req response,
        nth_error (tasks s) i = Some (TaskDialog (ForCaptureNow req)) ->
        let s' := step (EvResolve i (RDialog response)) s in
        replies s' = (replies s ++ [(req, false)])%list /\ sent s' = sent s)
  /\ (forall i c p r body,
        nth_error (tasks s) i = Some (TaskPipeline c p) ->
        performCapture_tryResume p r = Some body ->
        let s' := step (EvResolve i r) s in
        match fst (body (taken i s)) with
        | Awaiting q =>
            replies s' = replies s /\ In (TaskPipeline c q) (tasks s')
        | Normal _ | Thrown _ =>
            match c with
            | ByTimer => replies s' = replies s
            | ByCaptureNow req hp =>
                hp = true /\ replies s' = (replies s ++ [(req, true)])%list
            end
        end).
Proof.
  intro R. pose proof (reachable_Inv s R) as I. split; [|split].
  - intros req st s1. subst s1.
    destruct (granted (platform s) st) eqn:Hg.
    + cbn [step]. unfold askPermission.
      rewrite requestScreenCapturePermission_spec, Hg.
      cbn [settlePermission permissionThen]. unfold captureNow_continue.
      destruct (isCapturing s) eqn:Hb.
      * now rewrite performCapture_busy.
      * destruct (idle_trigger (ByCaptureNow req true) s I Hb)
          as (_ & _ & _ & A & B & _). auto.
    + now apply captureNow_denied.
  - intros i req response Hn s'. subst s'.
    rewrite (dialog_answered _ _ _ _ Hn). cbn [permissionThen].
    unfold captureNow_continue. split; reflexivity.
  - intros i c p r body Hn Hb s'.
    pose proof (resolve_pipeline _ _ _ _ _ _ Hn Hb) as Hs. fold s' in Hs.
    pose proof (tryResume_frame _ _ _ Hb (taken i s)) as Hfr.
    destruct (Inv_take _ _ _ _ I Hn) as [_ Hc].
    destruct (body (taken i s)) as [[a|e|q] s1]; cbn [fst snd] in *.
    + destruct c as [|req hp].
      * rewrite Hs. cbn. now rewrite (sc_replies _ _ Hfr).
      * rewrite (Hc req hp eq_refl) in *. split; [reflexivity|].
        rewrite Hs. cbn. now rewrite (sc_replies _ _ Hfr).
    + rewrite performCapture_catch_returns in Hs. cbn [snd] in Hs.
      destruct c as [|req hp].
      * rewrite Hs. destruct (mainWindow s1); cbn;
          now rewrite (sc_replies _ _ Hfr).
      * rewrite (Hc req hp eq_refl) in *. split; [reflexivity|].
        rewrite Hs. destruct (mainWindow s1); cbn;
          now rewrite (sc_replies _ _ Hfr).
    + rewrite Hs. cbn. rewrite (sc_replies _ _ Hfr). split; [reflexivity|].
      apply in_or_app. right. now left.
Qed.

Lemma captureNow_reply_witness :
  let s := run [EvReady "granted"; EvCaptureNow 1 "granted"]
               (initial "win32" defaults) in
  let s' := step (EvResolve 0 (RCapture (ScreenshotBuffer 2048 "QUJD"))) s in
  replies s = []
  /\ replies s' = [(1%nat, true)]
  /\ sent s' = [MsgCaptureStarted;
                MsgCaptureComplete (CompleteFailure MSG_NO_API_KEY)].
Proof.
  cbv zeta. split; [reflexivity|].
  pose proof
    (captureNow_reply
       (run [EvReady "granted"; EvCaptureNow 1 "granted"]
            (initial "win32" defaults))
       (ex_intro _ "win32"
          (ex_intro _ defaults
             (ex_intro _ [EvReady "granted"; EvCaptureNow 1 "granted"]
                eq_refl)))) as (_ & _ & H).
  specialize (H 0%nat (ByCaptureNow 1 true) AtCaptureScreen
                (RCapture (ScreenshotBuffer 2048 "QUJD")) _ eq_refl eq_refl).
  cbv zeta in H.
  change (fst _) with (@Thrown unit (Error MSG_NO_API_KEY)) in H.
  cbv beta iota in H. destruct H as [_ H].
  split; [exact H | reflexivity].
Defined.

(** * Further properties of the main process *)

(** ** The timer and the handlers that start and stop it *)

Lemma started_effects s :
  sent (started s) =
    (sent s ++ if mainWindow s then [MsgAutoCaptureStatus true] else [])%list
  /\ captureCalls (started s) = captureCalls s
  /\ analyzeCalls (started s) = analyzeCalls s
  /\ networkCalls (started s) = networkCalls s
  /\ mainWindow (started s) = mainWindow s
  /\ nextTimerId (started s) = S (nextTimerId s).
Proof.
  unfold started. destruct (mainWindow s) eqn:E; cbn;
    rewrite ?app_nil_r, ?E; repeat split.
Qed.

Lemma stopped_effects s :
  sent (stopped s) =
    (sent s ++ if mainWindow s then [MsgAutoCaptureStatus false] else [])%list
  /\ captureCalls (stopped s) = captureCalls s
  /\ analyzeCalls (stopped s) = analyzeCalls s
  /\ networkCalls (stopped s) = networkCalls s
  /\ mainWindow (stopped s) = mainWindow s.
Proof.
  unfold stopped. destruct (mainWindow s) eqn:E; cbn;
    rewrite ?app_nil_r, ?E; repeat split.
Qed.

(** The timer armed by a start in a state that keeps the invariant. *)
Lemma started_timers s :
  Inv s ->
  timers (started s) =
    [{| tid := nextTimerId s;
        delay := timerDelay (captureInterval (store s));
        due := now s + timerDelay (captureInterval (store s)) |}]
  /\ captureIntervalId (started s) = Some (nextTimerId s)
  /\ autoCapture (store (started s)) = true.
Proof.
  intro I. destruct (started_fields s) as (_ & _ & _ & Ht & Hc & Hs & _).
  rewrite Ht, Hc, Hs, (clearedTimers_nil s I). repeat split.
Qed.

(** The timers after the [update-settings] handler. *)
Lemma update_timers req u s :
  Inv s ->
  let s' := step (EvUpdateSettings req u) s in
  match u_captureInterval u with
  | Some v =>
      if autoCapture (store s)
      then timers s' =
             [{| tid := nextTimerId s; delay := timerDelay v;
                 due := now s + timerDelay v |}]
           /\ captureIntervalId s' = Some (nextTimerId s)
      else timers s' = timers s /\ captureIntervalId s' = captureIntervalId s
  | None => timers s' = timers s /\ captureIntervalId s' = captureIntervalId s
  end.
Proof.
  intros I s'.
  destruct (updateSettings_spec u s) as (s1 & E & _ & _ & _ & _ & _ & Hr).
  assert (Hs' : s' = reply req true s1) by (subst s'; cbn [step]; now rewrite E).
  unfold restarts in Hr. destruct (u_captureInterval u) as [v|] eqn:Hu.
  - destruct (autoCapture (store s)) eqn:Ha.
    + destruct Hr as [Hti Hci].
      assert (Iw : Inv (withInterval u s)).
      { unfold withInterval. rewrite Hu. revert I. apply Inv_ext; reflexivity. }
      destruct (started_timers _ Iw) as (Ht & Hc & _).
      unfold withInterval in Ht, Hc. rewrite Hu in Ht, Hc. cbn in Ht, Hc.
      rewrite Hs'. cbn. rewrite Hti, Hci. unfold withInterval. rewrite Hu.
      split; assumption.
    + rewrite Hs'. exact Hr.
  - rewrite Hs'. exact Hr.
Qed.

(** X1 (one timer).  However often auto-capture is switched on and off,
    restarted by a settings update or restored at start-up, the host holds at
    most one interval timer; a timer that is armed is the one
    [captureIntervalId] names, and then auto-capture is stored as on. *)
Theorem one_timer (s : State) :
  reachable s ->
  (List.length (timers s) <= 1)%nat
  /\ (forall t, In t (timers s) ->
        captureIntervalId s = Some (tid t) /\ autoCapture (store s) = true)
  /\ (captureIntervalId s = None <-> timers s = []).
Proof.
  intro R. pose proof (reachable_Inv s R) as [_ I2 I3 _ _].
  destruct (captureIntervalId s) as [id|].
  - destruct I2 as (t & Ht & Hid). rewrite Ht. split; [cbn; lia|]. split.
    + intros t' [<-|[]]. split; [now rewrite Hid|]. apply I3. discriminate.
    + split; discriminate.
  - rewrite I2. split; [cbn; lia|]. split; [intros t []|]. split; reflexivity.
Qed.

Lemma one_timer_witness :
  let u := {| u_captureInterval := Some 5000; u_autoCapture := None;
              u_openaiApiKey := None; u_minimizeToTray := None;
              u_showNotifications := None |} in
  let s := run [EvReady "granted"; EvToggleAutoCapture 1 true "granted";
                EvToggleAutoCapture 2 true "granted"; EvUpdateSettings 3 u;
                EvToggleAutoCapture 4 true "granted"]
               (initial "win32" (set_autoCapture true defaults)) in
  (List.length (timers s) <= 1)%nat /\ captureIntervalId s = Some 4%nat.
Proof.
  cbv zeta. split; [|reflexivity].
  apply (one_timer
           (run [EvReady "granted"; EvToggleAutoCapture 1 true "granted";
                 EvToggleAutoCapture 2 true "granted";
                 EvUpdateSettings 3
                   {| u_captureInterval := Some 5000; u_autoCapture := None;
                      u_openaiApiKey := None; u_minimizeToTray := None;
                      u_showNotifications := None |};
                 EvToggleAutoCapture 4 true "granted"]
                (initial "win32" (set_autoCapture true defaults)))).
  eexists _, _, _. reflexivity.
Defined.

(** X2 (toggle with permission).  With permission, the [toggle-auto-capture]
    handler answers the value it was asked for.  Asked to enable, it leaves
    one timer armed with the stored interval, first due one delay from now,
    and stores auto-capture as on; asked to disable, it leaves no timer and
    stores auto-capture as off.  Either way it tells the renderer the new
    status if the main window exists, and it does not disturb an attempt in
    flight. *)
Theorem toggle_granted (s : State) req enabled st :
  reachable s ->
  granted (platform s) st = true ->
  let s' := step (EvToggleAutoCapture req enabled st) s in
  replies s' = (replies s ++ [(req, enabled)])%list
  /\ sent s' =
     (sent s ++ if mainWindow s then [MsgAutoCaptureStatus enabled] else [])%list
  /\ (if enabled
      then timers s' =
             [{| tid := nextTimerId s;
                 delay := timerDelay (captureInterval (store s));
                 due := now s + timerDelay (captureInterval (store s)) |}]
           /\ captureIntervalId s' = Some (nextTimerId s)
      else timers s' = [] /\ captureIntervalId s' = None)
  /\ store s' = set_autoCapture enabled (store s)
  /\ tasks s' = tasks s /\ isCapturing s' = isCapturing s.
Proof.
  intros R Hg s'. pose proof (reachable_Inv s R) as I.
  assert (Hs' : s' = reply req enabled
                       (if enabled then started s else stopped s)).
  { subst s'. cbn [step]. unfold askPermission.
    rewrite requestScreenCapturePermission_spec, Hg.
    cbn [settlePermission permissionThen].
    unfold toggleAutoCapture_continue, runSync. cbn [negb].
    destruct enabled;
      [rewrite startAutoCapture_spec | rewrite stopAutoCapture_spec];
      reflexivity. }
  rewrite Hs'. destruct enabled.
  - destruct (started_fields s) as (A1 & A2 & _ & _ & _ & A6 & _ & A8).
    destruct (started_effects s) as (B1 & _).
    destruct (started_timers s I) as (C1 & C2 & _).
    cbn. rewrite A8, B1, C1, C2, A6, A1, A2. repeat split.
  - destruct (stopped_fields s) as (A1 & A2 & _ & A4 & A5 & A6 & _ & A8).
    destruct (stopped_effects s) as (B1 & _).
    cbn. rewrite A8, B1, A4, A5, A6, A1, A2, (clearedTimers_nil s I).
    repeat split.
Qed.

Lemma toggle_granted_witness :
  let s := run [EvReady "granted"; EvAdvance 2500] (initial "win32" defaults) in
  let s' := step (EvToggleAutoCapture 1 true "granted") s in
  timers s' = [{| tid := 0; delay := 10000; due := 12500 |}]
  /\ replies s' = [(1%nat, true)].
Proof.
  cbv zeta.
  pose proof (toggle_granted
                (run [EvReady "granted"; EvAdvance 2500]
                     (initial "win32" defaults))
                1 true "granted"
                (ex_intro _ "win32"
                   (ex_intro _ defaults
                      (ex_intro _ [EvReady "granted"; EvAdvance 2500] eq_refl)))
                eq_refl) as H.
  cbv zeta in H. destruct H as (H1 & _ & (H2 & _) & _).
  split; [exact H2 | exact H1].
Defined.

(** X3 (toggle without permission).  Without permission the
    [toggle-auto-capture] handler parks on the message box and, once the box
    is answered, returns [false] having changed nothing: whether it was asked
    to enable or to disable, the timer, [captureIntervalId] and the store
    are as before.  So an armed timer is not stopped by a request to disable
    that is made without permission. *)
Theorem toggle_denied (s : State) req enabled st :
  granted (platform s) st = false ->
  let s1 := step (EvToggleAutoCapture req enabled st) s in
  s1 = spawn (TaskDialog (ForToggle req enabled)) s
  /\ (forall response,
        step (EvResolve (List.length (tasks s)) (RDialog response)) s1 =
          reply req false s)
  /\ (forall s2 i response,
        nth_error (tasks s2) i = Some (TaskDialog (ForToggle req enabled)) ->
        let s3 := step (EvResolve i (RDialog response)) s2 in
        s3 = reply req false (taken i s2)
        /\ timers s3 = timers s2
        /\ captureIntervalId s3 = captureIntervalId s2
        /\ store s3 = store s2).
Proof.
  intros Hg s1.
  assert (Hs1 : s1 = spawn (TaskDialog (ForToggle req enabled)) s).
  { subst s1. cbn [step]. unfold askPermission.
    now rewrite requestScreenCapturePermission_spec, Hg. }
  split; [exact Hs1|]. split.
  - intro response. rewrite Hs1, (dialog_answered _ (ForToggle req enabled)).
    + cbn [permissionThen]. unfold toggleAutoCapture_continue, taken, spawn.
      cbn. rewrite removeAt_last. destruct s; reflexivity.
    + cbn. apply nth_error_last.
  - intros s2 i response Hn s3. subst s3.
    rewrite (dialog_answered _ _ _ _ Hn). cbn [permissionThen].
    unfold toggleAutoCapture_continue. cbn. repeat split.
Qed.

Lemma toggle_denied_witness :
  let s := run [EvReady "granted"; EvToggleAutoCapture 1 true "granted"]
               (initial "darwin" defaults) in
  let s1 := step (EvToggleAutoCapture 2 false "denied") s in
  let s2 := step (EvResolve 0 (RDialog 1)) s1 in
  granted (platform s) "denied" = false
  /\ s2 = reply 2 false s
  /\ timers s2 = [{| tid := 0; delay := 10000; due := 10000 |}].
Proof.
  cbv zeta. split; [reflexivity|].
  pose proof (toggle_denied
                (run [EvReady "granted"; EvToggleAutoCapture 1 true "granted"]
                     (initial "darwin" defaults))
                2 false "denied" eq_refl) as H.
  cbv zeta in H. destruct H as (_ & H & _). specialize (H 1%nat).
  split; [exact H|]. reflexivity.
Defined.

(** X4 (start-up).  When the application becomes ready, the window exists,
    and auto-capture is restored only if it was stored as on and permission
    is granted: then one timer is armed with the stored interval.  If it was
    stored as off, no timer is armed.  If it was stored as on and permission
    is missing, start-up parks on the message box and no timer is armed,
    also after the box is answered; the stored flag stays on all the
    while. *)
Theorem ready_restore (pf : string) (persisted : Settings) (st : string) :
  let s := step (EvReady st) (initial pf persisted) in
  mainWindow s = true
  /\ autoCapture (store s) = autoCapture persisted
  /\ if autoCapture persisted
     then if granted pf st
          then timers s =
                 [{| tid := 0; delay := timerDelay (captureInterval persisted);
                     due := timerDelay (captureInterval persisted) |}]
               /\ captureIntervalId s = Some 0%nat
               /\ sent s = [MsgAutoCaptureStatus true]
          else timers s = [] /\ tasks s = [TaskDialog ForReady]
               /\ (forall response,
                     let s' := step (EvResolve 0 (RDialog response)) s in
                     timers s' = [] /\ captureIntervalId s' = None
                     /\ autoCapture (store s') = true /\ tasks s' = [])
     else timers s = [] /\ captureIntervalId s = None /\ tasks s = []
          /\ sent s = [].
Proof.
  intro s. subst s. cbn [step].
  set (s1 := runSync (log "info" "System tray created") _).
  assert (Hs1 : store s1 = persisted /\ platform s1 = pf
                /\ mainWindow s1 = true) by (repeat split).
  destruct Hs1 as (Hst & Hpf & Hw). rewrite Hst.
  destruct (autoCapture persisted) eqn:Ha.
  - unfold askPermission. rewrite requestScreenCapturePermission_spec, Hpf.
    destruct (granted pf st); cbn [settlePermission permissionThen].
    + unfold ready_continue, runSync. rewrite startAutoCapture_spec.
      unfold started, clearedTimers, freshTimer. rewrite Hw. cbn.
      rewrite ?Ha. repeat split.
    + cbn. rewrite ?Ha. repeat split;
        rewrite requestScreenCapturePermission_resume_spec; cbn;
        rewrite ?Ha; reflexivity.
  - cbn. rewrite ?Ha. repeat split.
Qed.

(** X5 (what restarts the timer).  A settings update that carries a capture
    interval arms a fresh timer with that interval exactly when auto-capture
    is stored as on, whether or not a timer was armed before and without
    asking for permission; when auto-capture is stored as off, or the update
    carries no interval, timers are left as they are. *)
Theorem update_restarts (s : State) req u :
  reachable s ->
  let s' := step (EvUpdateSettings req u) s in
  match u_captureInterval u with
  | Some v =>
      if autoCapture (store s)
      then timers s' =
             [{| tid := nextTimerId s; delay := timerDelay v;
                 due := now s + timerDelay v |}]
           /\ captureIntervalId s' = Some (nextTimerId s)
      else timers s' = timers s /\ captureIntervalId s' = captureIntervalId s
  | None => timers s' = timers s /\ captureIntervalId s' = captureIntervalId s
  end.
Proof.
  intro R. apply update_timers. now apply reachable_Inv.
Qed.

Lemma update_restarts_witness :
  let s := run [EvReady "denied"; EvResolve 0 (RDialog 1); EvAdvance 700]
               (initial "darwin" (set_autoCapture true defaults)) in
  let u := {| u_captureInterval := Some 10000; u_autoCapture := None;
              u_openaiApiKey := None; u_minimizeToTray := None;
              u_showNotifications := None |} in
  timers s = []
  /\ timers (step (EvUpdateSettings 1 u) s) =
       [{| tid := 0; delay := 10000; due := 10700 |}].
Proof.
  cbv zeta. split; [reflexivity|].
  pose proof
    (update_restarts
       (run [EvReady "denied"; EvResolve 0 (RDialog 1); EvAdvance 700]
            (initial "darwin" (set_autoCapture true defaults)))
       1 {| u_captureInterval := Some 10000; u_autoCapture := None;
            u_openaiApiKey := None; u_minimizeToTray := None;
            u_showNotifications := None |}
       (ex_intro _ "darwin"
          (ex_intro _ (set_autoCapture true defaults)
             (ex_intro _ [EvReady "denied"; EvResolve 0 (RDialog 1);
                          EvAdvance 700] eq_refl)))) as H.
  cbv zeta in H. exact (proj1 H).
Defined.

(** X6 (saving the settings modal).  The object the renderer builds from
    the settings modal carries the API key, the interval (seconds times
    1000) and both flags, and never [autoCapture]; so saving overwrites all
    four stored values with the modal's, leaves the stored auto-capture flag
    alone, and, whenever auto-capture is stored as on, restarts the timer
    one full delay from now, also when the interval is the one already
    stored. *)
Theorem save_settings (s : State) req form :
  reachable s ->
  let s' := step (EvUpdateSettings req (saveSettings form)) s in
  store s' =
    {| captureInterval := f_intervalSeconds form * 1000;
       autoCapture := autoCapture (store s);
       openaiApiKey := f_apiKey form;
       minimizeToTray := f_minimizeTray form;
       showNotifications := f_notifications form |}
  /\ replies s' = (replies s ++ [(req, true)])%list
  /\ if autoCapture (store s)
     then timers s' =
            [{| tid := nextTimerId s;
                delay := timerDelay (f_intervalSeconds form * 1000);
                due := now s + timerDelay (f_intervalSeconds form * 1000) |}]
     else timers s' = timers s.
Proof.
  intros R s'. pose proof (reachable_Inv s R) as I.
  pose proof (update_timers req (saveSettings form) s I) as Ht.
  cbv zeta in Ht. cbn [saveSettings u_captureInterval] in Ht.
  destruct (updateSettings_spec (saveSettings form) s)
    as (s1 & E & Hst & _ & _ & _ & _ & _).
  assert (Hs' : s' = reply req true s1) by (subst s'; cbn [step]; now rewrite E).
  fold s' in Ht. split; [|split].
  - rewrite Hs'. cbn. rewrite Hst. reflexivity.
  - rewrite Hs'. cbn. f_equal.
    clear - E. unfold updateSettings in E. cbn in E. revert E.
    cbv [bind store_set store_get modify gets when ret log].
    fields. destruct (autoCapture (store s)).
    + rewrite startAutoCapture_spec. fields.
      destruct (started_fields
                  (set_store
                     (set_captureInterval (f_intervalSeconds form * 1000)
                        (store s)) s)) as (_ & _ & _ & _ & _ & _ & _ & Hr).
      intro E. inversion E; subst. cbn. exact Hr.
    + intro E. inversion E; subst. reflexivity.
  - destruct (autoCapture (store s)); [exact (proj1 Ht) | exact (proj1 Ht)].
Qed.

Lemma save_settings_witness :
  let s := run [EvReady "granted"; EvToggleAutoCapture 1 true "granted";
                EvAdvance 9000] (initial "win32" defaults) in
  let form := {| f_apiKey := "sk-test"; f_intervalSeconds := 10;
                 f_notifications := true; f_minimizeTray := true |} in
  timers s = [{| tid := 0; delay := 10000; due := 10000 |}]
  /\ timers (step (EvUpdateSettings 2 (saveSettings form)) s) =
       [{| tid := 1; delay := 10000; due := 19000 |}].
Proof.
  cbv zeta. split; [reflexivity|].
  pose proof
    (save_settings
       (run [EvReady "granted"; EvToggleAutoCapture 1 true "granted";
             EvAdvance 9000] (initial "win32" defaults))
       2 {| f_apiKey := "sk-test"; f_intervalSeconds := 10;
            f_notifications := true; f_minimizeTray := true |}
       (ex_intro _ "win32"
          (ex_intro _ defaults
             (ex_intro _ [EvReady "granted";
                          EvToggleAutoCapture 1 true "granted"; EvAdvance 9000]
                eq_refl)))) as H.
  cbv zeta in H. exact (proj2 (proj2 H)).
Defined.

(** ** What one segment of an attempt does *)

(** The effects of a resumed [try] block, by the way it ends.  If it throws,
    it has called neither [analyzeImage] nor the HTTP client and has sent
    nothing, but for the success message of an analysis that is not a
    string.  If it suspends, it is after the screenshot: the stored key was
    copied to the vision client, "analyzing" was sent and one request is
    under way.  If it returns, it is after the analysis, the answer carried a
    truthy content, and the content was sent; it is a string, which is shown
    if notifications are on, or notifications are off. *)
Lemma segment_effects p r body s0 c s1 :
  performCapture_tryResume p r = Some body ->
  body s0 = (c, s1) ->
  captureCalls s1 = captureCalls s0
  /\ match c with
     | Thrown _ =>
         sent s1 = (sent s0 ++ sentBeforeThrow r s0)%list
         /\ notifications s1 = notifications s0
         /\ analyzeCalls s1 = analyzeCalls s0
         /\ networkCalls s1 = networkCalls s0
     | Awaiting q =>
         p = AtCaptureScreen /\ q = AtAnalyzeImage
         /\ sent s1 = (sent s0 ++ if mainWindow s0 then [MsgAnalyzing] else [])%list
         /\ notifications s1 = notifications s0
         /\ analyzeCalls s1 = S (analyzeCalls s0)
         /\ networkCalls s1 = S (networkCalls s0)
         /\ apiKey s1 = openaiApiKey (store s0)
         /\ truthy (apiKey s1) = true
     | Normal _ =>
         p = AtAnalyzeImage
         /\ analyzeCalls s1 = analyzeCalls s0
         /\ networkCalls s1 = networkCalls s0
         /\ exists analysis,
              r = RAnalysis (AxiosResponse (DataContent analysis))
              /\ truthyValue analysis = true
              /\ sent s1 =
                 (sent s0 ++
                  if mainWindow s0
                  then [MsgCaptureComplete (CompleteSuccess analysis (now s0))]
                  else [])%list
              /\ notifications s1 =
                 (notifications s0 ++
                  match analysis with
                  | VString text =>
                      if showNotifications (store s0)
                      then [("AI Analysis Complete", notificationBody text)]
                      else []
                  | _ => []
                  end)%list
              /\ (isString analysis = true
                  \/ showNotifications (store s0) = false)
     end.
Proof.
  destruct p, r; cbn [performCapture_tryResume]; intros H; inversion H; subst;
    clear H.
  - destruct r as [len b64|e0]; unfold sentBeforeThrow; unfold_pipeline;
      destruct s0; crunch;
      intros H; inversion H; subst; fields; rewrite ?app_nil_r;
      repeat split; try congruence.
    all: try (rewrite E0 in E2; discriminate).
    all: try (destruct (truthy (openaiApiKey store0)); cbn in *; congruence).
  - destruct r as [[|a]|[m [resp|] cd]]; [|content_cases a| |];
      unfold sentBeforeThrow, contentOf; unfold_pipeline; destruct s0;
      crunch; intros H; inversion H; subst; fields; rewrite ?app_nil_r;
      repeat split; try congruence.
    all: eexists; split; [reflexivity|]; unfold notificationBody;
      rewrite ?E, ?E0, ?E1, ?E2, ?E3, ?app_nil_r; repeat split;
      try reflexivity; auto.
Qed.

(** ** The books are kept by every step *)

Lemma count_snoc {A} (k : A -> bool) (l : list A) (m : A) :
  List.length (filter k (l ++ [m])) =
  (List.length (filter k l) + if k m then 1 else 0)%nat.
Proof.
  rewrite filter_app, length_app. cbn. destruct (k m); reflexivity.
Qed.

Lemma count_optional {A} (k : A -> bool) (l : list A) (b : bool) (m : A) :
  List.length (filter k (l ++ if b then [m] else [])) =
  (List.length (filter k l) + if b && k m then 1 else 0)%nat.
Proof.
  destruct b; cbn [andb].
  - apply count_snoc.
  - rewrite app_nil_r. lia.
Qed.

Lemma removeAt_count {A} (k : A -> bool) i (l : list A) t :
  nth_error l i = Some t ->
  List.length (filter k l) =
  ((if k t then 1 else 0) + List.length (filter k (removeAt i l)))%nat.
Proof.
  revert i. induction l as [|y l IH]; intros [|i] H; cbn in *; try discriminate.
  - inversion H; subst. destruct (k t); reflexivity.
  - specialize (IH _ H). destruct (k y), (k t); cbn in *; lia.
Qed.

Lemma Accounting_books s s' : sameBooks s s' -> Accounting s -> Accounting s'.
Proof.
  intros [B1 B2 B3 B4 B5 B6 B7 B8 B9 B10] [A1 A2 A3 A4 A5 A6].
  constructor; congruence.
Qed.

Lemma sameBooks_trans s1 s2 s3 :
  sameBooks s1 s2 -> sameBooks s2 s3 -> sameBooks s1 s3.
Proof. intros [] []; constructor; congruence. Qed.

Lemma books_reply req v s : sameBooks s (reply req v s).
Proof. constructor; reflexivity. Qed.

Lemma books_callerReturns c s : sameBooks s (callerReturns c s).
Proof. destruct c; constructor; reflexivity. Qed.

Lemma books_spawn_dialog w s : sameBooks s (spawn (TaskDialog w) s).
Proof.
  constructor; try reflexivity; unfold inFlight, atCapture, spawn; cbn;
    rewrite count_snoc; cbn; lia.
Qed.

Lemma books_status b (s s1 : State) :
  captureCalls s1 = captureCalls s -> analyzeCalls s1 = analyzeCalls s ->
  networkCalls s1 = networkCalls s -> tasks s1 = tasks s ->
  sent s1 = (sent s ++ if mainWindow s then [MsgAutoCaptureStatus b] else [])%list ->
  sameBooks s s1.
Proof.
  intros H1 H2 H3 H4 H5.
  constructor; auto; unfold inFlight, atCapture, countMsg;
    rewrite ?H4, ?H5, ?count_optional; cbn; rewrite ?andb_false_r; lia.
Qed.

Lemma books_started s : sameBooks s (started s).
Proof.
  destruct (started_fields s) as (A1 & _).
  destruct (started_effects s) as (B1 & B2 & B3 & B4 & _).
  now apply (books_status true).
Qed.

Lemma books_stopped s : sameBooks s (stopped s).
Proof.
  destruct (stopped_fields s) as (A1 & _).
  destruct (stopped_effects s) as (B1 & B2 & B3 & B4 & _).
  now apply (books_status false).
Qed.

Lemma books_permissionThen_false w s : sameBooks s (permissionThen w false s).
Proof.
  destruct w; cbn; try apply books_reply. constructor; reflexivity.
Qed.

(** The [update-settings] handler sends at most a status message. *)
Lemma books_updateSettings u s : sameBooks s (snd (updateSettings u s)).
Proof.
  unfold updateSettings. destruct u as [ci ac key tray notif].
  cbn [u_captureInterval u_autoCapture u_openaiApiKey u_minimizeToTray
       u_showNotifications].
  assert (Hrest : forall s0,
            sameBooks s0
              (snd ((match key with
                     | Some v => store_set (set_openaiApiKey v)
                     | None => ret tt
                     end ;;
                     match tray with
                     | Some v => store_set (set_minimizeToTray v)
                     | None => ret tt
                     end ;;
                     match notif with
                     | Some v => store_set (set_showNotifications v)
                     | None => ret tt
                     end ;;
                     log "info" "Settings updated" ;; ret true) s0))).
  { intro s0. destruct key, tray, notif; constructor; reflexivity. }
  destruct ci as [v|].
  - cbv [bind store_set store_get modify gets when]. fields.
    destruct (autoCapture (store s)).
    + rewrite startAutoCapture_spec.
      eapply sameBooks_trans; [|apply Hrest].
      eapply sameBooks_trans; [|apply books_started].
      constructor; reflexivity.
    + eapply sameBooks_trans; [|apply Hrest]. constructor; reflexivity.
  - apply (Hrest s).
Qed.

(** Starting an attempt, or being turned away. *)
Lemma Accounting_performCapture c s :
  Accounting s -> Accounting (settlePipeline c (performCapture s)).
Proof.
  intros [A1 A2 A3 A4 A5 A6]. destruct (isCapturing s) eqn:Hb.
  - rewrite performCapture_busy by assumption. cbn [settlePipeline].
    apply (Accounting_books s); [apply books_callerReturns|].
    constructor; assumption.
  - rewrite performCapture_idle by assumption. cbn [settlePipeline].
    unfold countMsg, inFlight, atCapture in *.
    constructor; unfold countMsg, inFlight, atCapture;
      destruct (mainWindow s); cbn; rewrite ?count_snoc; cbn; lia.
Qed.

(** What a failing [try] block has sent is nothing, or one success message
    whose analysis is not a string. *)
Lemma sentBeforeThrow_cases r s :
  sentBeforeThrow r s = []
  \/ exists analysis timestamp,
       isString analysis = false
       /\ sentBeforeThrow r s =
            [MsgCaptureComplete (CompleteSuccess analysis timestamp)].
Proof.
  unfold sentBeforeThrow. destruct r as [| |[d|]]; auto.
  destruct (contentOf d) as [analysis|]; auto.
  destruct (isString analysis) eqn:E; auto.
  destruct (mainWindow s); eauto.
Qed.

(** Resuming an attempt. *)
Lemma Accounting_resume i c p r body s :
  nth_error (tasks s) i = Some (TaskPipeline c p) ->
  performCapture_tryResume p r = Some body ->
  Accounting s -> Accounting (step (EvResolve i r) s).
Proof.
  intros Hn Hb [A1 A2 A3 A4 A5 A6].
  rewrite (resolve_pipeline _ _ _ _ _ _ Hn Hb).
  pose proof (removeAt_count isPipeline _ _ _ Hn) as Hf.
  pose proof (removeAt_count isAtCapture _ _ _ Hn) as Ha.
  pose proof (tryResume_frame _ _ _ Hb (taken i s)) as Hfr.
  destruct (body (taken i s)) as [o s1] eqn:Hbody.
  destruct (segment_effects _ _ _ _ _ _ Hb Hbody) as [Hcc Ho].
  cbn [snd] in Hfr. pose proof (sc_tasks _ _ Hfr) as Ht.
  pose proof (sc_mainWindow _ _ Hfr) as Hw.
  change (tasks (taken i s)) with (removeAt i (tasks s)) in Ht.
  change (captureCalls (taken i s)) with (captureCalls s) in Hcc.
  cbn [isPipeline] in Hf. unfold countMsg, inFlight, atCapture in *.
  destruct o as [a|e|q].
  - destruct Ho as (-> & Han & Hnw & analysis & _ & _ & Hsent & _).
    cbn [isAtCapture] in Ha.
    apply (Accounting_books (set_isCapturing false s1));
      [apply books_callerReturns|].
    constructor; unfold countMsg, inFlight, atCapture; cbn;
      rewrite ?Hsent, ?Ht, ?Hcc, ?Han, ?Hnw, ?count_optional; cbn;
      rewrite ?andb_false_r, ?andb_true_r;
      try (destruct (mainWindow s)); try (destruct (isString analysis));
      cbn; lia.
  - destruct Ho as (Hsent & _ & Han & Hnw).
    rewrite performCapture_catch_returns. cbn [snd].
    change (sent (taken i s)) with (sent s) in Hsent.
    destruct (sentBeforeThrow_cases r (taken i s))
      as [Hnone|(analysis & timestamp & Hodd & Hone)];
      [rewrite Hnone, app_nil_r in Hsent|rewrite Hone in Hsent].
    all: cycle 1.
    { apply (Accounting_books
               (set_isCapturing false
                  (if mainWindow s1
                   then set_sent
                          (sent s1 ++
                           [MsgCaptureComplete (CompleteFailure (message e))])
                          (set_logs
                             (logs s1 ++
                              [("error",
                                "Capture/analysis error: " ++ message e)]) s1)
                   else set_logs
                          (logs s1 ++
                           [("error", "Capture/analysis error: " ++ message e)])
                          s1)));
        [apply books_callerReturns|].
      assert (Hp : ((if isAtCapture (TaskPipeline c p) then 1 else 0) <= 1)%nat)
        by (destruct (isAtCapture _); lia).
      constructor; unfold countMsg, inFlight, atCapture;
        destruct (mainWindow s1); cbn;
        rewrite ?count_snoc, ?Hsent, ?count_snoc, ?Ht, ?Hcc, ?Han, ?Hnw; cbn;
        rewrite ?Hodd; cbn; lia. }
    apply (Accounting_books
             (set_isCapturing false
                (if mainWindow s1
                 then set_sent
                        (sent s1 ++
                         [MsgCaptureComplete (CompleteFailure (message e))])
                        (set_logs
                           (logs s1 ++
                            [("error",
                              "Capture/analysis error: " ++ message e)]) s1)
                 else set_logs
                        (logs s1 ++
                         [("error", "Capture/analysis error: " ++ message e)])
                        s1)));
      [apply books_callerReturns|].
    assert (Hp : ((if isAtCapture (TaskPipeline c p) then 1 else 0) <= 1)%nat)
      by (destruct (isAtCapture _); lia).
    constructor; unfold countMsg, inFlight, atCapture;
      destruct (mainWindow s1); cbn;
      rewrite ?count_snoc, ?Hsent, ?Ht, ?Hcc, ?Han, ?Hnw; cbn; lia.
  - destruct Ho as (-> & -> & Hsent & _ & Han & Hnw & _).
    cbn [isAtCapture] in Ha.
    constructor; unfold countMsg, inFlight, atCapture, spawn; cbn;
      rewrite ?count_snoc, ?Hsent, ?Ht, ?Hcc, ?Han, ?Hnw, ?count_optional;
      cbn; rewrite ?andb_false_r, ?andb_true_r;
      try (destruct (mainWindow s)); lia.
Qed.

Lemma Accounting_permissionThen w hp s :
  Accounting s -> Accounting (permissionThen w hp s).
Proof.
  intro A. destruct hp.
  - destruct w as [req|req enabled|]; cbn.
    + unfold captureNow_continue. now apply Accounting_performCapture.
    + unfold toggleAutoCapture_continue, runSync. cbn [negb].
      apply (Accounting_books (if enabled then started s else stopped s)).
      * destruct enabled;
          [rewrite startAutoCapture_spec | rewrite stopAutoCapture_spec];
          apply books_reply.
      * destruct enabled;
          [apply (Accounting_books s), A; apply books_started
          |apply (Accounting_books s), A; apply books_stopped].
    + unfold ready_continue, runSync. rewrite startAutoCapture_spec.
      apply (Accounting_books s), A. apply books_started.
  - apply (Accounting_books s), A. apply books_permissionThen_false.
Qed.

Lemma Accounting_askPermission w st s :
  Accounting s -> Accounting (askPermission w st s).
Proof.
  intro A. unfold askPermission. rewrite requestScreenCapturePermission_spec.
  destruct (granted (platform s) st); cbn [settlePermission].
  - now apply Accounting_permissionThen.
  - apply (Accounting_books s), A. apply books_spawn_dialog.
Qed.

Lemma Accounting_step e s : Accounting s -> Accounting (step e s).
Proof.
  intro A. destruct e; cbn [step].
  - set (s1 := runSync (log "info" "System tray created") _).
    assert (A1 : Accounting s1)
      by (apply (Accounting_books s), A; constructor; reflexivity).
    destruct (autoCapture (store s1)); [|assumption].
    now apply Accounting_askPermission.
  - apply (Accounting_books s), A; constructor; reflexivity.
  - destruct (findTimer id (timers s)) as [t|]; [|assumption].
    destruct (due t <=? now s); [|assumption].
    unfold timerCallback.
    assert (Ar : Accounting (rearm id s))
      by (apply (Accounting_books s), A; constructor; reflexivity).
    destruct (isCapturing (rearm id s)); [assumption|].
    now apply Accounting_performCapture.
  - now apply Accounting_askPermission.
  - now apply Accounting_askPermission.
  - pose proof (books_updateSettings settings s) as B.
    destruct (updateSettings_spec settings s) as (s1 & E & _).
    rewrite E in *. cbn [snd] in B.
    apply (Accounting_books s1); [apply books_reply|].
    now apply (Accounting_books s).
  - change (Accounting (step (EvResolve i r) s)).
    destruct (nth_error (tasks s) i) as [[w|c p]|] eqn:Hn.
    + cbn [step]. unfold resolve. rewrite Hn. destruct r; try assumption.
      rewrite requestScreenCapturePermission_resume_spec.
      cbn [settlePermission].
      apply (Accounting_books (taken i s));
        [apply books_permissionThen_false|].
      apply (Accounting_books s), A.
      pose proof (removeAt_count isPipeline _ _ _ Hn) as Hf.
      pose proof (removeAt_count isAtCapture _ _ _ Hn) as Ha.
      cbn in Hf, Ha.
      constructor; try reflexivity; unfold inFlight, atCapture, taken; cbn;
        lia.
    + destruct (performCapture_tryResume p r) as [body|] eqn:Hb.
      * exact (Accounting_resume _ _ _ _ _ _ Hn Hb A).
      * cbn [step]. unfold resolve, performCapture_resume.
        rewrite Hn, Hb. assumption.
    + cbn [step]. unfold resolve. rewrite Hn. assumption.
  - destruct (_ && _); [assumption|].
    apply (Accounting_books s), A; constructor; reflexivity.
  - destruct (mainWindow s); [assumption|].
    apply (Accounting_books s), A; constructor; reflexivity.
  - unfold runSync, bind. rewrite stopAutoCapture_spec. cbn.
    apply (Accounting_books (stopped (set_isQuitting true s)));
      [constructor; reflexivity|].
    apply (Accounting_books (set_isQuitting true s)); [apply books_stopped|].
    apply (Accounting_books s), A; constructor; reflexivity.
Qed.

(** X7 (the books).  In every reachable state: the [capture-complete]
    messages sent plus the attempts in flight exceed the screenshots
    requested by no more than the number of success messages whose analysis
    is not a string, so only an attempt whose analysis came back as such a
    value is reported twice (the success, then the failure of its
    notification); the success messages plus the attempts in flight do not
    exceed the screenshots requested, so no attempt reports two successes;
    the requests sent to the vision API plus the attempts still waiting for
    their screenshot do not exceed the screenshots requested, so no attempt
    contacts the API twice or without a screenshot; every call of
    [analyzeImage] sent a request (its own missing-key check never fires
    here); and there are no more "analyzing" messages than requests, nor more
    "capture-started" messages than screenshots requested. *)
Theorem books_balance (s : State) :
  reachable s ->
  (countMsg isCaptureComplete s + inFlight s
   <= captureCalls s + countMsg isOddSuccess s)%nat
  /\ (countMsg isSuccess s + inFlight s <= captureCalls s)%nat
  /\ (networkCalls s + atCapture s <= captureCalls s)%nat
  /\ analyzeCalls s = networkCalls s
  /\ (countMsg isAnalyzing s <= networkCalls s)%nat
  /\ (countMsg isStarted s <= captureCalls s)%nat.
Proof.
  intros (pf & st & evs & ->).
  assert (A : Accounting (run evs (initial pf st))).
  { assert (A0 : Accounting (initial pf st)) by (constructor; cbn; lia).
    revert A0. generalize (initial pf st).
    induction evs as [|e evs IH]; intros s A0; cbn; [assumption|].
    apply IH. now apply Accounting_step. }
  destruct A; auto 7.
Qed.

Lemma books_balance_witness :
  let s := run [EvReady "granted"; EvCaptureNow 1 "granted";
                EvResolve 0 (RCapture (ScreenshotBuffer 2048 "QUJD"));
                EvResolve 0 (RAnalysis (AxiosResponse
                                          (DataContent (VBoolean true))))]
               (initial "win32" (set_openaiApiKey "sk-test" defaults)) in
  (countMsg isCaptureComplete s + inFlight s
   <= captureCalls s + countMsg isOddSuccess s)%nat
  /\ captureCalls s = 1%nat /\ networkCalls s = 1%nat
  /\ countMsg isCaptureComplete s = 2%nat
  /\ countMsg isOddSuccess s = 1%nat.
Proof.
  cbv zeta. split; [|repeat split].
  apply (books_balance
           (run [EvReady "granted"; EvCaptureNow 1 "granted";
                 EvResolve 0 (RCapture (ScreenshotBuffer 2048 "QUJD"));
                 EvResolve 0 (RAnalysis (AxiosResponse
                                           (DataContent (VBoolean true))))]
                (initial "win32" (set_openaiApiKey "sk-test" defaults)))).
  eexists _, _, _. reflexivity.
Defined.

(** ** The ways an attempt goes on after the screenshot and the analysis *)

Lemma afterCapture_rejected e s0 :
  fst ((screenshot <- captureScreen_resume (ScreenshotRejected e) ;;
        performCapture_withScreenshot screenshot) s0) =
  Thrown (if includes "permission" (message e)
          then Error MSG_CAPTURE_PERMISSION else e).
Proof.
  unfold_pipeline. destruct (includes "permission" (message e)); reflexivity.
Qed.

Lemma afterCapture_empty len s0 :
  fst ((screenshot <- captureScreen_resume (ScreenshotBuffer len "") ;;
        performCapture_withScreenshot screenshot) s0) =
  Thrown (Error "Failed to capture screenshot").
Proof. reflexivity. Qed.

Lemma afterCapture_ok len b64 s0 :
  truthy b64 = true -> truthy (openaiApiKey (store s0)) = true ->
  fst ((screenshot <- captureScreen_resume (ScreenshotBuffer len b64) ;;
        performCapture_withScreenshot screenshot) s0) =
  Awaiting AtAnalyzeImage.
Proof.
  intros Hb Hk. unfold_pipeline. rewrite Hb. destruct s0; fields.
  cbn [negb]. repeat (fields; cbv beta iota). rewrite Hk. cbn [negb].
  repeat (fields; cbv beta iota).
  destruct mainWindow0; repeat (fields; cbv beta iota); rewrite Hk;
    reflexivity.
Qed.

Lemma afterAnalysis_ok text s0 :
  truthyValue (VString text) = true ->
  fst ((analysis <- analyzeImage_resume
                      (AxiosResponse (DataContent (VString text))) ;;
        performCapture_withAnalysis analysis) s0) = Normal tt.
Proof.
  intros Ht. destruct text as [|u text]; [discriminate|].
  unfold_pipeline. destruct s0; fields.
  repeat (fields; cbv beta iota).
  destruct mainWindow0; repeat (fields; cbv beta iota);
    destruct (showNotifications store0); reflexivity.
Qed.

(** With an analysis that is not a string the [try] block throws exactly
    when a notification is to be shown. *)
Lemma afterAnalysis_other analysis s0 :
  truthyValue analysis = true -> isString analysis = false ->
  fst ((a <- analyzeImage_resume (AxiosResponse (DataContent analysis)) ;;
        performCapture_withAnalysis a) s0) =
  if showNotifications (store s0)
  then Thrown (Error "analysis.substring is not a function")
  else Normal tt.
Proof.
  intros Ht Hs. content_cases analysis; try discriminate;
    unfold_pipeline; destruct s0; fields;
    repeat (fields; cbv beta iota);
    destruct mainWindow0; repeat (fields; cbv beta iota);
    destruct (showNotifications store0); reflexivity.
Qed.

Lemma callerReturns_replies c s :
  replies (callerReturns c s) = (replies s ++ callerReply c)%list.
Proof. destruct c; cbn; rewrite ?app_nil_r; reflexivity. Qed.

(** A resumed attempt whose [try] block throws. *)
Lemma thrown_outcome i c p r body e s1 s :
  Inv s ->
  nth_error (tasks s) i = Some (TaskPipeline c p) ->
  performCapture_tryResume p r = Some body ->
  body (taken i s) = (Thrown e, s1) ->
  let s' := step (EvResolve i r) s in
  sent s' =
    (sent s ++ sentBeforeThrow r s ++
     if mainWindow s
     then [MsgCaptureComplete (CompleteFailure (message e))]
     else [])%list
  /\ notifications s' = notifications s
  /\ captureCalls s' = captureCalls s /\ analyzeCalls s' = analyzeCalls s
  /\ networkCalls s' = networkCalls s
  /\ replies s' = (replies s ++ callerReply c)%list
  /\ inFlight s' = 0%nat /\ isCapturing s' = false.
Proof.
  intros I Hn Hb Hbody s'.
  assert (I' : Inv s') by (apply Inv_step; assumption).
  pose proof (resolve_pipeline _ _ _ _ _ _ Hn Hb) as Hs. fold s' in Hs.
  destruct (segment_effects _ _ _ _ _ _ Hb Hbody) as (Hcc & Hsent & Hno & Han & Hnw).
  change (sentBeforeThrow r (taken i s)) with (sentBeforeThrow r s) in Hsent.
  pose proof (tryResume_frame _ _ _ Hb (taken i s)) as Hfr.
  rewrite Hbody in Hs, Hfr. cbn [snd] in Hfr.
  rewrite performCapture_catch_returns in Hs. cbn [snd] in Hs.
  assert (Hw : mainWindow s1 = mainWindow s)
    by (rewrite (sc_mainWindow _ _ Hfr); reflexivity).
  assert (Hr : replies s1 = replies s)
    by (rewrite (sc_replies _ _ Hfr); reflexivity).
  assert (Hc : isCapturing s' = false)
    by (rewrite Hs, callerReturns_isCapturing; reflexivity).
  rewrite <- Hw.
  split; [|split; [|split; [|split; [|split; [|split; [|split]]]]]].
  - rewrite Hs. destruct c, (mainWindow s1); unfold callerReturns, reply;
      fields; rewrite Hsent, ?app_nil_r, <- ?app_assoc; reflexivity.
  - rewrite Hs. destruct c, (mainWindow s1); cbn; exact Hno.
  - rewrite Hs. destruct c, (mainWindow s1); cbn; exact Hcc.
  - rewrite Hs. destruct c, (mainWindow s1); cbn; exact Han.
  - rewrite Hs. destruct c, (mainWindow s1); cbn; exact Hnw.
  - rewrite Hs, callerReturns_replies. destruct (mainWindow s1); cbn;
      now rewrite Hr.
  - rewrite (inv_flight _ I'), Hc. reflexivity.
  - exact Hc.
Qed.

(** A resumed attempt whose [try] block returns. *)
Lemma returned_outcome i c analysis s1 s :
  Inv s ->
  nth_error (tasks s) i = Some (TaskPipeline c AtAnalyzeImage) ->
  (a <- analyzeImage_resume (AxiosResponse (DataContent analysis)) ;;
   performCapture_withAnalysis a) (taken i s) = (Normal tt, s1) ->
  let s' :=
    step (EvResolve i (RAnalysis (AxiosResponse (DataContent analysis)))) s in
  sent s' =
    (sent s ++
     if mainWindow s
     then [MsgCaptureComplete (CompleteSuccess analysis (now s))]
     else [])%list
  /\ notifications s' =
     (notifications s ++
      match analysis with
      | VString text =>
          if showNotifications (store s)
          then [("AI Analysis Complete", notificationBody text)]
          else []
      | _ => []
      end)%list
  /\ captureCalls s' = captureCalls s /\ analyzeCalls s' = analyzeCalls s
  /\ networkCalls s' = networkCalls s
  /\ replies s' = (replies s ++ callerReply c)%list
  /\ inFlight s' = 0%nat /\ isCapturing s' = false.
Proof.
  intros I Hn Hbody s'.
  assert (I' : Inv s') by (apply Inv_step; assumption).
  pose proof (resolve_pipeline i c AtAnalyzeImage
                (RAnalysis (AxiosResponse (DataContent analysis))) _ s
                Hn eq_refl) as Hs. fold s' in Hs.
  pose proof (tryResume_frame AtAnalyzeImage
                (RAnalysis (AxiosResponse (DataContent analysis))) _
                eq_refl (taken i s)) as Hfr.
  destruct (segment_effects AtAnalyzeImage
              (RAnalysis (AxiosResponse (DataContent analysis)))
              _ _ _ _ eq_refl Hbody)
    as (Hcc & _ & Han & Hnw & a' & Hr & _ & Hsent & Hnot & _).
  inversion Hr; subst a'. clear Hr.
  rewrite Hbody in Hs, Hfr. cbn [snd] in Hfr.
  assert (Hc : isCapturing s' = false)
    by (rewrite Hs, callerReturns_isCapturing; reflexivity).
  split; [|split; [|split; [|split; [|split; [|split; [|split]]]]]].
  - rewrite Hs. destruct c; cbn; exact Hsent.
  - rewrite Hs. destruct c; cbn; exact Hnot.
  - rewrite Hs. destruct c; cbn; exact Hcc.
  - rewrite Hs. destruct c; cbn; exact Han.
  - rewrite Hs. destruct c; cbn; exact Hnw.
  - rewrite Hs, callerReturns_replies. cbn.
    now rewrite (sc_replies _ _ Hfr).
  - rewrite (inv_flight _ I'), Hc. reflexivity.
  - exact Hc.
Qed.

(** X8 (a successful attempt).  When the analysis comes back as a non-empty
    string, the attempt ends: the string and the time are sent in one
    [capture-complete] message with [success: true] if the main window
    exists; a notification is shown exactly when notifications are stored as
    on, and its body, counted in UTF-16 code units as [length] and
    [substring] count, is the string itself when it has at most 100 code
    units and otherwise its first 100 code units followed by three dots, so
    never longer than 103; the caller is answered; no collaborator is invoked
    again. *)
Theorem analysis_success (s : State) i c (text : JsString) :
  reachable s ->
  nth_error (tasks s) i = Some (TaskPipeline c AtAnalyzeImage) ->
  truthyValue (VString text) = true ->
  let s' :=
    step (EvResolve i
            (RAnalysis (AxiosResponse (DataContent (VString text))))) s
  in
  sent s' =
    (sent s ++ if mainWindow s
               then [MsgCaptureComplete
                       (CompleteSuccess (VString text) (now s))]
               else [])%list
  /\ notifications s' =
     (notifications s ++
      if showNotifications (store s)
      then [("AI Analysis Complete", notificationBody text)]
      else [])%list
  /\ (List.length (notificationBody text) <= 103)%nat
  /\ ((List.length text <= 100)%nat -> notificationBody text = text)
  /\ ((100 < List.length text)%nat ->
      notificationBody text = (firstn 100 text ++ units "...")%list)
  /\ replies s' = (replies s ++ callerReply c)%list
  /\ inFlight s' = 0%nat /\ isCapturing s' = false
  /\ captureCalls s' = captureCalls s /\ networkCalls s' = networkCalls s.
Proof.
  intros R Hn Ht s'. pose proof (reachable_Inv s R) as I.
  pose proof (afterAnalysis_ok text (taken i s) Ht) as Hfst.
  destruct ((analysis <- analyzeImage_resume
                           (AxiosResponse (DataContent (VString text))) ;;
             performCapture_withAnalysis analysis) (taken i s))
    as [o s1] eqn:Hbody.
  cbn [fst] in Hfst. subst o.
  destruct (returned_outcome i c (VString text) s1 s I Hn Hbody)
    as (H1 & H2 & H3 & _ & H5 & H6 & H7 & H8).
  fold s' in H1, H2, H3, H5, H6, H7, H8.
  split; [exact H1|]. split; [exact H2|].
  split; [|split; [|split]]; [| | |repeat split; assumption].
  - unfold notificationBody. rewrite length_app, length_firstn.
    pose proof (Nat.le_min_l 100 (List.length text)) as Hm.
    destruct (100 <? List.length text)%nat; cbn [List.length units map
      list_ascii_of_string]; lia.
  - intro Hl. unfold notificationBody.
    assert (Hlt : (100 <? List.length text)%nat = false)
      by (apply Nat.ltb_ge; exact Hl).
    rewrite Hlt, app_nil_r. now apply firstn_all2.
  - intro Hl. unfold notificationBody.
    assert (Hlt : (100 <? List.length text)%nat = true)
      by (apply Nat.ltb_lt; exact Hl).
    now rewrite Hlt.
Qed.

Lemma analysis_success_witness :
  let s := run [EvReady "granted"; EvCaptureNow 1 "granted";
                EvResolve 0 (RCapture (ScreenshotBuffer 2048 "QUJD"));
                EvAdvance 1500]
               (initial "win32" (set_openaiApiKey "sk-test" defaults)) in
  let text := units "Screen shows a code editor." in
  let s' :=
    step (EvResolve 0
            (RAnalysis (AxiosResponse (DataContent (VString text))))) s
  in
  sent s' = [MsgCaptureStarted; MsgAnalyzing;
             MsgCaptureComplete (CompleteSuccess (VString text) 1500)]
  /\ notifications s' = [("AI Analysis Complete", text)]
  /\ inFlight s' = 0%nat.
Proof.
  cbv zeta.
  pose proof
    (analysis_success
       (run [EvReady "granted"; EvCaptureNow 1 "granted";
             EvResolve 0 (RCapture (ScreenshotBuffer 2048 "QUJD"));
             EvAdvance 1500]
            (initial "win32" (set_openaiApiKey "sk-test" defaults)))
       0 (ByCaptureNow 1 true) (units "Screen shows a code editor.")
       (ex_intro _ "win32"
          (ex_intro _ (set_openaiApiKey "sk-test" defaults)
             (ex_intro _ [EvReady "granted"; EvCaptureNow 1 "granted";
                          EvResolve 0 (RCapture (ScreenshotBuffer 2048 "QUJD"));
                          EvAdvance 1500] eq_refl)))
       eq_refl eq_refl) as H.
  cbv zeta in H. destruct H as (H1 & H2 & _ & _ & _ & _ & H3 & _).
  split; [exact H1|]. split; [exact H2 | exact H3].
Defined.

(** X20 (an analysis that is not a string).  [analyzeImage] hands on any
    truthy content, and when that content is not a string (a number, [true],
    an array, an object) the attempt still sends it in a [capture-complete]
    message with [success: true] if the main window exists.  With
    notifications stored as off that is all.  With notifications stored as
    on, computing the body of the notification throws, so no notification
    is shown and the same attempt also sends a [capture-complete] failure
    with the message "analysis.substring is not a function": two
    [capture-complete] messages for one attempt.  Either way the caller is
    answered, the guard is released and nothing is left uncaught. *)
Theorem analysis_not_a_string (s : State) i c (analysis : JsValue) :
  reachable s ->
  nth_error (tasks s) i = Some (TaskPipeline c AtAnalyzeImage) ->
  truthyValue analysis = true ->
  isString analysis = false ->
  let s' :=
    step (EvResolve i (RAnalysis (AxiosResponse (DataContent analysis)))) s in
  sent s' =
    (sent s ++
     if mainWindow s
     then MsgCaptureComplete (CompleteSuccess analysis (now s))
          :: (if showNotifications (store s)
              then [MsgCaptureComplete
                      (CompleteFailure "analysis.substring is not a function")]
              else [])
     else [])%list
  /\ notifications s' = notifications s
  /\ replies s' = (replies s ++ callerReply c)%list
  /\ inFlight s' = 0%nat /\ isCapturing s' = false
  /\ uncaught s' = []
  /\ captureCalls s' = captureCalls s /\ networkCalls s' = networkCalls s.
Proof.
  intros R Hn Ht Hstr s'. pose proof (reachable_Inv s R) as I.
  assert (I' : Inv s') by (apply Inv_step; assumption).
  pose proof (afterAnalysis_other analysis (taken i s) Ht Hstr) as Hfst.
  change (store (taken i s)) with (store s) in Hfst.
  destruct ((a <- analyzeImage_resume (AxiosResponse (DataContent analysis)) ;;
             performCapture_withAnalysis a) (taken i s))
    as [o s1] eqn:Hbody.
  cbn [fst] in Hfst. subst o.
  destruct (showNotifications (store s)) eqn:Hshow.
  - destruct (thrown_outcome i c AtAnalyzeImage
                (RAnalysis (AxiosResponse (DataContent analysis)))
                _ _ _ s I Hn eq_refl Hbody)
      as (H1 & H2 & H3 & _ & H5 & H6 & H7 & H8).
    fold s' in H1, H2, H3, H5, H6, H7, H8.
    split; [|repeat split; try assumption; now apply inv_uncaught].
    rewrite H1. unfold sentBeforeThrow, contentOf. rewrite Ht, Hstr.
    destruct (mainWindow s); reflexivity.
  - destruct (returned_outcome i c analysis s1 s I Hn Hbody)
      as (H1 & H2 & H3 & _ & H5 & H6 & H7 & H8).
    fold s' in H1, H2, H3, H5, H6, H7, H8.
    split; [|split;
               [|repeat split; try assumption; now apply inv_uncaught]].
    + rewrite H1. destruct (mainWindow s); reflexivity.
    + rewrite H2. destruct analysis; try discriminate;
        now rewrite app_nil_r.
Qed.

Lemma analysis_not_a_string_witness :
  let s := run [EvReady "granted"; EvCaptureNow 1 "granted";
                EvResolve 0 (RCapture (ScreenshotBuffer 2048 "QUJD"));
                EvAdvance 1500]
               (initial "win32" (set_openaiApiKey "sk-test" defaults)) in
  let analysis := VObject "[]" in
  let s' :=
    step (EvResolve 0 (RAnalysis (AxiosResponse (DataContent analysis)))) s in
  sent s' =
    [MsgCaptureStarted; MsgAnalyzing;
     MsgCaptureComplete (CompleteSuccess analysis 1500);
     MsgCaptureComplete
       (CompleteFailure "analysis.substring is not a function")]
  /\ notifications s' = [] /\ inFlight s' = 0%nat.
Proof.
  cbv zeta.
  pose proof
    (analysis_not_a_string
       (run [EvReady "granted"; EvCaptureNow 1 "granted";
             EvResolve 0 (RCapture (ScreenshotBuffer 2048 "QUJD"));
             EvAdvance 1500]
            (initial "win32" (set_openaiApiKey "sk-test" defaults)))
       0 (ByCaptureNow 1 true)
       (VObject "[]")
       (ex_intro _ "win32"
          (ex_intro _ (set_openaiApiKey "sk-test" defaults)
             (ex_intro _ [EvReady "granted"; EvCaptureNow 1 "granted";
                          EvResolve 0 (RCapture (ScreenshotBuffer 2048 "QUJD"));
                          EvAdvance 1500] eq_refl)))
       eq_refl eq_refl eq_refl) as H.
  cbv zeta in H. destruct H as (H1 & H2 & _ & H3 & _).
  split; [exact H1|]. split; [exact H2 | exact H3].
Defined.

(** X9 (a failed screenshot).  When the screenshot is rejected, the attempt
    ends with one [capture-complete] failure message (if the main window
    exists): the fixed "Screen capture permission denied..." text when the
    rejection's message contains "permission", and the rejection's own
    message otherwise.  When the screenshot comes back empty, the message is
    "Failed to capture screenshot".  In both cases [analyzeImage] is not
    called, no request is sent, the caller is answered and the guard is
    released. *)
Theorem capture_failure (s : State) i c :
  reachable s ->
  nth_error (tasks s) i = Some (TaskPipeline c AtCaptureScreen) ->
  (forall e,
     let s' := step (EvResolve i (RCapture (ScreenshotRejected e))) s in
     sent s' =
       (sent s ++
        if mainWindow s
        then [MsgCaptureComplete
                (CompleteFailure
                   (if includes "permission" (message e)
                    then MSG_CAPTURE_PERMISSION else message e))]
        else [])%list
     /\ analyzeCalls s' = analyzeCalls s /\ networkCalls s' = networkCalls s
     /\ replies s' = (replies s ++ callerReply c)%list
     /\ inFlight s' = 0%nat /\ isCapturing s' = false)
  /\ (forall len,
        let s' := step (EvResolve i (RCapture (ScreenshotBuffer len ""))) s in
        sent s' =
          (sent s ++
           if mainWindow s
           then [MsgCaptureComplete
                   (CompleteFailure "Failed to capture screenshot")]
           else [])%list
        /\ analyzeCalls s' = analyzeCalls s /\ networkCalls s' = networkCalls s
        /\ replies s' = (replies s ++ callerReply c)%list
        /\ inFlight s' = 0%nat /\ isCapturing s' = false).
Proof.
  intros R Hn. pose proof (reachable_Inv s R) as I. split.
  - intros e s'.
    pose proof (afterCapture_rejected e (taken i s)) as Hfst.
    destruct ((screenshot <- captureScreen_resume (ScreenshotRejected e) ;;
               performCapture_withScreenshot screenshot) (taken i s))
      as [o s1] eqn:Hbody.
    cbn [fst] in Hfst. subst o.
    destruct (thrown_outcome i c AtCaptureScreen
                (RCapture (ScreenshotRejected e)) _ _ _ s I Hn eq_refl Hbody)
      as (H1 & _ & _ & H4 & H5 & H6 & H7 & H8).
    fold s' in H1, H4, H5, H6, H7, H8.
    repeat split; try assumption.
    rewrite H1. destruct (includes "permission" (message e)); reflexivity.
  - intros len s'.
    pose proof (afterCapture_empty len (taken i s)) as Hfst.
    destruct ((screenshot <- captureScreen_resume (ScreenshotBuffer len "") ;;
               performCapture_withScreenshot screenshot) (taken i s))
      as [o s1] eqn:Hbody.
    cbn [fst] in Hfst. subst o.
    destruct (thrown_outcome i c AtCaptureScreen
                (RCapture (ScreenshotBuffer len "")) _ _ _ s I Hn eq_refl Hbody)
      as (H1 & _ & _ & H4 & H5 & H6 & H7 & H8).
    fold s' in H1, H4, H5, H6, H7, H8.
    repeat split; assumption.
Qed.

Lemma capture_failure_witness :
  let s := run [EvReady "granted"; EvCaptureNow 1 "granted"]
               (initial "darwin" (set_openaiApiKey "sk-test" defaults)) in
  let e := Error "The user has not given permission to record the screen" in
  sent (step (EvResolve 0 (RCapture (ScreenshotRejected e))) s) =
    [MsgCaptureStarted;
     MsgCaptureComplete (CompleteFailure MSG_CAPTURE_PERMISSION)].
Proof.
  cbv zeta.
  pose proof
    (capture_failure
       (run [EvReady "granted"; EvCaptureNow 1 "granted"]
            (initial "darwin" (set_openaiApiKey "sk-test" defaults)))
       0 (ByCaptureNow 1 true)
       (ex_intro _ "darwin"
          (ex_intro _ (set_openaiApiKey "sk-test" defaults)
             (ex_intro _ [EvReady "granted"; EvCaptureNow 1 "granted"]
                eq_refl)))
       eq_refl) as [H _].
  specialize (H (Error "The user has not given permission to record the screen")).
  cbv zeta in H. exact (proj1 H).
Defined.

(** X10 (the credential gate when a key is stored).  When a non-empty
    screenshot comes back and the key stored at that moment is not empty,
    the attempt goes on: that key is handed to the vision client, "analyzing"
    is sent if the main window exists, [analyzeImage] is called once and
    sends one request, and the attempt stays the one in flight, now waiting
    for the analysis.  The key is read when the screenshot arrives, not when
    the attempt was triggered. *)
Theorem credential_gate_passed (s : State) i c len b64 :
  reachable s ->
  nth_error (tasks s) i = Some (TaskPipeline c AtCaptureScreen) ->
  truthy b64 = true ->
  truthy (openaiApiKey (store s)) = true ->
  let s' := step (EvResolve i (RCapture (ScreenshotBuffer len b64))) s in
  apiKey s' = openaiApiKey (store s)
  /\ sent s' = (sent s ++ if mainWindow s then [MsgAnalyzing] else [])%list
  /\ analyzeCalls s' = S (analyzeCalls s)
  /\ networkCalls s' = S (networkCalls s)
  /\ captureCalls s' = captureCalls s
  /\ tasks s' = (removeAt i (tasks s) ++ [TaskPipeline c AtAnalyzeImage])%list
  /\ replies s' = replies s
  /\ inFlight s' = 1%nat /\ isCapturing s' = true.
Proof.
  intros R Hn Hb Hk s'. pose proof (reachable_Inv s R) as I.
  assert (I' : Inv s') by (apply Inv_step; assumption).
  pose proof (resolve_pipeline i c AtCaptureScreen
                (RCapture (ScreenshotBuffer len b64)) _ s Hn eq_refl) as Hs.
  fold s' in Hs.
  pose proof (afterCapture_ok len b64 (taken i s) Hb Hk) as Hfst.
  pose proof (tryResume_frame AtCaptureScreen
                (RCapture (ScreenshotBuffer len b64)) _ eq_refl (taken i s))
    as Hfr.
  destruct ((screenshot <- captureScreen_resume (ScreenshotBuffer len b64) ;;
             performCapture_withScreenshot screenshot) (taken i s))
    as [o s1] eqn:Hbody.
  cbn [fst snd] in Hfst, Hfr. subst o.
  destruct (segment_effects AtCaptureScreen
              (RCapture (ScreenshotBuffer len b64)) _ _ _ _ eq_refl Hbody)
    as (Hcc & _ & _ & Hsent & _ & Han & Hnw & Hkey & _).
  destruct (Inv_take _ _ _ _ I Hn) as [Rs _]. fold (taken i s) in Rs.
  assert (Hc : isCapturing s' = true).
  { rewrite Hs. cbn. rewrite (sc_isCapturing _ _ Hfr). apply Rs. }
  assert (Hfl : inFlight s' = 1%nat)
    by (rewrite (inv_flight _ I'), Hc; reflexivity).
  split; [|split; [|split; [|split; [|split; [|split; [|split; [|split]]]]]]];
    try assumption; rewrite Hs; cbn.
  - exact Hkey.
  - exact Hsent.
  - exact Han.
  - exact Hnw.
  - exact Hcc.
  - now rewrite (sc_tasks _ _ Hfr).
  - now rewrite (sc_replies _ _ Hfr).
Qed.

Lemma credential_gate_passed_witness :
  let u := {| u_captureInterval := None; u_autoCapture := None;
              u_openaiApiKey := Some "sk-late"; u_minimizeToTray := None;
              u_showNotifications := None |} in
  let s := run [EvReady "granted"; EvCaptureNow 1 "granted";
                EvUpdateSettings 2 u]
               (initial "win32" defaults) in
  let s' := step (EvResolve 0 (RCapture (ScreenshotBuffer 2048 "QUJD"))) s in
  apiKey s' = "sk-late" /\ networkCalls s' = 1%nat
  /\ tasks s' = [TaskPipeline (ByCaptureNow 1 true) AtAnalyzeImage].
Proof.
  cbv zeta.
  pose proof
    (credential_gate_passed
       (run [EvReady "granted"; EvCaptureNow 1 "granted";
             EvUpdateSettings 2
               {| u_captureInterval := None; u_autoCapture := None;
                  u_openaiApiKey := Some "sk-late"; u_minimizeToTray := None;
                  u_showNotifications := None |}]
            (initial "win32" defaults))
       0 (ByCaptureNow 1 true) 2048 "QUJD"
       (ex_intro _ "win32"
          (ex_intro _ defaults
             (ex_intro _ [EvReady "granted"; EvCaptureNow 1 "granted";
                          EvUpdateSettings 2
                            {| u_captureInterval := None;
                               u_autoCapture := None;
                               u_openaiApiKey := Some "sk-late";
                               u_minimizeToTray := None;
                               u_showNotifications := None |}] eq_refl)))
       eq_refl eq_refl eq_refl) as H.
  cbv zeta in H. destruct H as (H1 & _ & _ & H2 & _ & H3 & _).
  split; [exact H1|]. split; [exact H2 | exact H3].
Defined.

(** * Properties of the other modules *)

(** ** renderer: the analysis history *)

Lemma firstn_app_firstn {A} n (a b : list A) :
  firstn n (a ++ firstn n b) = firstn n (a ++ b).
Proof.
  rewrite !firstn_app, firstn_firstn. f_equal. f_equal. lia.
Qed.

Lemma removelast_firstn_len {A} (l : list A) :
  removelast l = firstn (Nat.pred (List.length l)) l.
Proof.
  induction l as [|x [|y l] IH]; cbn in *; try reflexivity.
  f_equal. exact IH.
Qed.

Lemma addToHistory_length a t h :
  List.length (addToHistory a t h) =
  if (List.length h <? 10)%nat then S (List.length h) else List.length h.
Proof.
  unfold addToHistory.
  set (l := _ :: h). assert (Hl : List.length l = S (List.length h)) by reflexivity.
  destruct (10 <? List.length l)%nat eqn:E.
  - apply Nat.ltb_lt in E. rewrite removelast_firstn_len, length_firstn, Hl.
    destruct (List.length h <? 10)%nat eqn:E'.
    + apply Nat.ltb_lt in E'. lia.
    + cbn. lia.
  - apply Nat.ltb_ge in E. rewrite Hl.
    destruct (List.length h <? 10)%nat eqn:E'; [reflexivity|].
    apply Nat.ltb_ge in E'. lia.
Qed.

Lemma addToHistory_firstn a t h :
  (List.length h <= 10)%nat ->
  addToHistory a t h =
    firstn 10 ({| h_analysis := a; h_timestamp := t |} :: h).
Proof.
  intro H. unfold addToHistory.
  set (l := _ :: h). assert (Hl : List.length l = S (List.length h)) by reflexivity.
  destruct (10 <? List.length l)%nat eqn:E.
  - apply Nat.ltb_lt in E. rewrite removelast_firstn_len.
    replace (Nat.pred (List.length l)) with 10%nat by lia. reflexivity.
  - apply Nat.ltb_ge in E. symmetry. apply firstn_all2. exact E.
Qed.

Lemma onCaptureComplete_length p h :
  ((List.length h <= 10 -> List.length (onCaptureComplete p h) <= 10)
   /\ (10 <= List.length h ->
       List.length (onCaptureComplete p h) = List.length h))%nat.
Proof.
  destruct p as [a t|e]; cbn; [|lia].
  rewrite addToHistory_length.
  destruct (List.length h <? 10)%nat eqn:E;
    [apply Nat.ltb_lt in E | apply Nat.ltb_ge in E]; lia.
Qed.

(** X11 (the history holds the ten latest analyses).  Fed the payloads of
    the [capture-complete] messages in the order they arrive, the renderer's
    history ignores the failures and, started from a history of at most ten
    items, always holds the ten most recent items, newest first.  A history
    that starts with ten items or more never changes its length: each
    addition drops exactly one item from its end. *)
Theorem history_latest (payloads : list CaptureComplete)
    (h0 : list HistoryItem) :
  let h := fold_left (fun h p => onCaptureComplete p h) payloads h0 in
  ((List.length h0 <= 10)%nat ->
   h = firstn 10 (rev (successes payloads) ++ h0)
   /\ (List.length h <= 10)%nat)
  /\ ((10 <= List.length h0)%nat -> List.length h = List.length h0).
Proof.
  cbv zeta. revert h0.
  induction payloads as [|p ps IH]; intro h0; cbn [fold_left].
  - split; [|reflexivity]. intro H. split; [|exact H].
    change (rev (successes []) ++ h0)%list with h0.
    symmetry. now apply firstn_all2.
  - destruct (IH (onCaptureComplete p h0)) as [IH1 IH2].
    destruct (onCaptureComplete_length p h0) as [L1 L2]. split.
    + intro H. destruct (IH1 (L1 H)) as [E Hlen]. split; [|exact Hlen].
      rewrite E. destruct p as [a t|e].
      * change (successes (CompleteSuccess a t :: ps))
          with ([{| h_analysis := a; h_timestamp := t |}] ++ successes ps)%list.
        cbn [onCaptureComplete].
        rewrite addToHistory_firstn by exact H.
        rewrite firstn_app_firstn, rev_app_distr, <- app_assoc. reflexivity.
      * reflexivity.
    + intro H. rewrite IH2; [now apply L2 | rewrite (L2 H); exact H].
Qed.

Lemma history_latest_witness :
  let item n := {| h_analysis := VString (units "analysis");
                   h_timestamp := n |} in
  let payloads :=
    (map (fun n => CompleteSuccess (VString (units "analysis")) n)
         [1; 2; 3; 4; 5; 6; 7; 8; 9; 10; 11; 12]
     ++ [CompleteFailure "Request timed out. Please try again."])%list in
  fold_left (fun h p => onCaptureComplete p h) payloads [] =
    map item [12; 11; 10; 9; 8; 7; 6; 5; 4; 3].
Proof.
  cbv zeta.
  pose proof
    (history_latest
       (map (fun n => CompleteSuccess (VString (units "analysis")) n)
            [1; 2; 3; 4; 5; 6; 7; 8; 9; 10; 11; 12]
        ++ [CompleteFailure "Request timed out. Please try again."])%list [])
    as [H _].
  cbv zeta in H.
  assert (H0 : (@List.length HistoryItem [] <= 10)%nat) by (cbn; lia).
  exact (proj1 (H H0)).
Defined.

(** ** preload script: subscribing and unsubscribing *)

Lemma Listener_eqb_refl l : Listener_eqb l l = true.
Proof. destruct l; cbn; apply Nat.eqb_refl. Qed.

Lemma removeListener_last channel l ls :
  ipcRenderer_removeListener channel l (ipcRenderer_on channel l ls) = ls.
Proof.
  unfold ipcRenderer_removeListener, ipcRenderer_on.
  rewrite rev_app_distr. cbn.
  rewrite String.eqb_refl, Listener_eqb_refl. cbn. apply rev_involutive.
Qed.

Lemma dropFirst_absent channel l ls :
  (forall l', In (channel, l') ls -> Listener_eqb l' l = false) ->
  dropFirst channel l ls = ls.
Proof.
  induction ls as [|[c l'] ls IH]; intro H; cbn; [reflexivity|].
  destruct (c =? channel)%string eqn:E.
  - apply String.eqb_eq in E. subst c.
    rewrite (H l') by now left. cbn. f_equal. apply IH.
    intros l'' Hin. apply H. now right.
  - cbn. f_equal. apply IH. intros l'' Hin. apply H. now right.
Qed.

Lemma removeListener_absent channel l ls :
  (forall l', In (channel, l') ls -> Listener_eqb l' l = false) ->
  ipcRenderer_removeListener channel l ls = ls.
Proof.
  intro H. unfold ipcRenderer_removeListener.
  rewrite dropFirst_absent; [apply rev_involutive|].
  intros l' Hin. apply H. now apply in_rev.
Qed.

Lemma channelOf_inj a b : channelOf a = channelOf b -> a = b.
Proof. destruct a, b; cbn; intro H; try reflexivity; discriminate. Qed.

Lemma in_dropFirst channel l x ls :
  In x (dropFirst channel l ls) -> In x ls.
Proof.
  induction ls as [|[c l'] ls IH]; cbn; [auto|].
  destruct ((c =? channel)%string && Listener_eqb l' l); cbn; intuition.
Qed.

Lemma wellFormed_ops ops : wellFormed (fold_left applyOp ops []).
Proof.
  assert (H : forall ls, wellFormed ls -> wellFormed (fold_left applyOp ops ls)).
  { induction ops as [|op ops IH]; intros ls Hls; cbn; [assumption|].
    apply IH. destruct op as [sub k|sub k]; cbn.
    - intros channel l Hin. unfold subscribe, ipcRenderer_on in Hin.
      apply in_app_or in Hin. destruct Hin as [Hin|[Hin|[]]]; [eauto|].
      inversion Hin; subst. eauto.
    - intros channel l Hin. apply Hls.
      unfold unsubscribe, ipcRenderer_removeListener in Hin.
      apply in_rev in Hin. apply in_dropFirst in Hin. now apply in_rev. }
  apply H. intros ? ? [].
Qed.

(** X12 (the unsubscribe functions of the preload script).  After any
    calls of the four subscription functions and of the functions they
    returned: subscribing to "capture-started" or "analyzing" and then calling
    the returned function leaves the listeners as they were; subscribing to
    "capture-complete" or "auto-capture-status" and then calling the returned
    function removes nothing, because the listener registered is a wrapper
    and the function asks to remove the callback: the wrapper stays
    registered. *)
Theorem unsubscribe_round_trip (ops : list ListenerOp) sub callback :
  let ls := fold_left applyOp ops [] in
  let ls' := unsubscribe sub callback (subscribe sub callback ls) in
  if registersCallback sub
  then ls' = ls
  else ls' = subscribe sub callback ls
       /\ listenersOn (channelOf sub) ls' =
          (listenersOn (channelOf sub) ls ++ [Wrapped callback])%list.
Proof.
  cbv zeta. pose proof (wellFormed_ops ops) as W.
  set (ls := fold_left applyOp ops []) in *.
  assert (Hdirect : registersCallback sub = true ->
            unsubscribe sub callback (subscribe sub callback ls) = ls).
  { intro H. unfold unsubscribe, subscribe.
    replace (registered sub callback) with (Direct callback)
      by (destruct sub; try reflexivity; discriminate).
    apply removeListener_last. }
  assert (Hwrapped : registersCallback sub = false ->
            unsubscribe sub callback (subscribe sub callback ls) =
              subscribe sub callback ls).
  { intro H. unfold unsubscribe. apply removeListener_absent.
    intros l' Hin. unfold subscribe, ipcRenderer_on in Hin.
    assert (Hex : exists sub' k, channelOf sub = channelOf sub'
                                 /\ l' = registered sub' k).
    { apply in_app_or in Hin. destruct Hin as [Hin|[Hin|[]]].
      - now apply W.
      - inversion Hin; subst. eauto. }
    destruct Hex as (sub' & k & Hc & ->).
    apply channelOf_inj in Hc. subst sub'.
    destruct sub; try discriminate; reflexivity. }
  destruct (registersCallback sub) eqn:E; [now apply Hdirect|].
  rewrite (Hwrapped eq_refl). split; [reflexivity|].
  unfold listenersOn, subscribe, ipcRenderer_on.
  rewrite filter_app, map_app. cbn. rewrite String.eqb_refl. cbn.
  destruct sub; try discriminate; reflexivity.
Qed.

(** ** tray module *)

(** X13 (the tray menu and the renderer).  Whatever the auto-capture
    status shown, every channel a tray menu entry sends on ("trigger-capture",
    "toggle-auto-from-tray", "open-settings") is none of the channels the
    preload script lets the renderer listen on; and the auto-capture entry
    asks for the opposite of the status it shows. *)
Theorem tray_channels (isAutoCaptureEnabled : bool) (e : MenuEntry) :
  In e (buildContextMenu isAutoCaptureEnabled) ->
  (forall channel, sendsOn e = Some channel -> ~ In channel relayedChannels)
  /\ (forall label channel v,
        e = MenuItem label (ActSend channel (Some v)) ->
        v = negb isAutoCaptureEnabled
        /\ (label = "✓ Auto-Capture Enabled" <-> isAutoCaptureEnabled = true)).
Proof.
  intro Hin. cbn in Hin.
  repeat (destruct Hin as [<-|Hin]); try contradiction; split;
    try (intros channel H; inversion H; subst; cbn; intuition discriminate);
    try (intros label channel v H; discriminate).
  intros label channel v H. inversion H; subst. split; [reflexivity|].
  destruct isAutoCaptureEnabled; split; intro H0; try reflexivity;
    discriminate.
Qed.

Lemma tray_channels_witness :
  ~ In "trigger-capture" relayedChannels.
Proof.
  apply (tray_channels true
           (MenuItem "Capture Now" (ActSend "trigger-capture" None))).
  - cbn. do 2 right. left. reflexivity.
  - reflexivity.
Defined.

(** X14 (the fallback tray icon).  The buffer [createDefaultIcon] fills has
    16 * 16 * 4 bytes; pixel (x, y) is opaque purple (138, 79, 255, 255) when
    (x - 8)^2 + (y - 8)^2 <= 49 and fully transparent (0, 0, 0, 0) otherwise.
    So the disc is centred on pixel (8, 8): row 0 and column 0 are empty,
    while the disc reaches row 15 and column 15. *)
Theorem default_icon (x y : nat) :
  (x < 16)%nat -> (y < 16)%nat ->
  List.length createDefaultIcon = 1024%nat
  /\ pixelAt createDefaultIcon x y =
     (if (Z.of_nat x - 8) ^ 2 + (Z.of_nat y - 8) ^ 2 <=? 49
      then [138; 79; 255; 255] else [0; 0; 0; 0])
  /\ pixelAt createDefaultIcon 0 y = [0; 0; 0; 0]
  /\ pixelAt createDefaultIcon x 0 = [0; 0; 0; 0]
  /\ pixelAt createDefaultIcon 8 15 = [138; 79; 255; 255]
  /\ pixelAt createDefaultIcon 15 8 = [138; 79; 255; 255].
Proof.
  intros Hx Hy.
  assert (Hall :
    forallb
      (fun y =>
         forallb
           (fun x =>
              if list_eq_dec Z.eq_dec
                   (pixelAt createDefaultIcon x y)
                   (if (Z.of_nat x - 8) ^ 2 + (Z.of_nat y - 8) ^ 2 <=? 49
                    then [138; 79; 255; 255] else [0; 0; 0; 0])
              then true else false)
           (seq 0 16))
      (seq 0 16) = true) by (vm_compute; reflexivity).
  assert (Hpix : forall x y, (x < 16)%nat -> (y < 16)%nat ->
            pixelAt createDefaultIcon x y =
              (if (Z.of_nat x - 8) ^ 2 + (Z.of_nat y - 8) ^ 2 <=? 49
               then [138; 79; 255; 255] else [0; 0; 0; 0])).
  { intros x0 y0 Hx0 Hy0. rewrite forallb_forall in Hall.
    specialize (Hall y0). rewrite in_seq in Hall.
    assert (Hy' : (0 <= y0 < 0 + 16)%nat) by lia. specialize (Hall Hy').
    rewrite forallb_forall in Hall. specialize (Hall x0).
    rewrite in_seq in Hall.
    assert (Hx' : (0 <= x0 < 0 + 16)%nat) by lia. specialize (Hall Hx').
    destruct (list_eq_dec _ _ _) as [E|]; [exact E|discriminate]. }
  split; [vm_compute; reflexivity|]. split; [now apply Hpix|].
  split; [|split; [|split; [vm_compute; reflexivity|vm_compute; reflexivity]]].
  - rewrite (Hpix 0%nat y) by lia.
    assert (H : ((Z.of_nat 0 - 8) ^ 2 + (Z.of_nat y - 8) ^ 2 <=? 49) = false)
      by (apply Z.leb_gt; rewrite !Z.pow_2_r; change (Z.of_nat 0) with 0;
          pose proof (Z.square_nonneg (Z.of_nat y - 8)); lia).
    now rewrite H.
  - rewrite (Hpix x 0%nat) by lia.
    assert (H : ((Z.of_nat x - 8) ^ 2 + (Z.of_nat 0 - 8) ^ 2 <=? 49) = false)
      by (apply Z.leb_gt; rewrite !Z.pow_2_r; change (Z.of_nat 0) with 0;
          pose proof (Z.square_nonneg (Z.of_nat x - 8)); lia).
    now rewrite H.
Qed.

Lemma default_icon_witness :
  pixelAt createDefaultIcon 3 4 = [138; 79; 255; 255]
  /\ pixelAt createDefaultIcon 2 2 = [0; 0; 0; 0].
Proof.
  assert (H3 : (3 < 16)%nat) by lia. assert (H4 : (4 < 16)%nat) by lia.
  assert (H2 : (2 < 16)%nat) by lia.
  split.
  - exact (proj1 (proj2 (default_icon 3 4 H3 H4))).
  - exact (proj1 (proj2 (default_icon 2 2 H2 H2))).
Defined.

(** ** api.js: [testConnection] *)

(** X15 ([testConnection]).  Without a key set, [testConnection] throws
    "API key not configured" and sends no request.  With a key it sends
    exactly one request and never returns [false]: it returns [true] when the
    request succeeds, throws "Invalid API key" when the answer has status
    401, and for every other failure throws the very error it caught (a 429,
    a 500, a network error or a timeout is not given one of the fixed
    messages of [analyzeImage]). *)
Theorem test_connection (net : GetOutcome) (s : State) :
  (truthy (apiKey s) = false ->
   testConnection net s = (Thrown (Error "API key not configured"), s))
  /\ (truthy (apiKey s) = true ->
      testConnection net s =
        (match net with
         | GetFulfilled => Normal true
         | GetRejected e =>
             Thrown (if is401 e then Error "Invalid API key" else e)
         end,
         set_networkCalls (S (networkCalls s)) s))
  /\ fst (testConnection net s) <> Normal false.
Proof.
  assert (Hno : truthy (apiKey s) = false ->
            testConnection net s = (Thrown (Error "API key not configured"), s)).
  { intro H. unfold testConnection. run_m. rewrite H. reflexivity. }
  assert (Hyes : truthy (apiKey s) = true ->
            testConnection net s =
              (match net with
               | GetFulfilled => Normal true
               | GetRejected e =>
                   Thrown (if is401 e then Error "Invalid API key" else e)
               end,
               set_networkCalls (S (networkCalls s)) s)).
  { intro H. unfold testConnection, testConnection_catch, is401. run_m.
    rewrite H. cbn [negb]. destruct net as [|e]; [reflexivity|].
    destruct (response e) as [resp|]; [|reflexivity].
    destruct (status resp =? 401); reflexivity. }
  split; [exact Hno|]. split; [exact Hyes|].
  destruct (truthy (apiKey s)) eqn:E.
  - rewrite (Hyes eq_refl). destruct net; cbn; discriminate.
  - rewrite (Hno eq_refl). cbn. discriminate.
Qed.

Lemma test_connection_witness :
  let e := {| message := "Request failed with status code 429";
              response := Some {| status := 429; providerMessage := None |};
              code := Some "ERR_BAD_REQUEST" |} in
  let s := set_apiKey "sk-test" (initial "win32" defaults) in
  fst (testConnection (GetRejected e) s) = Thrown e
  /\ fst (analyzeImage_resume (AxiosReject e) s) = Thrown (Error MSG_RATE_LIMIT).
Proof.
  cbv zeta. split; [|reflexivity].
  pose proof
    (test_connection
       (GetRejected
          {| message := "Request failed with status code 429";
             response := Some {| status := 429; providerMessage := None |};
             code := Some "ERR_BAD_REQUEST" |})
       (set_apiKey "sk-test" (initial "win32" defaults))) as (_ & H & _).
  rewrite (H eq_refl). reflexivity.
Defined.

(** ** screenshot module: [getDisplays] and [captureDisplay] *)

(** X16 ([getDisplays] and [captureDisplay]).  [getDisplays] never throws:
    it returns the displays it was given and, on any failure, the empty list
    after logging the failure.  [captureDisplay] returns the image of the
    display or, after logging "Failed to capture display <id>: <message>",
    throws the very error it caught: unlike
    [captureScreen], it does not replace an error that mentions "permission"
    by the fixed permission message. *)
Theorem displays (s : State) :
  (forall r,
     fst (getDisplays r s) =
       Normal (match r with
               | DisplaysListed displays => displays
               | DisplaysRejected _ => []
               end))
  /\ (forall e,
        logs (snd (getDisplays (DisplaysRejected e) s)) =
          (logs s ++
           [("error", ("Failed to list displays: " ++ message e)%string)])%list)
  /\ (forall displayId r,
        fst (captureDisplay displayId r s) =
          match r with
          | ScreenshotBuffer _ base64Image => Normal base64Image
          | ScreenshotRejected e => Thrown e
          end)
  /\ (forall displayId e,
        logs (snd (captureDisplay displayId (ScreenshotRejected e) s)) =
          (logs s ++
           [("error",
             ("Failed to capture display " ++ displayId ++ ": "
              ++ message e)%string)])%list)
  /\ (forall displayId e,
        includes "permission" (message e) = true ->
        fst (captureDisplay displayId (ScreenshotRejected e) s) = Thrown e
        /\ fst (captureScreen_resume (ScreenshotRejected e) s) =
             Thrown (Error MSG_CAPTURE_PERMISSION)).
Proof.
  split; [|split; [|split; [|split]]].
  - intros [ds|e]; reflexivity.
  - intro e. reflexivity.
  - intros displayId [len b|e]; reflexivity.
  - intros displayId e. reflexivity.
  - intros displayId e H. split; [reflexivity|].
    unfold captureScreen_resume, captureScreen_catch. run_m.
    rewrite H. reflexivity.
Qed.

Lemma displays_witness :
  let e := Error "no permission to capture the display" in
  fst (captureDisplay "2" (ScreenshotRejected e) (initial "darwin" defaults)) =
    Thrown e
  /\ fst (captureScreen_resume (ScreenshotRejected e)
            (initial "darwin" defaults)) =
       Thrown (Error MSG_CAPTURE_PERMISSION).
Proof.
  cbv zeta.
  apply (displays (initial "darwin" defaults)). reflexivity.
Defined.

(** * The order of the messages *)

Lemma protocol_snoc msgs m :
  protocol (msgs ++ [m]) = protocolStep (protocol msgs) m.
Proof. unfold protocol. now rewrite fold_left_app. Qed.

Lemma protocol_status l ph :
  forallb isStatus l = true ->
  exists ph',
    fold_left protocolStep l (Some ph) = Some ph' /\ atRest ph' = atRest ph.
Proof.
  revert ph. induction l as [|m l IH]; intros ph; cbn [fold_left forallb].
  - intros _. now exists ph.
  - intro H. apply andb_prop in H. destruct H as [Hm Hl].
    destruct m; try discriminate.
    destruct ph; cbn [protocolStep];
      [exact (IH Idle Hl) | exact (IH Capturing Hl)
      | exact (IH Analyzing Hl) | exact (IH Idle Hl)].
Qed.

(** While an attempt is under way the phase is known from where the
    messages stand. *)
Lemma standing_busy msgs ph :
  standing msgs = Some ph -> ph <> Idle -> protocol msgs = Some ph.
Proof.
  unfold standing. destruct (protocol msgs) as [[| | |]|]; cbn; intros H Hne;
    inversion H; subst; congruence.
Qed.

Lemma standing_idle msgs :
  standing msgs = Some Idle ->
  protocol msgs = Some Idle \/ protocol msgs = Some Reported.
Proof.
  unfold standing. destruct (protocol msgs) as [[| | |]|]; cbn; intros H;
    try discriminate; auto.
Qed.

Lemma standing_snoc msgs m :
  standing (msgs ++ [m]) = option_map atRest (protocolStep (protocol msgs) m).
Proof. unfold standing. now rewrite protocol_snoc. Qed.

Lemma points_app a b :
  pipelinePoints (a ++ b) = (pipelinePoints a ++ pipelinePoints b)%list.
Proof. apply flat_map_app. Qed.

Lemma points_length ts :
  List.length (pipelinePoints ts) = List.length (filter isPipeline ts).
Proof.
  induction ts as [|[w|c p] ts IH]; cbn; auto.
Qed.

Lemma points_take i c p ts :
  nth_error ts i = Some (TaskPipeline c p) ->
  List.length (filter isPipeline ts) = 1%nat ->
  pipelinePoints ts = [p] /\ pipelinePoints (removeAt i ts) = [].
Proof.
  revert i. induction ts as [|t ts IH]; intros [|i] Hn Hl; cbn in *;
    try discriminate.
  - inversion Hn; subst. cbn in *.
    assert (H0 : List.length (pipelinePoints ts) = 0%nat)
      by (rewrite points_length; lia).
    fold (pipelinePoints ts).
    destruct (pipelinePoints ts); [split; reflexivity|discriminate].
  - destruct t as [w|c' p']; cbn in *.
    + now apply (IH i).
    + pose proof (removeAt_count isPipeline _ _ _ Hn) as Hf. cbn in Hf. lia.
Qed.

Lemma points_drop_dialog i w ts :
  nth_error ts i = Some (TaskDialog w) ->
  pipelinePoints (removeAt i ts) = pipelinePoints ts.
Proof.
  revert i. induction ts as [|t ts IH]; intros [|i] Hn; cbn in *;
    try discriminate.
  - inversion Hn; subst. reflexivity.
  - f_equal. now apply (IH i).
Qed.

Lemma talk_same s s' : sent s' = sent s -> tasks s' = tasks s -> sameTalk s s'.
Proof.
  intros H1 H2. constructor; [|now rewrite H2].
  exists []. rewrite app_nil_r. auto.
Qed.

Lemma sameTalk_trans s1 s2 s3 : sameTalk s1 s2 -> sameTalk s2 s3 -> sameTalk s1 s3.
Proof.
  intros [(l & E & Hl) P] [(l' & E' & Hl') P']. constructor; [|congruence].
  exists (l ++ l')%list. rewrite E', E, app_assoc, forallb_app, Hl, Hl'. auto.
Qed.

Lemma talk_status b s s1 :
  tasks s1 = tasks s ->
  sent s1 = (sent s ++ if mainWindow s then [MsgAutoCaptureStatus b] else [])%list ->
  sameTalk s s1.
Proof.
  intros H1 H2. constructor; [|now rewrite H1].
  eexists. split; [exact H2|]. destruct (mainWindow s); reflexivity.
Qed.

Lemma talk_started s : sameTalk s (started s).
Proof.
  destruct (started_fields s) as (A1 & _).
  destruct (started_effects s) as (B1 & _). now apply (talk_status true).
Qed.

Lemma talk_stopped s : sameTalk s (stopped s).
Proof.
  destruct (stopped_fields s) as (A1 & _).
  destruct (stopped_effects s) as (B1 & _). now apply (talk_status false).
Qed.

Lemma talk_spawn_dialog w s : sameTalk s (spawn (TaskDialog w) s).
Proof.
  constructor.
  - exists []. rewrite app_nil_r. auto.
  - unfold spawn; cbn. rewrite points_app. cbn. apply app_nil_r.
Qed.

Lemma talk_permissionThen_false w s : sameTalk s (permissionThen w false s).
Proof. destruct w; cbn; now apply talk_same. Qed.

Lemma talk_updateSettings u s : sameTalk s (snd (updateSettings u s)).
Proof.
  unfold updateSettings. destruct u as [ci ac key tray notif].
  cbn [u_captureInterval u_autoCapture u_openaiApiKey u_minimizeToTray
       u_showNotifications].
  assert (Hrest : forall s0,
            sameTalk s0
              (snd ((match key with
                     | Some v => store_set (set_openaiApiKey v)
                     | None => ret tt
                     end ;;
                     match tray with
                     | Some v => store_set (set_minimizeToTray v)
                     | None => ret tt
                     end ;;
                     match notif with
                     | Some v => store_set (set_showNotifications v)
                     | None => ret tt
                     end ;;
                     log "info" "Settings updated" ;; ret true) s0))).
  { intro s0. destruct key, tray, notif; now apply talk_same. }
  destruct ci as [v|].
  - cbv [bind store_set store_get modify gets when]. fields.
    destruct (autoCapture (store s)).
    + rewrite startAutoCapture_spec.
      eapply sameTalk_trans; [|apply Hrest].
      eapply sameTalk_trans; [|apply talk_started].
      now apply talk_same.
    + eapply sameTalk_trans; [|apply Hrest]. now apply talk_same.
  - apply (Hrest s).
Qed.

Lemma protocol_talk s s' :
  sameTalk s s' ->
  standing (sent s) = Some (phaseOf (tasks s)) ->
  standing (sent s') = Some (phaseOf (tasks s')).
Proof.
  intros [(l & E & Hl) P] H. unfold phaseOf in *. rewrite P, E.
  unfold standing, protocol in *. rewrite fold_left_app.
  destruct (fold_left protocolStep (sent s) (Some Idle)) as [ph|];
    [|discriminate].
  destruct (protocol_status l ph Hl) as (ph' & E' & R).
  rewrite E'. cbn in *. now rewrite R.
Qed.

Lemma protocol_performCapture c s :
  Ordered s ->
  standing (sent (settlePipeline c (performCapture s))) =
    Some (phaseOf (tasks (settlePipeline c (performCapture s)))).
Proof.
  intros [I Hw H]. destruct (isCapturing s) eqn:Hb.
  - rewrite performCapture_busy by assumption. cbn [settlePipeline].
    destruct c; exact H.
  - rewrite performCapture_idle by assumption. cbn [settlePipeline].
    rewrite Hw.
    set (s' := spawn _ _).
    assert (E : sent s' = (sent s ++ [MsgCaptureStarted])%list) by reflexivity.
    assert (T : tasks s' = (tasks s ++ [TaskPipeline c AtCaptureScreen])%list)
      by reflexivity.
    pose proof (inv_flight s I) as Hf. rewrite Hb in Hf. unfold inFlight in Hf.
    assert (Hp : pipelinePoints (tasks s) = []).
    { pose proof (points_length (tasks s)) as Hl. rewrite Hf in Hl.
      destruct (pipelinePoints (tasks s)); [reflexivity|discriminate]. }
    unfold phaseOf in *. rewrite E, T, points_app, Hp. rewrite Hp in H.
    rewrite standing_snoc.
    destruct (standing_idle _ H) as [-> | ->]; reflexivity.
Qed.

Lemma protocol_resume i c p r body s :
  Ordered s ->
  nth_error (tasks s) i = Some (TaskPipeline c p) ->
  performCapture_tryResume p r = Some body ->
  standing (sent (step (EvResolve i r) s)) =
    Some (phaseOf (tasks (step (EvResolve i r) s))).
Proof.
  intros [I Hw H] Hn Hb.
  rewrite (resolve_pipeline _ _ _ _ _ _ Hn Hb).
  assert (Hone : List.length (filter isPipeline (tasks s)) = 1%nat).
  { pose proof (removeAt_count isPipeline _ _ _ Hn) as Hf. cbn in Hf.
    pose proof (inv_flight s I) as Hfl. unfold inFlight in Hfl.
    destruct (isCapturing s); lia. }
  destruct (points_take _ _ _ _ Hn Hone) as [Hp Hp'].
  pose proof (tryResume_frame _ _ _ Hb (taken i s)) as Hfr.
  destruct (body (taken i s)) as [o s1] eqn:Hbody.
  destruct (segment_effects _ _ _ _ _ _ Hb Hbody) as [_ Ho].
  cbn [snd] in Hfr. pose proof (sc_tasks _ _ Hfr) as Ht.
  pose proof (sc_mainWindow _ _ Hfr) as Hw1.
  change (tasks (taken i s)) with (removeAt i (tasks s)) in Ht.
  change (mainWindow (taken i s)) with (mainWindow s) in Hw1.
  change (mainWindow (taken i s)) with (mainWindow s) in Ho.
  change (sent (taken i s)) with (sent s) in Ho.
  rewrite Hw in Hw1, Ho. unfold phaseOf in H. rewrite Hp in H.
  assert (Hph : protocol (sent s) =
                Some match p with
                     | AtAnalyzeImage => Analyzing
                     | _ => Capturing
                     end).
  { destruct p; try (apply standing_busy; [exact H|discriminate]).
    cbn in Hb. destruct r; discriminate. }
  destruct o as [a|e|q].
  - destruct Ho as (-> & _ & _ & analysis & _ & _ & Hsent & _).
    assert (E : sent (callerReturns c (set_isCapturing false s1)) =
                (sent s ++
                 [MsgCaptureComplete
                    (CompleteSuccess analysis (now (taken i s)))])%list)
      by (destruct c; exact Hsent).
    assert (T : tasks (callerReturns c (set_isCapturing false s1)) =
                removeAt i (tasks s)) by (destruct c; exact Ht).
    rewrite E, standing_snoc, Hph. unfold phaseOf. rewrite T, Hp'.
    cbn. destruct (isString analysis); reflexivity.
  - destruct Ho as (Hsent & _).
    rewrite performCapture_catch_returns. cbn [snd]. rewrite Hw1.
    assert (E : sent (callerReturns c
                        (set_isCapturing false
                           (set_sent
                              (sent s1 ++
                               [MsgCaptureComplete (CompleteFailure (message e))])
                              (set_logs
                                 (logs s1 ++
                                  [("error",
                                    "Capture/analysis error: " ++ message e)])
                                 s1)))) =
                ((sent s ++ sentBeforeThrow r (taken i s)) ++
                 [MsgCaptureComplete (CompleteFailure (message e))])%list)
      by (destruct c; cbn; now rewrite Hsent).
    assert (T : tasks (callerReturns c
                        (set_isCapturing false
                           (set_sent
                              (sent s1 ++
                               [MsgCaptureComplete (CompleteFailure (message e))])
                              (set_logs
                                 (logs s1 ++
                                  [("error",
                                    "Capture/analysis error: " ++ message e)])
                                 s1)))) = removeAt i (tasks s))
      by (destruct c; exact Ht).
    rewrite E, standing_snoc. unfold phaseOf. rewrite T, Hp'.
    destruct p.
    + cbn in Hb. destruct r; discriminate.
    + assert (Hnone : sentBeforeThrow r (taken i s) = [])
        by (cbn in Hb; destruct r; try discriminate; reflexivity).
      rewrite Hnone, app_nil_r, Hph. reflexivity.
    + destruct (sentBeforeThrow_cases r (taken i s))
        as [Hnone|(analysis & timestamp & Hodd & Hone')].
      * rewrite Hnone, app_nil_r, Hph. reflexivity.
      * rewrite Hone', protocol_snoc, Hph. cbn. rewrite Hodd. reflexivity.
  - destruct Ho as (-> & -> & Hsent & _).
    set (s' := spawn _ s1).
    assert (E : sent s' = (sent s ++ [MsgAnalyzing])%list) by exact Hsent.
    assert (T : tasks s' =
                (removeAt i (tasks s) ++ [TaskPipeline c AtAnalyzeImage])%list)
      by (subst s'; unfold spawn; cbn; now rewrite Ht).
    rewrite E, standing_snoc, Hph.
    unfold phaseOf. rewrite T, points_app, Hp'. reflexivity.
Qed.

Lemma protocol_permissionThen w hp s :
  Ordered s ->
  standing (sent (permissionThen w hp s)) =
    Some (phaseOf (tasks (permissionThen w hp s))).
Proof.
  intro O. pose proof (ord_protocol s O) as H. destruct hp.
  - destruct w as [req|req enabled|]; cbn.
    + unfold captureNow_continue. now apply protocol_performCapture.
    + unfold toggleAutoCapture_continue, runSync. cbn [negb].
      destruct enabled;
        [rewrite startAutoCapture_spec | rewrite stopAutoCapture_spec].
      * apply (protocol_talk s); [|exact H].
        eapply sameTalk_trans; [apply talk_started|now apply talk_same].
      * apply (protocol_talk s); [|exact H].
        eapply sameTalk_trans; [apply talk_stopped|now apply talk_same].
    + unfold ready_continue, runSync. rewrite startAutoCapture_spec.
      apply (protocol_talk s); [apply talk_started|exact H].
  - apply (protocol_talk s); [apply talk_permissionThen_false|exact H].
Qed.

Lemma protocol_askPermission w st s :
  Ordered s ->
  standing (sent (askPermission w st s)) =
    Some (phaseOf (tasks (askPermission w st s))).
Proof.
  intro O. unfold askPermission. rewrite requestScreenCapturePermission_spec.
  destruct (granted (platform s) st); cbn [settlePermission].
  - now apply protocol_permissionThen.
  - apply (protocol_talk s); [apply talk_spawn_dialog|apply O].
Qed.

Lemma protocol_step e s :
  Ordered s ->
  standing (sent (step e s)) = Some (phaseOf (tasks (step e s))).
Proof.
  intro O. pose proof O as [I Hw H]. destruct e.
  - cbn [step]. set (s1 := runSync (log "info" "System tray created") _).
    assert (O1 : Ordered s1).
    { constructor; [|reflexivity|exact H].
      revert I. apply Inv_ext; reflexivity. }
    destruct (autoCapture (store s1)); [|exact H].
    now apply protocol_askPermission.
  - exact H.
  - cbn [step]. destruct (findTimer id (timers s)) as [t|]; [|exact H].
    destruct (due t <=? now s); [|exact H].
    unfold timerCallback.
    assert (Or : Ordered (rearm id s)).
    { constructor; [now apply Inv_rearm|exact Hw|exact H]. }
    destruct (isCapturing (rearm id s)); [exact H|].
    now apply protocol_performCapture.
  - cbn [step]. now apply protocol_askPermission.
  - cbn [step]. now apply protocol_askPermission.
  - cbn [step]. pose proof (talk_updateSettings settings s) as T.
    destruct (updateSettings_spec settings s) as (s1 & E & _).
    rewrite E in *. cbn [snd] in T.
    apply (protocol_talk s); [|exact H].
    eapply sameTalk_trans; [exact T|now apply talk_same].
  - destruct (nth_error (tasks s) i) as [[w|c p]|] eqn:Hn.
    + cbn [step]. unfold resolve. rewrite Hn. destruct r; try exact H.
      rewrite requestScreenCapturePermission_resume_spec.
      cbn [settlePermission].
      apply (protocol_talk s); [|exact H].
      eapply sameTalk_trans; [|apply talk_permissionThen_false].
      constructor.
      * exists []. rewrite app_nil_r. auto.
      * cbn. now apply (points_drop_dialog i w).
    + destruct (performCapture_tryResume p r) as [body|] eqn:Hb.
      * exact (protocol_resume _ _ _ _ _ _ O Hn Hb).
      * cbn [step]. unfold resolve, performCapture_resume.
        rewrite Hn, Hb. exact H.
    + cbn [step]. unfold resolve. rewrite Hn. exact H.
  - cbn [step]. destruct (_ && _); exact H.
  - cbn [step]. destruct (mainWindow s); exact H.
  - cbn [step]. unfold runSync, bind. rewrite stopAutoCapture_spec. cbn.
    apply (protocol_talk s); [|exact H].
    eapply sameTalk_trans; [|apply talk_stopped]. now apply talk_same.
Qed.

Lemma Ordered_run evs s :
  Ordered s -> windowKept evs s = true -> Ordered (run evs s).
Proof.
  revert s. induction evs as [|e evs IH]; intros s O W; cbn in *; [assumption|].
  apply andb_prop in W. destruct W as [W1 W2].
  apply IH; [|assumption].
  constructor; [apply Inv_step, O | exact W1 | now apply protocol_step].
Qed.

(** The window exists once the application is ready. *)
Lemma ready_window pf persisted st :
  mainWindow (step (EvReady st) (initial pf persisted)) = true.
Proof.
  cbn [step]. set (s1 := runSync (log "info" "System tray created") _).
  destruct (autoCapture (store s1)); [|reflexivity].
  unfold askPermission. rewrite requestScreenCapturePermission_spec.
  destruct (granted (platform s1) st); cbn [settlePermission];
    [|reflexivity].
  cbn [permissionThen]. unfold ready_continue, runSync.
  rewrite startAutoCapture_spec.
  destruct (started_effects s1) as (_ & _ & _ & _ & Hw & _). now rewrite Hw.
Qed.

(** X17 (the order of the messages).  From start-up on, as long as the main
    window is never destroyed (it exists after every event), the messages
    sent to the renderer are in order, whatever the interleaving of
    requests, ticks, settings updates and completions: each attempt sends
    "capture-started", then "analyzing" if it gets as far as the request,
    then "capture-complete", a successful one only after "analyzing".  An
    attempt sends a second "capture-complete" only in one case: a failure
    right after a success whose analysis is not a string, with no other
    message in between.  The messages of two attempts never interleave, and
    the messages sent so far end exactly where the attempt in flight stands
    (none, waiting for the screenshot, waiting for the analysis). *)
Theorem message_order (pf : string) (persisted : Settings) (st : string)
    (evs : list Event) :
  let s0 := step (EvReady st) (initial pf persisted) in
  windowKept evs s0 = true ->
  standing (sent (run evs s0)) = Some (phaseOf (tasks (run evs s0))).
Proof.
  intros s0 W.
  assert (O0 : Ordered s0).
  { constructor.
    - apply Inv_step, Inv_initial.
    - apply ready_window.
    - subst s0. cbn [step]. set (s1 := runSync (log "info" "System tray created") _).
      assert (O1 : Ordered s1).
      { constructor; [|reflexivity|reflexivity].
        apply (Inv_ext (initial pf persisted)); try reflexivity.
        apply Inv_initial. }
      destruct (autoCapture (store s1)); [|reflexivity].
      now apply protocol_askPermission. }
  apply (Ordered_run evs s0 O0 W).
Qed.

Lemma message_order_witness :
  let s0 := step (EvReady "granted")
                 (initial "win32" (set_openaiApiKey "sk-test" defaults)) in
  let evs := [EvToggleAutoCapture 1 true "granted"; EvAdvance 10000; EvTick 0;
              EvResolve 0 (RCapture (ScreenshotBuffer 2048 "QUJD"));
              EvResolve 0 (RAnalysis (AxiosResponse
                                        (DataContent (VBoolean true))));
              EvWindowClose; EvAdvance 10000; EvTick 0] in
  windowKept evs s0 = true
  /\ standing (sent (run evs s0)) = Some Capturing
  /\ sent (run evs s0) =
       [MsgAutoCaptureStatus true; MsgCaptureStarted; MsgAnalyzing;
        MsgCaptureComplete (CompleteSuccess (VBoolean true) 10000);
        MsgCaptureComplete
          (CompleteFailure "analysis.substring is not a function");
        MsgCaptureStarted].
Proof.
  cbv zeta. split; [reflexivity|]. split; [|reflexivity].
  apply (message_order "win32" (set_openaiApiKey "sk-test" defaults) "granted"
           [EvToggleAutoCapture 1 true "granted"; EvAdvance 10000; EvTick 0;
            EvResolve 0 (RCapture (ScreenshotBuffer 2048 "QUJD"));
            EvResolve 0 (RAnalysis (AxiosResponse
                                      (DataContent (VBoolean true))));
            EvWindowClose; EvAdvance 10000; EvTick 0]).
  reflexivity.
Defined.

(** * The main window and "minimize to tray" *)

Lemma shell_refl s : sameShell s s.
Proof. repeat split. Qed.

Lemma shell_trans s1 s2 s3 : sameShell s1 s2 -> sameShell s2 s3 -> sameShell s1 s3.
Proof. intros (A & B & C) (A' & B' & C'). repeat split; congruence. Qed.

Lemma shell_control s s' : sameControl s s' -> sameShell s s'.
Proof. intros []. repeat split; congruence. Qed.

Lemma shell_started s : sameShell s (started s).
Proof. unfold started. destruct (mainWindow s) eqn:E; repeat split; cbn; auto. Qed.

Lemma shell_stopped s : sameShell s (stopped s).
Proof. unfold stopped. destruct (mainWindow s) eqn:E; repeat split; cbn; auto. Qed.

Lemma shell_callerReturns c s : sameShell s (callerReturns c s).
Proof. destruct c; repeat split. Qed.

Lemma shell_performCapture c s : sameShell s (settlePipeline c (performCapture s)).
Proof.
  destruct (isCapturing s) eqn:Hb.
  - rewrite performCapture_busy by assumption. apply shell_callerReturns.
  - rewrite performCapture_idle by assumption. cbn [settlePipeline].
    destruct (mainWindow s) eqn:E; repeat split; cbn; auto.
Qed.

Lemma shell_permissionThen w hp s : sameShell s (permissionThen w hp s).
Proof.
  destruct w as [req|req enabled|]; cbn.
  - unfold captureNow_continue. destruct hp; [apply shell_performCapture|].
    repeat split.
  - unfold toggleAutoCapture_continue, runSync.
    destruct hp; cbn [negb]; [|repeat split].
    destruct enabled;
      [rewrite startAutoCapture_spec | rewrite stopAutoCapture_spec].
    + eapply shell_trans; [apply shell_started|repeat split].
    + eapply shell_trans; [apply shell_stopped|repeat split].
  - unfold ready_continue, runSync. destruct hp; [|apply shell_refl].
    rewrite startAutoCapture_spec. apply shell_started.
Qed.

Lemma shell_askPermission w st s : sameShell s (askPermission w st s).
Proof.
  unfold askPermission. rewrite requestScreenCapturePermission_spec.
  destruct (granted (platform s) st); cbn [settlePermission].
  - apply shell_permissionThen.
  - repeat split.
Qed.

Lemma shell_resolve i r s : sameShell s (resolve i r s).
Proof.
  unfold resolve.
  destruct (nth_error (tasks s) i) as [[w|c p]|] eqn:Hn; try apply shell_refl.
  - destruct r; try apply shell_refl.
    rewrite requestScreenCapturePermission_resume_spec. cbn [settlePermission].
    eapply shell_trans; [|apply shell_permissionThen]. repeat split.
  - unfold performCapture_resume.
    destruct (performCapture_tryResume p r) as [body|] eqn:Hb;
      [|apply shell_refl].
    rewrite performCapture_guard. fold (taken i s).
    pose proof (tryResume_frame _ _ _ Hb (taken i s)) as Hfr.
    destruct (body (taken i s)) as [[a|e|q] s1]; cbn [snd] in Hfr;
      cbn [settlePipeline].
    + eapply shell_trans; [|apply shell_callerReturns].
      apply shell_control in Hfr. destruct Hfr as (A & B & C).
      repeat split; cbn; auto.
    + pose proof (frames_performCapture_catch e s1) as Hk.
      pose proof (shell_control _ _ (sameControl_trans _ _ _ Hfr Hk))
        as (A & B & C).
      eapply shell_trans; [|apply shell_callerReturns].
      repeat split; cbn; auto.
    + apply shell_control in Hfr. destruct Hfr as (A & B & C).
      repeat split; cbn; auto.
Qed.

(** The [update-settings] handler touches neither the window nor the
    quitting flag. *)
Lemma updateSettings_window u s :
  mainWindow (snd (updateSettings u s)) = mainWindow s
  /\ isQuitting (snd (updateSettings u s)) = isQuitting s.
Proof.
  unfold updateSettings. destruct u as [ci ac key tray notif].
  cbn [u_captureInterval u_autoCapture u_openaiApiKey u_minimizeToTray
       u_showNotifications].
  assert (Hrest : forall s0 s1,
            mainWindow s0 = mainWindow s1 /\ isQuitting s0 = isQuitting s1 ->
            let s2 :=
              snd ((match key with
                    | Some v => store_set (set_openaiApiKey v)
                    | None => ret tt
                    end ;;
                    match tray with
                    | Some v => store_set (set_minimizeToTray v)
                    | None => ret tt
                    end ;;
                    match notif with
                    | Some v => store_set (set_showNotifications v)
                    | None => ret tt
                    end ;;
                    log "info" "Settings updated" ;; ret true) s0) in
            mainWindow s2 = mainWindow s1 /\ isQuitting s2 = isQuitting s1).
  { intros s0 s1 H. destruct key, tray, notif; exact H. }
  destruct ci as [v|].
  - cbv [bind store_set store_get modify gets when]. fields.
    destruct (autoCapture (store s)).
    + rewrite startAutoCapture_spec.
      apply (Hrest (started (set_store (set_captureInterval v (store s)) s)) s).
      destruct (shell_started (set_store (set_captureInterval v (store s)) s))
        as (C & D & _).
      split; assumption.
    + apply (Hrest (set_store (set_captureInterval v (store s)) s) s).
      split; reflexivity.
  - apply (Hrest s s). split; reflexivity.
Qed.

Lemma windowSafe_shell s s' : sameShell s s' -> windowSafe s -> windowSafe s'.
Proof.
  intros (A & B & C) (W1 & W2 & W3). repeat split; congruence.
Qed.

Lemma windowSafe_step e s :
  keepsWindow e = true -> windowSafe s -> windowSafe (step e s).
Proof.
  intros He W. pose proof W as (W1 & W2 & W3). destruct e; try discriminate.
  - cbn [step]. set (s1 := runSync (log "info" "System tray created") _).
    assert (Ws1 : windowSafe s1) by (repeat split; assumption).
    destruct (autoCapture (store s1)); [|assumption].
    apply (windowSafe_shell s1); [apply shell_askPermission|assumption].
  - repeat split; assumption.
  - cbn [step]. destruct (findTimer id (timers s)) as [t|]; [|assumption].
    destruct (due t <=? now s); [|assumption]. unfold timerCallback.
    destruct (isCapturing (rearm id s)); [repeat split; assumption|].
    apply (windowSafe_shell (rearm id s)); [apply shell_performCapture|].
    repeat split; assumption.
  - apply (windowSafe_shell s); [apply shell_askPermission|assumption].
  - apply (windowSafe_shell s); [apply shell_askPermission|assumption].
  - cbn [step].
    destruct (updateSettings_window settings s) as [A B].
    destruct (updateSettings_spec settings s) as (s1 & E & Hst & _).
    rewrite E in *. cbn [snd] in A, B. repeat split; cbn.
    + now rewrite A.
    + rewrite Hst. cbn. cbn in He.
      destruct (u_minimizeToTray settings) as [[|]|];
        [reflexivity|discriminate|assumption].
    + now rewrite B.
  - apply (windowSafe_shell s); [apply shell_resolve|assumption].
  - cbn [step]. rewrite W2, W3. cbn. assumption.
  - cbn [step]. rewrite W1. assumption.
Qed.

(** X18 (minimize to tray keeps the window).  While "minimize to tray" is
    stored as on and the application is not quitting, closing the window only
    hides it: from a state with the window, no sequence of events without a
    [before-quit] and without a settings update that switches "minimize to
    tray" off ever leaves the process without its main window. *)
Theorem window_kept (s : State) (evs : list Event) :
  mainWindow s = true -> minimizeToTray (store s) = true ->
  isQuitting s = false ->
  forallb keepsWindow evs = true ->
  windowKept evs s = true /\ mainWindow (run evs s) = true
  /\ minimizeToTray (store (run evs s)) = true.
Proof.
  intros H1 H2 H3. assert (W : windowSafe s) by (repeat split; assumption).
  clear H1 H2 H3. revert s W.
  induction evs as [|e evs IH]; intros s W H; cbn in *.
  - destruct W as (W1 & W2 & _). auto.
  - apply andb_prop in H. destruct H as [He Hevs].
    pose proof (windowSafe_step e s He W) as W'.
    destruct (IH _ W' Hevs) as (A & B & C).
    destruct W' as (W1 & _). rewrite W1, A. auto.
Qed.

Lemma window_kept_witness :
  let s := step (EvReady "granted") (initial "darwin" defaults) in
  let evs := [EvCaptureNow 1 "granted"; EvWindowClose;
              EvResolve 0 (RCapture (ScreenshotBuffer 2048 "QUJD"))] in
  windowKept evs s = true
  /\ sent (run evs s) =
       [MsgCaptureStarted;
        MsgCaptureComplete (CompleteFailure MSG_NO_API_KEY)].
Proof.
  cbv zeta. split; [|reflexivity].
  apply (window_kept (step (EvReady "granted") (initial "darwin" defaults))
           [EvCaptureNow 1 "granted"; EvWindowClose;
            EvResolve 0 (RCapture (ScreenshotBuffer 2048 "QUJD"))]);
    reflexivity.
Defined.

(** * Quitting and the next start-up *)

Lemma beforeQuit_timerOff s : Inv s -> timerOff (step EvBeforeQuit s).
Proof.
  intro I. cbn [step]. unfold runSync, bind. rewrite stopAutoCapture_spec.
  apply (stopped_timerOff (set_isQuitting true s)).
  revert I. apply Inv_ext; reflexivity.
Qed.

(** X19 (a regular quit forgets auto-capture).  The [before-quit] handler
    stops auto-capture through [stopAutoCapture], which also stores
    auto-capture as off.  So unless auto-capture is switched on again before
    the process ends, the settings it leaves behind make the next start-up
    skip the restore: whatever the permission status then, no permission is
    asked for, no timer is armed and nothing is sent, even if auto-capture
    was running when the user quit. *)
Theorem quit_forgets_auto_capture (s : State) (evs : list Event)
    (pf st : string) :
  reachable s ->
  forallb noStart evs = true ->
  let s' := run evs (step EvBeforeQuit s) in
  let s2 := step (EvReady st) (initial pf (store s')) in
  autoCapture (store s') = false
  /\ timers s2 = [] /\ captureIntervalId s2 = None /\ tasks s2 = []
  /\ sent s2 = [] /\ autoCapture (store s2) = false.
Proof.
  intros R Hevs s' s2.
  pose proof (timerOff_run evs _ Hevs
                (beforeQuit_timerOff s (reachable_Inv s R))) as (_ & _ & Hoff).
  fold s' in Hoff. split; [exact Hoff|].
  subst s2. cbn [step].
  set (s1 := runSync (log "info" "System tray created") _).
  change (autoCapture (store s1)) with (autoCapture (store s')).
  rewrite Hoff. subst s1. cbn. rewrite Hoff. repeat split.
Qed.

Lemma quit_forgets_auto_capture_witness :
  let s := run [EvReady "granted"; EvToggleAutoCapture 1 true "granted"]
               (initial "darwin" defaults) in
  let s' := run [EvWindowClose] (step EvBeforeQuit s) in
  timers s <> [] /\ autoCapture (store s) = true
  /\ timers (step (EvReady "granted") (initial "darwin" (store s'))) = [].
Proof.
  cbv zeta. split; [discriminate|]. split; [reflexivity|].
  pose proof
    (quit_forgets_auto_capture
       (run [EvReady "granted"; EvToggleAutoCapture 1 true "granted"]
            (initial "darwin" defaults))
       [EvWindowClose] "darwin" "granted"
       (ex_intro _ "darwin"
          (ex_intro _ defaults
             (ex_intro _ [EvReady "granted";
                          EvToggleAutoCapture 1 true "granted"] eq_refl)))
       eq_refl) as H.
  cbv zeta in H. destruct H as (_ & H & _). exact H.
Defined.
